(** * Control-plane state migration: exporter, fetcher and importer

    A shallow embedding of the migration core of the [up] command line
    tool (packages [pkg/migration/exporter], [pkg/migration/importer] and
    [pkg/migration/crossplane]) together with the properties that its
    design document states about it.

    Go maps used as sets ([map[string]struct{}]) are [gset string]; decoded
    JSON documents ([map[string]interface{}]) are trees over [gmap string];
    slices are lists; fallible calls return [result]; the calls that reach
    the API server, the file system or the clock take their outcome from an
    explicit environment record. *)

From Stdlib Require Import ZArith String Ascii List Bool Lia.
From stdpp Require Import base decidable option list gmap strings sets.

#[local] Set Warnings "-clear-no-such-hyp".

Open Scope string_scope.
Open Scope list_scope.

(** ** Errors and results *)

(** [errors.Errorf], [errors.Wrap] and [errors.Wrapf] of crossplane-runtime:
    a message, its arguments and, for a wrapped error, the cause. *)
Inductive error : Type :=
| Errorf (msg : string) (args : list string)
| Wrapf (cause : error) (msg : string) (args : list string).

Definition Wrap (cause : error) (msg : string) : error := Wrapf cause msg [].

Inductive result (A : Type) : Type :=
| Ok (a : A)
| Error (e : error).
Arguments Ok {A} a.
Arguments Error {A} e.

Definition is_ok {A} (r : result A) : bool :=
  match r with Ok _ => true | Error _ => false end.

Definition is_error {A} (r : result A) : bool := negb (is_ok r).

(** ** Go's [strings] package *)

Module strings.

(** [len(s) >= len(prefix) && s[:len(prefix)] == prefix] *)
Definition HasPrefix (s pre : string) : bool :=
  (String.length pre <=? String.length s)%nat
  && String.eqb (substring 0 (String.length pre) s) pre.

(** [len(s) >= len(suffix) && s[len(s)-len(suffix):] == suffix] *)
Definition HasSuffix (s suf : string) : bool :=
  (String.length suf <=? String.length s)%nat
  && String.eqb
       (substring (String.length s - String.length suf) (String.length suf) s)
       suf.

End strings.

(** [contains] of the importer, and the loop shape shared by
    [isBaseResource]. *)
Fixpoint contains (ss : list string) (s : string) : bool :=
  match ss with
  | [] => false
  | v :: rest => if String.eqb v s then true else contains rest s
  end.

(** ** Unstructured objects *)

(** A decoded JSON document, as [encoding/json] leaves it in an
    [interface{}]. *)
#[warnings="-register-all"]
Inductive value : Type :=
| VNull
| VBool (b : bool)
| VNum (z : Z)
| VStr (s : string)
| VList (l : list value)
| VMap (m : gmap string value).

(** [metav1.OwnerReference], the fields the migration reads. *)
Record OwnerReference := {
  or_APIVersion : string;
  or_Kind : string;
  or_Name : string;
}.

Module unstructured.

(** [unstructured.Unstructured]: the [Object] field. *)
Definition Unstructured := gmap string value.

(** [NestedFieldNoCopy]: walk the field names through nested maps; a
    missing key or a non-map on the way gives no value. *)
Fixpoint NestedFieldNoCopy (obj : gmap string value) (fields : list string)
  : option value :=
  match fields with
  | [] => Some (VMap obj)
  | [f] => obj !! f
  | f :: rest =>
      match obj !! f with
      | Some (VMap m) => NestedFieldNoCopy m rest
      | _ => None
      end
  end.

(** [getNestedString]: the empty string unless the field is a string. *)
Definition getNestedString (obj : gmap string value) (fields : list string)
  : string :=
  match NestedFieldNoCopy obj fields with
  | Some (VStr s) => s
  | _ => ""
  end.

Definition GetKind (u : Unstructured) : string := getNestedString u ["kind"].
Definition GetAPIVersion (u : Unstructured) : string :=
  getNestedString u ["apiVersion"].
Definition GetName (u : Unstructured) : string :=
  getNestedString u ["metadata"; "name"].
Definition GetNamespace (u : Unstructured) : string :=
  getNestedString u ["metadata"; "namespace"].

Definition as_string (v : value) : option string :=
  match v with VStr s => Some s | _ => None end.

(** [NestedStringMap] behind [GetLabels]: nil ([None]) when the field is
    missing, is not a map, or holds a value that is not a string. *)
Definition GetLabels (u : Unstructured) : option (gmap string string) :=
  match NestedFieldNoCopy u ["metadata"; "labels"] with
  | Some (VMap m) =>
      if bool_decide (map_Forall (fun _ v => is_Some (as_string v)) m)
      then Some (omap as_string m)
      else None
  | _ => None
  end.

(** Indexing a [map[string]string] that may be nil: the zero value when
    the key is absent. *)
Definition index (m : option (gmap string string)) (k : string) : string :=
  match m with
  | Some m => default "" (m !! k)
  | None => ""
  end.

Definition extractOwnerReference (v : gmap string value) : OwnerReference :=
  {| or_APIVersion := getNestedString v ["apiVersion"];
     or_Kind := getNestedString v ["kind"];
     or_Name := getNestedString v ["name"] |}.

Definition as_map (v : value) : option (gmap string value) :=
  match v with VMap m => Some m | _ => None end.

(** [GetOwnerReferences]: nil ([None]) when the field is missing, is not
    a list, or holds an element that is not a map. *)
Definition GetOwnerReferences (u : Unstructured)
  : option (list OwnerReference) :=
  match NestedFieldNoCopy u ["metadata"; "ownerReferences"] with
  | Some (VList l) => fmap extractOwnerReference <$> mapM as_map l
  | _ => None
  end.

End unstructured.

Module fieldpath.

(** [fieldpath.Pave(obj).GetString(path)] for a path of field segments
    (["type"] is the one-segment path, ["spec.type"] has two): the string
    at the path, and the empty string with an error otherwise; callers
    here drop the error. *)
Definition GetString (obj : gmap string value) (path : list string)
  : string :=
  match path with
  | [] => ""
  | _ => unstructured.getNestedString obj path
  end.

End fieldpath.

(** ** Exporter options *)

Module exporter.

(** [exporter.Options]. The comments of the Go struct give, per field,
    the default that the command line fills in. *)
Record Options := {
  OutputArchive : string;
  IncludeNamespaces : list string;
  ExcludeNamespaces : list string;
  IncludeExtraResources : list string;
  ExcludeResources : list string;
  PauseBeforeExport : bool;
}.

(** *** Resource fetcher *)

(** [UnstructuredFetcher], without the client. *)
Record UnstructuredFetcher := {
  pageSize : Z;
  includedNamespaces : gset string;
  excludedNamespaces : gset string;
}.

Definition defaultPageSize : Z := 500.

(** [for _, ns := range l { m[ns] = struct{}{} }] *)
Definition set_of_slice (l : list string) : gset string :=
  foldl (fun m ns => {[ ns ]} ∪ m) ∅ l.

Definition NewUnstructuredFetcher (opts : Options) : UnstructuredFetcher :=
  {| pageSize := defaultPageSize;
     includedNamespaces := set_of_slice (IncludeNamespaces opts);
     excludedNamespaces := set_of_slice (ExcludeNamespaces opts) |}.

Definition namespaceInScope (e : UnstructuredFetcher) (namespace : string)
  : bool :=
  if (0 <? size (includedNamespaces e))%nat
     && negb (bool_decide (namespace ∈ includedNamespaces e))
  then false
  else if bool_decide (namespace ∈ excludedNamespaces e)
  then false
  else true.

Import unstructured.

Definition ownedByPackageManager (refs : list OwnerReference) : bool :=
  existsb (fun or => strings.HasPrefix (or_APIVersion or) "pkg.crossplane.io")
          refs.

Definition shouldSkip (e : UnstructuredFetcher) (r : Unstructured) : bool :=
  if String.eqb (GetKind r) "Namespace" && negb (namespaceInScope e (GetName r))
     || negb (String.eqb (GetNamespace r) "")
        && negb (namespaceInScope e (GetNamespace r))
  then true
  else if String.eqb (GetKind r) "ConfigMap"
          && String.eqb (GetName r) "kube-root-ca.crt"
  then true
  else if bool_decide (is_Some (GetLabels r))
          && String.eqb (index (GetLabels r) "app.kubernetes.io/managed-by")
                        "Helm"
  then true
  else if String.eqb (GetKind r) "Secret"
          && strings.HasPrefix (fieldpath.GetString r ["type"])
                               "helm.sh/release"
  then true
  else if match GetOwnerReferences r with
          | Some refs => ownedByPackageManager refs
          | None => false
          end
  then true
  else if String.eqb (GetKind r) "Lock"
          && strings.HasPrefix (GetAPIVersion r) "pkg.crossplane.io"
  then true
  else false.

(** One page of a list call: the items and the continue token. *)
Record page := { Items : list Unstructured; Continue : string }.

(** [FetchResources]: [List tok] is the answer of the server to a list
    call with continue token [tok]. The Go loop runs until a page has an
    empty token; [fuel] bounds the number of pages read, and [None] says
    that the bound was reached. *)
Fixpoint FetchResources (e : UnstructuredFetcher)
    (List : string -> result page) (fuel : nat)
    (continueToken : string) (resources : list Unstructured)
  : option (result (list Unstructured)) :=
  match fuel with
  | O => None
  | S fuel' =>
      match List continueToken with
      | Error err => Some (Error (Wrapf err "cannot list %q resources" []))
      | Ok l =>
          let resources :=
            (resources
               ++ filter (fun r => shouldSkip e r = false) (Items l))%list in
          if String.eqb (Continue l) "" then Some (Ok resources)
          else FetchResources e List fuel' (Continue l) resources
      end
  end.

End exporter.

(** ** API machinery: group kinds, resources and the REST mapper *)

Module schema.

Record GroupKind := { gk_Group : string; gk_Kind : string }.

Record GroupVersionResource := {
  Group : string;
  Version : string;
  Resource : string;
}.

(** [strings.Index(gr, ".")] followed by the two slices of
    [ParseGroupResource]: the text before the first dot and the text
    after it; [None] when there is no dot. *)
Fixpoint cut_at_dot (gr : string) : option (string * string) :=
  match gr with
  | EmptyString => None
  | String c rest =>
      if Ascii.eqb c "."%char then Some (EmptyString, rest)
      else match cut_at_dot rest with
           | Some (before, after) => Some (String c before, after)
           | None => None
           end
  end.

(** [ParseGroupResource(gr).WithVersion("")] *)
Definition ParseGroupResource (gr : string) : GroupVersionResource :=
  match cut_at_dot gr with
  | Some (resource, group) =>
      {| Group := group; Version := ""; Resource := resource |}
  | None => {| Group := ""; Version := ""; Resource := gr |}
  end.

(** [gvr.GroupResource().String()] *)
Definition GroupResourceString (gvr : GroupVersionResource) : string :=
  if String.eqb (Group gvr) "" then Resource gvr
  else Resource gvr +:+ "." +:+ Group gvr.

End schema.

Module meta.

(** The two calls of [meta.RESTMapper] that the migration makes. The
    mapper is supplied by the host; a value of this record is one
    implementation of the interface. *)
Record RESTMapper := {
  RESTMapping :
    schema.GroupKind -> list string -> result schema.GroupVersionResource;
  ResourceFor :
    schema.GroupVersionResource -> result schema.GroupVersionResource;
}.

End meta.

(** ** Custom resource definitions *)

Module apiextensionsv1.

Record CustomResourceSubresources := {
  Status : option unit;
}.

Record CustomResourceDefinitionVersion := {
  Name : string;
  Storage : bool;
  Subresources : option CustomResourceSubresources;
}.

Record CustomResourceDefinitionNames := {
  Kind : string;
  Categories : list string;
}.

Record CustomResourceDefinitionSpec := {
  Group : string;
  Names : CustomResourceDefinitionNames;
  Versions : list CustomResourceDefinitionVersion;
}.

Record CustomResourceDefinition := {
  GetName : string;
  GetOwnerReferences : list OwnerReference;
  Spec : CustomResourceDefinitionSpec;
}.

End apiextensionsv1.

(** ** Schema selector *)

Module selector.

Import exporter.
Import apiextensionsv1.

(** [ControlPlaneStateExporter], without the clients. *)
Record ControlPlaneStateExporter := {
  resourceMapper : meta.RESTMapper;
  options : Options;
}.

(** [extraResources]: insert every included name, then delete every
    excluded one. *)
Definition extraResources (e : ControlPlaneStateExporter) : gset string :=
  let extra :=
    foldl (fun extra r => {[ r ]} ∪ extra) ∅
          (IncludeExtraResources (options e)) in
  foldl (fun extra r => extra ∖ {[ r ]}) extra (ExcludeResources (options e)).

(** [IncludedExtraResource]: a scan of the keys of [extraResources]. Go
    ranges over a map in no fixed order; [elements] is one such order. *)
Definition IncludedExtraResource (e : ControlPlaneStateExporter)
    (gr : string) : bool :=
  existsb (fun r => String.eqb gr r) (elements (extraResources e)).

(** The loop over the owner references of [shouldExport]. *)
Fixpoint ownerSelects (refs : list OwnerReference) : bool :=
  match refs with
  | [] => false
  | ref :: rest =>
      if String.eqb (or_APIVersion ref) "pkg.crossplane.io/v1" then true
      else if String.eqb (or_APIVersion ref) "apiextensions.crossplane.io/v1"
              && String.eqb (or_Kind ref) "CompositeResourceDefinition"
      then true
      else ownerSelects rest
  end.

Definition shouldExport (e : ControlPlaneStateExporter)
    (crd : CustomResourceDefinition) : bool :=
  if ownerSelects (GetOwnerReferences crd) then true
  else if strings.HasSuffix (GetName crd) ".crossplane.io" then true
  else IncludedExtraResource e (GetName crd).

(** The loop of [customResourceGVR] over the versions: every version
    marked as storage overwrites [version]. *)
Definition storageVersion (vs : list CustomResourceDefinitionVersion)
  : string :=
  foldl (fun version vr => if Storage vr then Name vr else version) "" vs.

Definition customResourceGVR (e : ControlPlaneStateExporter)
    (crd : CustomResourceDefinition) : result schema.GroupVersionResource :=
  let version := storageVersion (Versions (Spec crd)) in
  match meta.RESTMapping (resourceMapper e)
          {| schema.gk_Group := Group (Spec crd);
             schema.gk_Kind := Kind (Names (Spec crd)) |}
          [version] with
  | Error err =>
      Error (Wrapf err "cannot get REST mapping for %q" [GetName crd])
  | Ok rm => Ok rm
  end.

(** The status-subresource scan of [Export]. *)
Definition withStatusSubresource (crd : CustomResourceDefinition) : bool :=
  existsb (fun vr =>
             Storage vr
             && match Subresources vr with
                | Some sr => bool_decide (is_Some (Status sr))
                | None => false
                end)
          (Versions (Spec crd)).

End selector.

(** ** A state and error monad for the orchestration code

    [Export] and [Import] thread a mutable world (the file system, the log
    of calls made) through a sequence of fallible calls and return at the
    first error. [M W A] is a computation over a world [W] that yields a
    value of [A] or an error, together with the world it leaves. *)

Definition M (W A : Type) : Type := W -> result A * W.

#[global] Instance M_ret {W} : MRet (M W) := fun A a w => (Ok a, w).

#[global] Instance M_bind {W} : MBind (M W) := fun A B f m w =>
  match m w with
  | (Ok a, w') => f a w'
  | (Error e, w') => (Error e, w')
  end.

Definition fail {W A} (e : error) : M W A := fun w => (Error e, w).

Definition modify {W} (f : W -> W) : M W unit := fun w => (Ok tt, f w).

(** A call whose outcome the environment decides. *)
Definition call {W A} (r : result A) : M W A := fun w => (r, w).

(** [if err != nil { return errors.Wrapf(err, msg, args...) }] *)
Definition wrapf {W A} (m : M W A) (msg : string) (args : list string)
  : M W A := fun w =>
  match m w with
  | (Ok a, w') => (Ok a, w')
  | (Error e, w') => (Error (Wrapf e msg args), w')
  end.

(** [defer cleanup()]: the body runs, then the cleanup, whatever the body
    returned. *)
Definition defer {W A} (cleanup : W -> W) (body : M W A) : M W A := fun w =>
  let '(r, w') := body w in (r, cleanup w').

(** A [for ... range] loop with an early return on error. *)
Fixpoint for_range {W X S} (xs : list X) (body : S -> X -> M W S) (s : S)
  : M W S :=
  match xs with
  | [] => mret s
  | x :: rest => s' ← body s x; for_range rest body s'
  end.

(** ** Exporter *)

Module export.

Import exporter selector apiextensionsv1.

(** The operating-system file system, as far as [Export] touches it: the
    set of paths that exist. *)
Definition FS := gset string.

(** [p] is [dir] or lies below it. *)
Definition below (dir p : string) : bool :=
  String.eqb p dir || strings.HasPrefix p (dir +:+ "/").

(** [fs.RemoveAll(dir)], taken to succeed: [Export] drops its error. *)
Definition RemoveAll (dir : string) (fs : FS) : FS :=
  filter (fun p => below dir p = false) fs.

(** What the collaborators of [Export] answer in one run. The resource
    exporter and the metadata exporter write below the directory that
    they are given; the paths are relative to it. *)
Record Env := {
  TempDir : result string;
  pauseManaged : result nat;
  fetchAllCRDs : result (list CustomResourceDefinition);
  ExportResources :
    schema.GroupVersionResource -> list string * result nat;
  ExportMetadata : list string * result unit;
  Create : result unit;
  Chmod : result unit;
  Walk : result unit;
}.

Definition write_below (dir : string) (rel : list string) (fs : FS) : FS :=
  foldl (fun fs p => {[ dir +:+ "/" +:+ p ]} ∪ fs) fs rel.

(** A collaborator that writes files below [dir] and then returns. *)
Definition writing {A} (dir : string) (out : list string * result A)
  : M FS A :=
  modify (write_below dir out.1);; call out.2.

(** [archive]: the output file is created first; the mode change and the
    walk over the temporary directory come after it. *)
Definition archive (env : Env) (e : ControlPlaneStateExporter)
    (dir : string) : M FS unit :=
  call (Create env);;
  modify (fun fs => {[ OutputArchive (options e) ]} ∪ fs);;
  call (Chmod env);;
  call (Walk env).

Definition exportCustom (env : Env) (e : ControlPlaneStateExporter)
    (tmpDir : string) (crCounts : gmap string nat)
    (crd : CustomResourceDefinition) : M FS (gmap string nat) :=
  gvr ← wrapf (call (customResourceGVR e crd))
              "cannot get GVR for %q" [GetName crd];
  count ← wrapf (writing tmpDir (ExportResources env gvr))
                "cannot export resources for %q" [GetName crd];
  mret (<[ schema.GroupResourceString gvr := count ]> crCounts).

Definition exportNative (env : Env) (e : ControlPlaneStateExporter)
    (tmpDir : string) (nativeCounts : gmap string nat) (r : string)
  : M FS (gmap string nat) :=
  gvr ← wrapf (call (meta.ResourceFor (resourceMapper e)
                       (schema.ParseGroupResource r)))
              "cannot get GVR for %q" [r];
  count ← wrapf (writing tmpDir (ExportResources env gvr))
                "cannot export resources for %q" [r];
  mret (<[ schema.Resource gvr := count ]> nativeCounts).

(** The statements of [Export] that follow the [defer]. The native
    resources are the keys of [extraResources], ranged over in the order of
    [elements]. *)
Definition exportSteps (env : Env) (e : ControlPlaneStateExporter)
    (tmpDir : string) : M FS unit :=
  (if PauseBeforeExport (options e)
   then wrapf (call (pauseManaged env))
              "cannot pause managed resources" [];; mret tt
   else mret tt);;
  crdList ← wrapf (call (fetchAllCRDs env)) "cannot fetch CRDs" [];
  let exportList := filter (fun crd => shouldExport e crd = true) crdList in
  crCounts ← for_range exportList (exportCustom env e tmpDir) ∅;
  nativeCounts ← for_range (elements (extraResources e))
                            (exportNative env e tmpDir) ∅;
  wrapf (writing tmpDir (ExportMetadata env))
        "cannot write export metadata" [];;
  wrapf (archive env e tmpDir) "cannot archive exported state" [].

Definition Export (env : Env) (e : ControlPlaneStateExporter) : M FS unit :=
  tmpDir ← wrapf (call (TempDir env)) "cannot create temporary directory" [];
  modify (fun fs => {[ tmpDir ]} ∪ fs);;
  defer (RemoveAll tmpDir) (exportSteps env e tmpDir).

End export.

(** ** Control-plane information *)

Module v1alpha1.

Record CrossplaneInfo := {
  Version : string;
  Distribution : string;
  Namespace : string;
  FeatureFlags : list string;
}.

(** [ExportMeta], the part that the importer reads. *)
Record ExportMeta := {
  Crossplane : CrossplaneInfo;
}.

End v1alpha1.

Module crossplane.

Import v1alpha1.

Record Container := {
  c_Name : string;
  c_Args : list string;
}.

(** [appsv1.Deployment], the fields that [CollectInfo] reads. *)
Record Deployment := {
  d_Name : string;
  d_Namespace : string;
  d_Labels : option (gmap string string);
  d_Containers : list Container;
}.

(** The loop over the containers: the first one named [crossplane] or
    [universal-crossplane] gives the flags, and the loop breaks. *)
Fixpoint containerFlags (cs : list Container) (flags : list string)
  : list string :=
  match cs with
  | [] => flags
  | c :: rest =>
      if String.eqb (c_Name c) "crossplane"
         || String.eqb (c_Name c) "universal-crossplane"
      then (flags
              ++ filter (fun a => strings.HasPrefix a "--enable" = true)
                        (c_Args c))%list
      else containerFlags rest flags
  end.

(** The loop over the deployments: the first one named [crossplane]
    fills the record, and the loop breaks. *)
Fixpoint scanDeployments (ds : list Deployment) (xp : CrossplaneInfo)
  : CrossplaneInfo :=
  match ds with
  | [] => xp
  | d :: rest =>
      if String.eqb (d_Name d) "crossplane"
      then
        {| Namespace := d_Namespace d;
           Version :=
             match d_Labels d with
             | Some _ =>
                 unstructured.index (d_Labels d) "app.kubernetes.io/version"
             | None => Version xp
             end;
           Distribution :=
             match d_Labels d with
             | Some _ =>
                 unstructured.index (d_Labels d) "app.kubernetes.io/instance"
             | None => Distribution xp
             end;
           FeatureFlags := containerFlags (d_Containers d) (FeatureFlags xp) |}
      else scanDeployments rest xp
  end.

(** [CollectInfo]; [dl] is the outcome of listing the deployments of all
    namespaces. *)
Definition CollectInfo (dl : result (list Deployment))
  : result CrossplaneInfo :=
  match dl with
  | Error err =>
      Error (Wrap err "cannot list deployments to find Crossplane deployment")
  | Ok items =>
      Ok (scanDeployments items
            {| Version := ""; Distribution := ""; Namespace := "";
               FeatureFlags := [] |})
  end.

End crossplane.

(** ** Readiness conditions *)

Module xpv1.

(** [xpv1.Condition], the two fields that the readiness poll reads; the
    status is one of the strings [True], [False] and [Unknown]. *)
Record Condition := {
  Type_ : string;
  Status : string;
}.

Record ConditionedStatus := {
  Conditions : list Condition;
}.

(** [GetCondition]: the first condition of the type, and a condition
    with status [Unknown] when there is none. *)
Fixpoint GetCondition (cs : list Condition) (ct : string) : Condition :=
  match cs with
  | [] => {| Type_ := ct; Status := "Unknown" |}
  | c :: rest => if String.eqb (Type_ c) ct then c else GetCondition rest ct
  end.

(** A string field of a JSON object decoded into a Go string: absent and
    null leave the zero value, another type is an error. *)
Definition string_field (m : gmap string value) (k : string)
  : option string :=
  match m !! k with
  | None | Some VNull => Some ""
  | Some (VStr s) => Some s
  | Some _ => None
  end.

Definition decode_condition (v : value) : option Condition :=
  match v with
  | VNull => Some {| Type_ := ""; Status := "" |}
  | VMap m =>
      ty ← string_field m "type";
      st ← string_field m "status";
      Some {| Type_ := ty; Status := st |}
  | _ => None
  end.

(** The JSON round trip of [GetValueInto] for a [ConditionedStatus],
    restricted to the keys [conditions], [type] and [status]: [None] is a
    decoding error. *)
Definition decode_status (v : value) : option ConditionedStatus :=
  match v with
  | VNull => Some {| Conditions := [] |}
  | VMap m =>
      match m !! "conditions" with
      | None | Some VNull => Some {| Conditions := [] |}
      | Some (VList l) =>
          cs ← mapM decode_condition l; Some {| Conditions := cs |}
      | Some _ => None
      end
  | _ => None
  end.

End xpv1.

(** ** Importer *)

Module importer.

Import v1alpha1 unstructured.

Definition baseResources : list string :=
  [ "namespaces";
    "configmaps";
    "secrets";
    "controllerconfigs.pkg.crossplane.io";
    "deploymentruntimeconfigs.pkg.crossplane.io";
    "storeconfigs.secrets.crossplane.io";
    "compositionrevisions.apiextensions.crossplane.io";
    "compositions.apiextensions.crossplane.io";
    "compositeresourcedefinitions.apiextensions.crossplane.io";
    "providers.pkg.crossplane.io";
    "functions.pkg.crossplane.io";
    "configurations.pkg.crossplane.io" ].

Definition isBaseResource (gr : string) : bool :=
  existsb (fun k => String.eqb k gr) baseResources.

Record Options := {
  InputArchive : string;
  UnpauseAfterImport : bool;
}.

Record FileInfo := {
  fi_Name : string;
  IsDir : bool;
}.

(** The in-memory file system that holds the unpacked archive, through
    the two reads that the importer makes. *)
Record MemFs := {
  ReadFile : string -> result string;
  ReadDir : string -> result (list FileInfo);
}.

(** [ControlPlaneStateImporter], without the clients and the file
    system, which is part of the world. *)
Record ControlPlaneStateImporter := {
  resourceMapper : meta.RESTMapper;
  options : Options;
}.

(** The calls that change the target control plane or the mapper. *)
Inductive event : Type :=
| EvImportResources (gr : string) (applyStatus : bool)
| EvWaitForConditions (gk : schema.GroupKind) (conditions : list string)
| EvReset
| EvModifyResources (category : string).

(** The mutable state of an import: [im.fs] (nil before the archive is
    unpacked) and the log of calls made so far. *)
Record World := {
  im_fs : option MemFs;
  log : list event;
}.

Definition emit (ev : event) : M World unit :=
  modify (fun w => {| im_fs := im_fs w; log := (log w ++ [ev])%list |}).

(** What the collaborators answer in one run. [unarchive] gives the
    file system as the unpacking leaves it and the outcome of the
    unpacking; [List gvr k] is the answer to poll number [k] of a
    readiness barrier on [gvr]. *)
Record Env := {
  deployments : result (list crossplane.Deployment);
  unarchive : MemFs * result unit;
  Unmarshal : string -> result ExportMeta;
  ImportResources : string -> bool -> result nat;
  List : schema.GroupVersionResource -> nat -> result (list Unstructured);
  ModifyResources : string -> result nat;
}.

(** [if im.fs == nil { im.fs = ...; err := im.unarchive(...) }]: the
    field is set before the archive is unpacked. *)
Definition ensureUnarchived (env : Env) : M World MemFs := fun w =>
  match im_fs w with
  | Some fs => (Ok fs, w)
  | None =>
      let w' := {| im_fs := Some (unarchive env).1; log := log w |} in
      match (unarchive env).2 with
      | Ok _ => (Ok (unarchive env).1, w')
      | Error err => (Error err, w')
      end
  end.

(** *** Preflight *)

Definition versionErrors (observed : CrossplaneInfo) (em : ExportMeta)
  : list error :=
  if negb (String.eqb (Version observed) (Version (Crossplane em)))
  then [Errorf "Crossplane version %q does not match exported version %q"
               [Version observed; Version (Crossplane em)]]
  else [].

Definition flagError (ff : string) : error :=
  Errorf ("Feature flag %q was set in the exported control plane but is not "
          +:+ "set in the target control plane for import.") [ff].

(** The loop over the feature flags of the manifest. *)
Fixpoint flagErrors (observed : list string) (exported : list string)
    (errs : list error) : list error :=
  match exported with
  | [] => errs
  | ff :: rest =>
      if negb (contains observed ff)
      then flagErrors observed rest (errs ++ [flagError ff])%list
      else flagErrors observed rest errs
  end.

Definition PreflightChecks (env : Env) (w : World) : list error * World :=
  match crossplane.CollectInfo (deployments env) with
  | Error err => ([Wrap err "Cannot get Crossplane info"], w)
  | Ok observed =>
      match wrapf (ensureUnarchived env) "Cannot unarchive export archive" [] w
      with
      | (Error err, w') => ([err], w')
      | (Ok fs, w') =>
          match ReadFile fs "export.yaml" with
          | Error err => ([Wrap err "Cannot read export metadata"], w')
          | Ok b =>
              match Unmarshal env b with
              | Error err =>
                  ([Wrap err "Cannot unmarshal export metadata"], w')
              | Ok em =>
                  (flagErrors (FeatureFlags observed)
                              (FeatureFlags (Crossplane em))
                              (versionErrors observed em), w')
              end
          end
      end
  end.

(** *** Readiness barriers *)

(** The deadline of a barrier and the pause between two polls, in
    seconds. *)
Definition timeout : nat := 10 * 60.
Definition period : nat := 5.

(** The polls that fit before the deadline when poll [k] starts [k]
    periods after the call and a poll takes no time. *)
Definition maxPolls : nat := timeout / period.

(** The inner loop over the requested conditions: does the resource miss
    one of them. *)
Definition unmetCondition (status : xpv1.ConditionedStatus)
    (conditions : list string) : bool :=
  existsb (fun c =>
             negb (String.eqb
                     (xpv1.Status (xpv1.GetCondition (xpv1.Conditions status) c))
                     "True"))
          conditions.

(** The loop over the listed resources: [Some unmet] at its end, [None]
    when the status of a resource cannot be decoded and the poll returns
    early. A missing status is an empty one. *)
Fixpoint countUnmet (items : list Unstructured) (conditions : list string)
    (unmet : nat) : option nat :=
  match items with
  | [] => Some unmet
  | r :: rest =>
      match
        match r !! "status" with
        | None => Some {| xpv1.Conditions := [] |}
        | Some v => xpv1.decode_status v
        end
      with
      | None => None
      | Some status =>
          countUnmet rest conditions
            (if unmetCondition status conditions then S unmet else unmet)
      end
  end.

(** One run of the polled function: [true] when it sets [success]. *)
Definition pollOnce (listed : result (list Unstructured))
    (conditions : list string) : bool :=
  match listed with
  | Error _ => false
  | Ok items =>
      match countUnmet items conditions 0 with
      | None => false
      | Some unmet => if (0 <? unmet)%nat then false else true
      end
  end.

(** [wait.UntilWithContext]: poll number [k], then [n] more at most; the
    loop stops at the first success, which cancels the context. The result
    is [success] and the number of polls made. *)
Fixpoint pollUntil (listing : nat -> result (list Unstructured))
    (conditions : list string) (n k : nat) : bool * nat :=
  match n with
  | O => (false, k)
  | S n' =>
      if pollOnce (listing k) conditions then (true, S k)
      else pollUntil listing conditions n' (S k)
  end.

(** [printConditions] *)
Definition printConditions (conditions : list string) : string :=
  match conditions with
  | [] => ""
  | [c] => c
  | [c1; c2] => c1 +:+ " and " +:+ c2
  | _ =>
      String.concat ", " (removelast conditions)
      +:+ ", and " +:+ List.last conditions ""
  end.

(** [waitForConditions], with the number of polls that it made. *)
Definition waitForConditionsPolls (env : Env) (im : ControlPlaneStateImporter)
    (gk : schema.GroupKind) (conditions : list string)
  : result unit * nat :=
  match meta.RESTMapping (resourceMapper im) gk [] with
  | Error err =>
      (Error (Wrapf err "cannot get REST mapping for %q"
                    [schema.gk_Kind gk; schema.gk_Group gk]), 0)
  | Ok rm =>
      let '(success, polls) :=
        pollUntil (List env rm) conditions maxPolls 0 in
      if success then (Ok tt, polls)
      else (Error (Errorf
                     "timeout waiting for conditions %q to be satisfied for all %q"
                     [printConditions conditions; schema.gk_Kind gk]), polls)
  end.

Definition waitForConditions (env : Env) (im : ControlPlaneStateImporter)
    (gk : schema.GroupKind) (conditions : list string) : M World unit :=
  emit (EvWaitForConditions gk conditions);;
  call (waitForConditionsPolls env im gk conditions).1.

(** *** Import *)

Definition importResources (env : Env) (gr : string) (applyStatus : bool)
  : M World nat :=
  emit (EvImportResources gr applyStatus);;
  call (ImportResources env gr applyStatus).

Definition modifyResources (env : Env) (category : string) : M World nat :=
  emit (EvModifyResources category);;
  call (ModifyResources env category).

Definition pkg (kind : string) : schema.GroupKind :=
  {| schema.gk_Group := "pkg.crossplane.io"; schema.gk_Kind := kind |}.

Definition importBase (env : Env) (baseCounts : gmap string nat) (gr : string)
  : M World (gmap string nat) :=
  count ← wrapf (importResources env gr false)
                "cannot import %q resources" [gr];
  mret (<[ gr := count ]> baseCounts).

(** The body of the loop over the entries of the root directory. *)
Definition importRemaining (env : Env) (remainingCounts : gmap string nat)
    (info : FileInfo) : M World (gmap string nat) :=
  if String.eqb (fi_Name info) "export.yaml" then mret remainingCounts
  else if negb (IsDir info)
  then fail (Errorf "unexpected file %q in root directory of exported state"
                    [fi_Name info])
  else if isBaseResource (fi_Name info) then mret remainingCounts
  else
    count ← wrapf (importResources env (fi_Name info) true)
                  "cannot import %q resources" [fi_Name info];
    mret (<[ fi_Name info := count ]> remainingCounts).

Definition waitAll (env : Env) (im : ControlPlaneStateImporter)
    (conditions : list string) (_ : unit) (k : schema.GroupKind)
  : M World unit :=
  wrapf (waitForConditions env im k conditions)
        "there are unhealthy %qs" [schema.gk_Kind k].

Definition Import (env : Env) (im : ControlPlaneStateImporter)
  : M World unit :=
  fs ← wrapf (ensureUnarchived env) "cannot unarchive export archive" [];
  baseCounts ← for_range baseResources (importBase env) ∅;
  wrapf (waitForConditions env im
           {| schema.gk_Group := "apiextensions.crossplane.io";
              schema.gk_Kind := "CompositeResourceDefinition" |}
           ["Established"])
        "there are unhealthy CompositeResourceDefinitions" [];;
  for_range [pkg "Provider"; pkg "Function"; pkg "Configuration"]
            (waitAll env im ["Installed"; "Healthy"]) tt;;
  for_range [pkg "ProviderRevision"; pkg "FunctionRevision";
             pkg "ConfigurationRevision"]
            (waitAll env im ["Healthy"]) tt;;
  emit EvReset;;
  grs ← wrapf (call (ReadDir fs "/")) "cannot list group resources" [];
  remainingCounts ← for_range grs (importRemaining env) ∅;
  wrapf (modifyResources env "composite") "cannot unpause composites" [];;
  wrapf (modifyResources env "claim") "cannot unpause claims" [];;
  if UnpauseAfterImport (options im)
  then wrapf (modifyResources env "managed")
             "cannot unpause managed resources" [];; mret tt
  else mret tt.

End importer.

(** ** The replay order of the design document

    The order in which an import is to reach the target, written out from
    the design document: base tier, barriers A, B and C, one mapper reset,
    the remainder tier, then the unpausing. [grs] are the entries of the
    root directory of the archive. *)

Module replay.

Import importer.

Definition baseTier : list event :=
  [ EvImportResources "namespaces" false;
    EvImportResources "configmaps" false;
    EvImportResources "secrets" false;
    EvImportResources "controllerconfigs.pkg.crossplane.io" false;
    EvImportResources "deploymentruntimeconfigs.pkg.crossplane.io" false;
    EvImportResources "storeconfigs.secrets.crossplane.io" false;
    EvImportResources "compositionrevisions.apiextensions.crossplane.io" false;
    EvImportResources "compositions.apiextensions.crossplane.io" false;
    EvImportResources
      "compositeresourcedefinitions.apiextensions.crossplane.io" false;
    EvImportResources "providers.pkg.crossplane.io" false;
    EvImportResources "functions.pkg.crossplane.io" false;
    EvImportResources "configurations.pkg.crossplane.io" false ].

Definition barrierA : list event :=
  [ EvWaitForConditions
      {| schema.gk_Group := "apiextensions.crossplane.io";
         schema.gk_Kind := "CompositeResourceDefinition" |}
      ["Established"] ].

Definition barrierB : list event :=
  [ EvWaitForConditions (pkg "Provider") ["Installed"; "Healthy"];
    EvWaitForConditions (pkg "Function") ["Installed"; "Healthy"];
    EvWaitForConditions (pkg "Configuration") ["Installed"; "Healthy"] ].

Definition barrierC : list event :=
  [ EvWaitForConditions (pkg "ProviderRevision") ["Healthy"];
    EvWaitForConditions (pkg "FunctionRevision") ["Healthy"];
    EvWaitForConditions (pkg "ConfigurationRevision") ["Healthy"] ].

(** Every entry of the root directory except [export.yaml] and the base
    tier, with the status subresource replayed. *)
Definition remainderOf (info : FileInfo) : list event :=
  if String.eqb (fi_Name info) "export.yaml" then []
  else if isBaseResource (fi_Name info) then []
  else [EvImportResources (fi_Name info) true].

Definition remainderTier (grs : list FileInfo) : list event :=
  flat_map remainderOf grs.

Definition unpausing (unpauseAfterImport : bool) : list event :=
  [ EvModifyResources "composite"; EvModifyResources "claim" ]
  ++ (if unpauseAfterImport then [EvModifyResources "managed"] else []).

Definition replayOrder (grs : list FileInfo) (unpauseAfterImport : bool)
  : list event :=
  baseTier ++ barrierA ++ barrierB ++ barrierC ++ [EvReset]
  ++ remainderTier grs ++ unpausing unpauseAfterImport.

(** The file system that an import reads: the one that a preflight left,
    or the one that unpacking the archive gives. *)
Definition archiveOf (env : Env) (w : World) : MemFs :=
  match im_fs w with
  | Some fs => fs
  | None => (unarchive env).1
  end.

Definition rootEntries (env : Env) (w : World) : list FileInfo :=
  match ReadDir (archiveOf env w) "/" with
  | Ok grs => grs
  | Error _ => []
  end.


End replay.

(** ** Assertions on runs *)

Module logic.

(** Started in [w], the computation [m] leaves [Q] true of its result and
    of the world that it ends in, provided [P] holds of [w]. *)
Definition hoare {W A} (P : W -> Prop) (m : M W A)
    (Q : result A -> W -> Prop) : Prop :=
  forall w, P w -> Q (m w).1 (m w).2.

(** Started in [w], the import computation [m] appends to the log a prefix
    of [p], and the whole of [p] when it succeeds. *)
Definition emits {A} (w : importer.World) (m : M importer.World A)
    (p : list importer.event) : Prop :=
  exists t,
    importer.log (m w).2 = (importer.log w ++ t)%list
    /\ t `prefix_of` p
    /\ (is_ok (m w).1 = true -> t = p).

(** The errors that [Export] returns when [archive] fails. *)
Definition archiveError (e : error) : Prop :=
  exists cause, e = Wrapf cause "cannot archive exported state" [].

(** The path [out] is in [w] exactly when it was in [fs0]. *)
Definition untouched (out : string) (fs0 w : gset string) : Prop :=
  out ∈ w <-> out ∈ fs0.

(** A run that has not reached [archive]: [out] is untouched, and an
    error is not one of [archive]. *)
Definition early {A} (out : string) (fs0 : gset string) (r : result A)
    (w : gset string) : Prop :=
  untouched out fs0 w /\ forall err, r = Error err -> ~ archiveError err.

(** A run that has ended, [created] telling whether the output file could
    be created: on success [out] exists; after an error that is not one of
    [archive], or when the file could not be created, [out] is untouched;
    after an error of [archive] with the file created, [out] exists. *)
Definition settled (out : string) (fs0 : gset string) (created : bool)
    (r : result unit) (w : gset string) : Prop :=
  (r = Ok tt -> out ∈ w)
  /\ (forall err, r = Error err ->
        ~ archiveError err \/ created = false -> untouched out fs0 w)
  /\ (forall err, r = Error err ->
        archiveError err -> created = true -> out ∈ w).

End logic.

(** ** Paginated listings *)

Module paging.

Section Pages.

Context {P : Type} (next : P -> string) (List : string -> result P).

(** The server answers the token [tok] with the first of [pages], the
    token of each page with the page after it, and only the last page
    carries the empty token. *)
Fixpoint chain (tok : string) (pages : list P) : Prop :=
  match pages with
  | [] => False
  | p :: rest =>
      List tok = Ok p
      /\ match rest with
         | [] => next p = ""
         | _ :: _ => next p <> "" /\ chain (next p) rest
         end
  end.

(** The server answers [pages] in a row, none of them the last, and fails
    with [err] on the token of the last of them. *)
Fixpoint broken (tok : string) (pages : list P) (err : error) : Prop :=
  match pages with
  | [] => List tok = Error err
  | p :: rest => List tok = Ok p /\ next p <> "" /\ broken (next p) rest err
  end.

End Pages.

End paging.

(** ** Listing the custom resource definitions *)

Module crds.

Import apiextensionsv1.

(** One page of custom resource definitions. *)
Record page := {
  Items : list CustomResourceDefinition;
  Continue : string;
}.

(** [fetchAllCRDs]: [List tok] is the answer of the server to a list call
    with continue token [tok]; [fuel] bounds the number of pages read. *)
Fixpoint fetchAllCRDs (List : string -> result page) (fuel : nat)
    (continueToken : string) (crds : list CustomResourceDefinition)
  : option (result (list CustomResourceDefinition)) :=
  match fuel with
  | O => None
  | S fuel' =>
      match List continueToken with
      | Error err => Some (Error (Wrap err "cannot list CRDs"))
      | Ok l =>
          let crds := crds ++ Items l in
          if String.eqb (Continue l) "" then Some (Ok crds)
          else fetchAllCRDs List fuel' (Continue l) crds
      end
  end.

End crds.

(** ** Containers of the control plane *)

Module collect.

(** The container names that [CollectInfo] reads the arguments of. *)
Definition isCrossplaneContainer (c : crossplane.Container) : Prop :=
  crossplane.c_Name c = "crossplane"
  \/ crossplane.c_Name c = "universal-crossplane".

End collect.

(** ** Readiness of a listed resource *)

Module ready.

(** The status that the readiness poll reads from a resource: empty when
    the resource has no [status], [None] when it cannot be decoded. *)
Definition readStatus (r : unstructured.Unstructured)
  : option xpv1.ConditionedStatus :=
  match r !! "status" with
  | None => Some {| xpv1.Conditions := [] |}
  | Some v => xpv1.decode_status v
  end.

(** The resource reports every one of [conditions] with status [True]. *)
Definition met (conditions : list string) (r : unstructured.Unstructured)
  : Prop :=
  exists status,
    readStatus r = Some status
    /\ Forall (fun c =>
                 xpv1.Status (xpv1.GetCondition (xpv1.Conditions status) c)
                 = "True")
              conditions.

End ready.

(** ** Calls that wait for the barriers *)

Module barrier.

Import importer.

#[global] Instance GroupKind_eq_dec : EqDecision schema.GroupKind.
Proof. solve_decision. Defined.

#[global] Instance event_eq_dec : EqDecision event.
Proof. solve_decision. Defined.

(** The calls of an import that follow the three barriers: the mapper
    reset, an import with status replay, and the unpausing. *)
Definition afterBarriers (ev : event) : bool :=
  match ev with
  | EvReset => true
  | EvImportResources _ applyStatus => applyStatus
  | EvModifyResources _ => true
  | EvWaitForConditions _ _ => false
  end.

(** No call of the log follows the barriers. *)
Definition quiet (w : World) : Prop :=
  Forall (fun ev => afterBarriers ev = false) (log w).

(** The seven waits of the three barriers. *)
Definition waits : list (schema.GroupKind * list string) :=
  [ ({| schema.gk_Group := "apiextensions.crossplane.io";
        schema.gk_Kind := "CompositeResourceDefinition" |}, ["Established"]);
    (pkg "Provider", ["Installed"; "Healthy"]);
    (pkg "Function", ["Installed"; "Healthy"]);
    (pkg "Configuration", ["Installed"; "Healthy"]);
    (pkg "ProviderRevision", ["Healthy"]);
    (pkg "FunctionRevision", ["Healthy"]);
    (pkg "ConfigurationRevision", ["Healthy"]) ].

Definition waited (env : Env) (im : ControlPlaneStateImporter)
    (gk : schema.GroupKind) (conditions : list string) : Prop :=
  (waitForConditionsPolls env im gk conditions).1 = Ok tt.

(** Every wait of the three barriers returns without error. *)
Definition passed (env : Env) (im : ControlPlaneStateImporter) : Prop :=
  Forall (fun '(gk, conditions) => waited env im gk conditions) waits.

End barrier.

(** ** Computations that cannot fail *)

Module total.

(** Whatever the world, [m] returns a value. *)
Definition succeeds {W A} (m : M W A) : Prop :=
  forall w, exists a w', m w = (Ok a, w').

(** What every step of an export must answer for the export to succeed. *)
Definition allAnswered (env : export.Env)
    (e : selector.ControlPlaneStateExporter) : Prop :=
  (exists tmp, export.TempDir env = Ok tmp)
  /\ (exporter.PauseBeforeExport (selector.options e) = true ->
      is_ok (export.pauseManaged env) = true)
  /\ (exists crdList,
        export.fetchAllCRDs env = Ok crdList
        /\ Forall (fun crd =>
                     selector.shouldExport e crd = true ->
                     exists gvr,
                       selector.customResourceGVR e crd = Ok gvr
                       /\ is_ok (export.ExportResources env gvr).2 = true)
                  crdList)
  /\ (forall r,
        r ∈ exporter.IncludeExtraResources (selector.options e) ->
        r ∉ exporter.ExcludeResources (selector.options e) ->
        exists gvr,
          meta.ResourceFor (selector.resourceMapper e)
                           (schema.ParseGroupResource r) = Ok gvr
          /\ is_ok (export.ExportResources env gvr).2 = true)
  /\ is_ok (export.ExportMetadata env).2 = true
  /\ export.Create env = Ok tt
  /\ export.Chmod env = Ok tt
  /\ export.Walk env = Ok tt.

End total.

(** ** Commands that list and print

    The [get] and [list] commands of the command line fetch objects from
    the Upbound API and hand them to a printer. The world of a command is
    the list of what it asked of the API and wrote so far. *)

Module orgcmd.

Record Organization := {
  ID : nat;
  Name : string;
}.

(** The outcome of [oc.List] and of [printer.Print] for each
    organization. *)
Record Env := {
  List : result (list Organization);
  Print : Organization -> result unit;
}.

Definition print (env : Env) (o : Organization) : M (list Organization) unit :=
  modify (fun printed => printed ++ [o]);; call (Print env o).

(** The loop of [getCmd.Run] over the organizations. *)
Fixpoint find (env : Env) (name : string) (orgs : list Organization)
  : M (list Organization) unit :=
  match orgs with
  | [] => fail (Errorf "no organization named %s" [name])
  | o :: rest => if String.eqb (Name o) name then print env o
                 else find env name rest
  end.

(** [getCmd.Run]; [name] is [c.Name]. *)
Definition Run (env : Env) (name : string) : M (list Organization) unit :=
  orgs ← call (List env);
  find env name orgs.

End orgcmd.

Module robotcmd.

Inductive AccountType := AccountUser | AccountOrganization.

Record AccountResponse := {
  Type_ : AccountType;
  OrganizationID : nat;
}.

Record Robot := {
  Name : string;
  ID : string;
  Description : string;
  CreatedAt : Z;
}.

Definition fieldNames : list string := ["NAME"; "ID"; "DESCRIPTION"; "CREATED"].

(** [extractFields]; [age r] stands for the human-readable time since the
    robot was created, which depends on the clock. *)
Definition extractFields (age : Robot -> string) (r : Robot) : list string :=
  [Name r; ID r; Description r; age r].

(** What the command does that can be observed. *)
Inductive event :=
| EvListRobots (organization : nat)
| EvPrintfln (format : string) (args : list string)
| EvPrint (rs : list Robot) (header : list string).

Record Env := {
  Get : result AccountResponse;
  ListRobots : nat -> result (list Robot);
  Print : list Robot -> result unit;
}.

Definition emit (ev : event) : M (list event) unit :=
  modify (fun evs => evs ++ [ev]).

(** [listCmd.Run]; [account] is [upCtx.Account] and [errUserAccount] the
    message of the package for an account that is no organization. *)
Definition Run (env : Env) (account errUserAccount : string)
  : M (list event) unit :=
  a ← call (Get env);
  match Type_ a with
  | AccountUser => fail (Errorf errUserAccount [])
  | AccountOrganization =>
      rs ← (emit (EvListRobots (OrganizationID a));;
            call (ListRobots env (OrganizationID a)));
      match rs with
      | [] => emit (EvPrintfln "No robots found in %s" [account])
      | _ :: _ => emit (EvPrint rs fieldNames);; call (Print env rs)
      end
  end.

End robotcmd.

Module templatecmd.

Record Template := {
  ID : string;
  Name : string;
  Repo : string;
}.

Definition fieldNames : list string := ["ID"; "DESCRIPTION"; "REPO"].

Definition extractFields (o : Template) : list string :=
  [ID o; Name o; Repo o].

End templatecmd.

Module ctpcmd.

(** [controlplane.Response]; the age is a duration, nil when unknown. *)
Record Response := {
  Group : string;
  Name : string;
  CrossplaneVersion : string;
  Cfg : string;
  Updated : string;
  Synced : string;
  Ready : string;
  Message : string;
  Age : option Z;
}.

(** A value of type [any] handed to an extractor: a response, or a value
    of another type. *)
Inductive any :=
| AResponse (resp : Response)
| AOther.

Definition cloudfieldNames : list string :=
  ["NAME"; "CONFIGURATION"; "UPDATED"; "SYNCED"; "READY"; "MESSAGE"; "AGE"].

Definition spacefieldNames : list string :=
  ["GROUP"; "NAME"; "CROSSPLANE"; "SYNCED"; "READY"; "MESSAGE"; "AGE"].

(** [formatAge]; [human] is [duration.HumanDuration]. *)
Definition formatAge (human : Z -> string) (age : option Z) : string :=
  match age with
  | None => ""
  | Some d => human d
  end.

Definition extractCloudFields (human : Z -> string) (obj : any)
  : list string :=
  match obj with
  | AOther => ["unknown"; "unknown"; ""; ""; ""; ""; ""]
  | AResponse resp =>
      [Name resp; Cfg resp; Updated resp; Synced resp; Ready resp;
       Message resp; formatAge human (Age resp)]
  end.

Definition extractSpaceFields (human : Z -> string) (obj : any)
  : list string :=
  match obj with
  | AOther => ["unknown"; "unknown"; ""; ""; ""; ""; ""]
  | AResponse resp =>
      [Group resp; Name resp; CrossplaneVersion resp; Synced resp;
       Ready resp; Message resp; formatAge human (Age resp)]
  end.

(** [tabularPrint]: the header and the extractor that the printer is
    handed, by the kind of profile. *)
Definition tabularPrint (human : Z -> string) (isSpace : bool)
  : list string * (any -> list string) :=
  if isSpace then (spacefieldNames, extractSpaceFields human)
  else (cloudfieldNames, extractCloudFields human).

End ctpcmd.

(** ** Unpausing calls *)

Module unpause.

Definition isModify (ev : importer.event) : bool :=
  match ev with
  | importer.EvModifyResources _ => true
  | _ => false
  end.

(** No category has been modified. *)
Definition untouched (w : importer.World) : Prop :=
  Forall (fun ev => isModify ev = false) (importer.log w).


End unpause.

(** * Sample configurations

    Concrete mappers, configurations and objects on which the properties
    below are evaluated. *)

Module sample.

Import exporter selector apiextensionsv1.

(** A mapper that resolves every kind to the plural [things] and, like the
    default REST mapper of the API machinery, falls back to a version of its
    own choice when the requested version is empty. *)
Definition lenientMapper : meta.RESTMapper :=
  {| meta.RESTMapping := fun gk versions =>
       Ok {| schema.Group := schema.gk_Group gk;
             schema.Version :=
               match versions with
               | v :: _ => if String.eqb v "" then "v1" else v
               | [] => "v1"
               end;
             schema.Resource := "things" |};
     meta.ResourceFor := fun gvr =>
       Ok {| schema.Group := schema.Group gvr;
             schema.Version := "v1";
             schema.Resource := schema.Resource gvr |} |}.

(** A mapper that knows no kind at all. *)
Definition emptyMapper : meta.RESTMapper :=
  {| meta.RESTMapping := fun _ _ => Error (Errorf "no matches for kind" []);
     meta.ResourceFor := fun _ => Error (Errorf "no matches for resource" []) |}.

Definition mkOptions (incNs excNs incRes excRes : list string) : Options :=
  {| OutputArchive := "xp-state.tar.gz";
     IncludeNamespaces := incNs;
     ExcludeNamespaces := excNs;
     IncludeExtraResources := incRes;
     ExcludeResources := excRes;
     PauseBeforeExport := false |}.

Definition systemNamespaces : list string :=
  ["kube-system"; "kube-public"; "kube-node-lease"; "local-path-storage"].

(** No extra resources named, nothing excluded. *)
Definition bareExporter : ControlPlaneStateExporter :=
  {| resourceMapper := lenientMapper;
     options := mkOptions [] systemNamespaces [] [] |}.

(** The defaults of the command line. *)
Definition defaultExporter : ControlPlaneStateExporter :=
  {| resourceMapper := lenientMapper;
     options := mkOptions [] systemNamespaces
                          ["namespaces"; "configmaps"; "secrets"] [] |}.

(** A custom type that is both included and excluded by name. *)
Definition tugOfWarExporter : ControlPlaneStateExporter :=
  {| resourceMapper := lenientMapper;
     options := mkOptions [] systemNamespaces
                          ["widgets.example.org"; "secrets"]
                          ["widgets.example.org"] |}.

Definition widgets : CustomResourceDefinition :=
  {| GetName := "widgets.example.org";
     GetOwnerReferences := [];
     Spec := {| Group := "example.org";
                Names := {| Kind := "Widget"; Categories := [] |};
                Versions :=
                  [ {| Name := "v1alpha1"; Storage := false;
                       Subresources := None |};
                    {| Name := "v1"; Storage := true;
                       Subresources := Some {| Status := Some tt |} |} ] |} |}.

(** The same type with no version marked as the storage version. *)
Definition widgetsNoStorage : CustomResourceDefinition :=
  {| GetName := "widgets.example.org";
     GetOwnerReferences := [];
     Spec := {| Group := "example.org";
                Names := {| Kind := "Widget"; Categories := [] |};
                Versions :=
                  [ {| Name := "v1alpha1"; Storage := false;
                       Subresources := None |};
                    {| Name := "v1"; Storage := false;
                       Subresources := None |} ] |} |}.

Definition tenantFetcher : UnstructuredFetcher :=
  NewUnstructuredFetcher (mkOptions ["tenant-a"; "tenant-b"]
                                    ["tenant-b"; "kube-system"] [] []).

(** A Secret of namespace [tenant-a] that carries [helm.sh/release.v1]
    below [spec], and no [type] of its own. *)
Definition specTypedSecret : unstructured.Unstructured :=
  {[ "apiVersion" := VStr "v1";
     "kind" := VStr "Secret";
     "metadata" := VMap {[ "name" := VStr "release-data";
                           "namespace" := VStr "tenant-a" ]};
     "spec" := VMap {[ "type" := VStr "helm.sh/release.v1" ]} ]}.

(** A Helm release Secret as the API server returns it: [type] is a field
    of the Secret itself. *)
Definition helmReleaseSecret : unstructured.Unstructured :=
  {[ "apiVersion" := VStr "v1";
     "kind" := VStr "Secret";
     "type" := VStr "helm.sh/release.v1";
     "metadata" := VMap {[ "name" := VStr "sh.helm.release.v1.crossplane.v1";
                           "namespace" := VStr "tenant-a" ]} ]}.

(** A cluster without a Crossplane deployment. *)
Definition otherDeployments : list crossplane.Deployment :=
  [ {| crossplane.d_Name := "coredns";
       crossplane.d_Namespace := "kube-system";
       crossplane.d_Labels := Some {[ "app.kubernetes.io/version" := "1.11" ]};
       crossplane.d_Containers :=
         [ {| crossplane.c_Name := "coredns";
              crossplane.c_Args := ["--enable-metrics"] |} ] |};
    {| crossplane.d_Name := "crossplane-rbac-manager";
       crossplane.d_Namespace := "crossplane-system";
       crossplane.d_Labels := None;
       crossplane.d_Containers :=
         [ {| crossplane.c_Name := "crossplane";
              crossplane.c_Args := ["--enable-usages"] |} ] |} ].

(** A cluster that runs Crossplane 1.14.5 with two feature flags. *)
Definition crossplaneDeployments : list crossplane.Deployment :=
  [ {| crossplane.d_Name := "crossplane";
       crossplane.d_Namespace := "crossplane-system";
       crossplane.d_Labels :=
         Some {[ "app.kubernetes.io/version" := "1.14.5";
                 "app.kubernetes.io/instance" := "crossplane" ]};
       crossplane.d_Containers :=
         [ {| crossplane.c_Name := "crossplane";
              crossplane.c_Args :=
                ["core"; "start"; "--enable-usages";
                 "--enable-environment-configs"] |} ] |} ].

Definition manifest (version : string) (flags : list string)
  : v1alpha1.ExportMeta :=
  {| v1alpha1.Crossplane :=
       {| v1alpha1.Version := version;
          v1alpha1.Distribution := "crossplane";
          v1alpha1.Namespace := "crossplane-system";
          v1alpha1.FeatureFlags := flags |} |}.

(** An unpacked archive with three type directories and the manifest. *)
Definition archiveFs : importer.MemFs :=
  {| importer.ReadFile := fun name =>
       if String.eqb name "export.yaml" then Ok "version: v1alpha1"
       else Error (Errorf "file does not exist" [name]);
     importer.ReadDir := fun _ =>
       Ok [ {| importer.fi_Name := "buckets.s3.aws.upbound.io";
               importer.IsDir := true |};
            {| importer.fi_Name := "export.yaml"; importer.IsDir := false |};
            {| importer.fi_Name := "namespaces"; importer.IsDir := true |};
            {| importer.fi_Name := "xnetworks.example.org";
               importer.IsDir := true |} ] |}.

(** A target on which every call succeeds and every listing is empty. *)
Definition calmEnv (ds : list crossplane.Deployment) (em : v1alpha1.ExportMeta)
  : importer.Env :=
  {| importer.deployments := Ok ds;
     importer.unarchive := (archiveFs, Ok tt);
     importer.Unmarshal := fun _ => Ok em;
     importer.ImportResources := fun _ _ => Ok 1;
     importer.List := fun _ _ => Ok [];
     importer.ModifyResources := fun _ => Ok 0 |}.

(** A provider that reports [Installed] but is not yet [Healthy]. *)
Definition unhealthyProvider : unstructured.Unstructured :=
  {[ "kind" := VStr "Provider";
     "metadata" := VMap {[ "name" := VStr "provider-aws" ]};
     "status" := VMap {[ "conditions" := VList
        [ VMap {[ "type" := VStr "Installed"; "status" := VStr "True" ]};
          VMap {[ "type" := VStr "Healthy"; "status" := VStr "False" ]} ] ]} ]}.

Definition healthyProvider : unstructured.Unstructured :=
  {[ "kind" := VStr "Provider";
     "metadata" := VMap {[ "name" := VStr "provider-aws" ]};
     "status" := VMap {[ "conditions" := VList
        [ VMap {[ "type" := VStr "Installed"; "status" := VStr "True" ]};
          VMap {[ "type" := VStr "Healthy"; "status" := VStr "True" ]} ] ]} ]}.

(** A target without composite resource definitions whose packages become
    healthy at poll number [ready] of a barrier. *)
Definition slowEnv (ready : nat) : importer.Env :=
  {| importer.deployments := Ok crossplaneDeployments;
     importer.unarchive := (archiveFs, Ok tt);
     importer.Unmarshal := fun _ => Ok (manifest "1.14.5" []);
     importer.ImportResources := fun _ _ => Ok 1;
     importer.List := fun gvr k =>
       if String.eqb (schema.Group gvr) "pkg.crossplane.io"
       then Ok [if (k <? ready)%nat then unhealthyProvider
                else healthyProvider]
       else Ok [];
     importer.ModifyResources := fun _ => Ok 0 |}.

Definition freshWorld : importer.World :=
  {| importer.im_fs := None; importer.log := [] |}.

Definition sampleImporter (unpause : bool)
  : importer.ControlPlaneStateImporter :=
  {| importer.resourceMapper := lenientMapper;
     importer.options := {| importer.InputArchive := "xp-state.tar.gz";
                            importer.UnpauseAfterImport := unpause |} |}.

(** An export in which every collaborator succeeds, except, when [walk]
    is an error, the walk that fills the archive. *)
Definition exportEnv (walk : result unit) : export.Env :=
  {| export.TempDir := Ok "/tmp/up123";
     export.pauseManaged := Ok 0;
     export.fetchAllCRDs := Ok [widgets];
     export.ExportResources := fun gvr =>
       ([schema.GroupResourceString gvr +:+ "/default/one.yaml"], Ok 1);
     export.ExportMetadata := (["export.yaml"], Ok tt);
     export.Create := Ok tt;
     export.Chmod := Ok tt;
     export.Walk := walk |}.

(** An export that cannot list the custom resource definitions. *)
Definition brokenEnv : export.Env :=
  {| export.TempDir := Ok "/tmp/up123";
     export.pauseManaged := Ok 0;
     export.fetchAllCRDs := Error (Errorf "cannot list CRDs" []);
     export.ExportResources := fun _ => ([], Ok 0);
     export.ExportMetadata := ([], Ok tt);
     export.Create := Ok tt;
     export.Chmod := Ok tt;
     export.Walk := Ok tt |}.

(** An export whose walk over the temporary directory fails. *)
Definition walkFailsEnv : export.Env :=
  exportEnv (Error (Errorf "read: is a directory" [])).

Definition homeFs : export.FS := {[ "/home/me/notes.txt" ]}.

End sample.

(** ** Further scenarios *)

Module scenario.

Import exporter.

Definition object (kind ns name : string) : unstructured.Unstructured :=
  {[ "apiVersion" := VStr "v1";
     "kind" := VStr kind;
     "metadata" := VMap {[ "name" := VStr name; "namespace" := VStr ns ]} ]}.

(** A cluster-scoped custom resource without labels or owners. *)
Definition clusterWidget : unstructured.Unstructured :=
  {[ "apiVersion" := VStr "example.org/v1";
     "kind" := VStr "Widget";
     "metadata" := VMap {[ "name" := VStr "w1" ]} ]}.

(** A Secret that a provider owns. *)
Definition providerSecret : unstructured.Unstructured :=
  {[ "apiVersion" := VStr "v1";
     "kind" := VStr "Secret";
     "metadata" := VMap
       {[ "name" := VStr "provider-tls";
          "namespace" := VStr "tenant-a";
          "ownerReferences" := VList
            [ VMap {[ "apiVersion" := VStr "pkg.crossplane.io/v1";
                      "kind" := VStr "Provider";
                      "name" := VStr "provider-aws" ]} ] ]} ]}.

(** A server that answers in two pages, the second found at token [t1]. *)
Definition twoPages (tok : string) : result page :=
  if String.eqb tok ""
  then Ok {| Items := [object "ConfigMap" "tenant-a" "settings";
                       object "ConfigMap" "tenant-b" "settings"];
             Continue := "t1" |}
  else if String.eqb tok "t1"
  then Ok {| Items := [object "ConfigMap" "tenant-a" "kube-root-ca.crt";
                       object "ConfigMap" "tenant-a" "more"];
             Continue := "" |}
  else Error (Errorf "unknown continue token" [tok]).

(** A server whose second page cannot be read. *)
Definition secondPageFails (tok : string) : result page :=
  if String.eqb tok ""
  then Ok {| Items := [object "ConfigMap" "tenant-a" "settings"];
             Continue := "t1" |}
  else Error (Errorf "the server was unable to return a response" []).

Definition crdPages (tok : string) : result crds.page :=
  if String.eqb tok ""
  then Ok {| crds.Items := [sample.widgets]; crds.Continue := "t1" |}
  else if String.eqb tok "t1"
  then Ok {| crds.Items := [sample.widgetsNoStorage]; crds.Continue := "" |}
  else Error (Errorf "unknown continue token" [tok]).

Definition crdSecondPageFails (tok : string) : result crds.page :=
  if String.eqb tok ""
  then Ok {| crds.Items := [sample.widgets]; crds.Continue := "t1" |}
  else Error (Errorf "the server was unable to return a response" []).

(** Two deployments named [crossplane]: the first one, of namespace
    [upbound-system], carries no labels and runs the container
    [universal-crossplane] after a sidecar. *)
Definition twoCrossplanes : list crossplane.Deployment :=
  [ {| crossplane.d_Name := "crossplane";
       crossplane.d_Namespace := "upbound-system";
       crossplane.d_Labels := None;
       crossplane.d_Containers :=
         [ {| crossplane.c_Name := "sidecar";
              crossplane.c_Args := ["--enable-tracing"] |};
           {| crossplane.c_Name := "universal-crossplane";
              crossplane.c_Args := ["start"; "--enable-usages"; "--debug"] |};
           {| crossplane.c_Name := "crossplane";
              crossplane.c_Args := ["--enable-realtime"] |} ] |};
    {| crossplane.d_Name := "crossplane";
       crossplane.d_Namespace := "crossplane-system";
       crossplane.d_Labels :=
         Some {[ "app.kubernetes.io/version" := "1.14.5" ]};
       crossplane.d_Containers := [] |} ].

(** A target whose archive cannot be unpacked: the file system is left
    empty. *)
Definition emptyFs : importer.MemFs :=
  {| importer.ReadFile := fun name =>
       Error (Errorf "file does not exist" [name]);
     importer.ReadDir := fun _ => Ok [] |}.

Definition corruptArchiveEnv : importer.Env :=
  {| importer.deployments := Ok sample.crossplaneDeployments;
     importer.unarchive := (emptyFs, Error (Errorf "unexpected EOF" []));
     importer.Unmarshal := fun _ => Ok (sample.manifest "1.14.5" []);
     importer.ImportResources := fun _ _ => Ok 0;
     importer.List := fun _ _ => Ok [];
     importer.ModifyResources := fun _ => Ok 0 |}.


Definition acme : orgcmd.Organization :=
  {| orgcmd.ID := 7; orgcmd.Name := "acme" |}.

Definition orgsEnv : orgcmd.Env :=
  {| orgcmd.List := Ok [ {| orgcmd.ID := 3; orgcmd.Name := "initech" |};
                         acme;
                         {| orgcmd.ID := 9; orgcmd.Name := "acme" |} ];
     orgcmd.Print := fun _ => Ok tt |}.

Definition robotsEnv (ty : robotcmd.AccountType) : robotcmd.Env :=
  {| robotcmd.Get := Ok {| robotcmd.Type_ := ty;
                           robotcmd.OrganizationID := 7 |};
     robotcmd.ListRobots := fun _ =>
       Ok [ {| robotcmd.Name := "ci"; robotcmd.ID := "r-1";
               robotcmd.Description := "builds"; robotcmd.CreatedAt := 0 |} ];
     robotcmd.Print := fun _ => Ok tt |}.

End scenario.

(** * Properties *)

(** ** Prefixes and suffixes *)

Section Strings.

Lemma append_cons (c : ascii) (s t : string) :
  String c s +:+ t = String c (s +:+ t).
Proof. reflexivity. Qed.

Lemma length_append (s t : string) :
  String.length (s +:+ t) = String.length s + String.length t.
Proof.
  induction s as [|c s IH]; [done|].
  rewrite append_cons. simpl. by rewrite IH.
Qed.

Lemma substring_zero (s : string) : substring 0 0 s = "".
Proof. by destruct s. Qed.

Lemma substring_all (s : string) : substring 0 (String.length s) s = s.
Proof. induction s as [|c s IH]; simpl; [done | by rewrite IH]. Qed.

Lemma substring_split (s : string) (n : nat) :
  n <= String.length s ->
  s = substring 0 n s +:+ substring n (String.length s - n) s.
Proof.
  revert n. induction s as [|c s IH]; intros n Hn; simpl in *.
  - by replace n with 0 by lia.
  - destruct n as [|n]; simpl.
    + by rewrite substring_all.
    + rewrite append_cons. f_equal. apply IH. lia.
Qed.

Lemma substring_app_l (s t : string) :
  substring 0 (String.length s) (s +:+ t) = s.
Proof.
  induction s as [|c s IH]; [apply substring_zero|].
  rewrite append_cons. simpl. by rewrite IH.
Qed.

Lemma substring_app_r (s t : string) :
  substring (String.length s) (String.length t) (s +:+ t) = t.
Proof.
  induction s as [|c s IH]; [apply substring_all|].
  rewrite append_cons. simpl. exact IH.
Qed.

Lemma HasPrefix_spec (s pre : string) :
  strings.HasPrefix s pre = true ↔ ∃ rest, s = pre +:+ rest.
Proof.
  unfold strings.HasPrefix. rewrite andb_true_iff, Nat.leb_le, String.eqb_eq.
  split.
  - intros [Hlen Hsub].
    exists (substring (String.length pre) (String.length s - String.length pre) s).
    rewrite <- Hsub at 1. by apply substring_split.
  - intros [rest ->]. rewrite length_append, substring_app_l. split; [lia|done].
Qed.

Lemma HasSuffix_spec (s suf : string) :
  strings.HasSuffix s suf = true ↔ ∃ front, s = front +:+ suf.
Proof.
  unfold strings.HasSuffix. rewrite andb_true_iff, Nat.leb_le, String.eqb_eq.
  split.
  - intros [Hlen Hsub].
    exists (substring 0 (String.length s - String.length suf) s).
    pose proof (substring_split s (String.length s - String.length suf)) as Hs.
    replace (String.length s - (String.length s - String.length suf))
      with (String.length suf) in Hs by lia.
    rewrite Hsub in Hs. apply Hs. lia.
  - intros [front ->]. rewrite length_append. split; [lia|].
    replace (String.length front + String.length suf - String.length suf)
      with (String.length front) by lia.
    apply substring_app_r.
Qed.

End Strings.

(** ** Sets built from slices *)

Section SetsOfSlices.

Import exporter selector.

Lemma elem_of_foldl_insert (l : list string) (acc : gset string) (x : string) :
  x ∈ foldl (fun m ns => {[ ns ]} ∪ m) acc l ↔ x ∈ acc ∨ x ∈ l.
Proof.
  revert acc. induction l as [|a l IH]; intros acc; simpl.
  - set_solver.
  - rewrite IH. set_solver.
Qed.

Lemma elem_of_foldl_delete (l : list string) (acc : gset string) (x : string) :
  x ∈ foldl (fun m r => m ∖ {[ r ]}) acc l ↔ x ∈ acc ∧ x ∉ l.
Proof.
  revert acc. induction l as [|a l IH]; intros acc; simpl.
  - set_solver.
  - rewrite IH. set_solver.
Qed.

Lemma elem_of_set_of_slice (l : list string) (x : string) :
  x ∈ set_of_slice l ↔ x ∈ l.
Proof. unfold set_of_slice. rewrite elem_of_foldl_insert. set_solver. Qed.

Lemma set_of_slice_nonempty (l : list string) :
  (0 <? size (set_of_slice l))%nat = true ↔ l ≠ [].
Proof.
  rewrite Nat.ltb_lt. split.
  - intros Hsz ->. change (set_of_slice []) with (∅ : gset string) in Hsz.
    rewrite size_empty in Hsz. lia.
  - intros Hne. destruct l as [|a l]; [done|].
    assert (Hin : a ∈ set_of_slice (a :: l))
      by (apply elem_of_set_of_slice; left).
    destruct (decide (size (set_of_slice (a :: l)) = 0)) as [Hz|Hz]; [|lia].
    apply size_empty_iff in Hz. set_solver.
Qed.

Lemma extraResources_spec (e : ControlPlaneStateExporter) (x : string) :
  x ∈ extraResources e
  ↔ x ∈ IncludeExtraResources (options e) ∧ x ∉ ExcludeResources (options e).
Proof.
  unfold extraResources. rewrite elem_of_foldl_delete, elem_of_foldl_insert.
  set_solver.
Qed.

Lemma existsb_eqb_elem_of (l : list string) (x : string) :
  existsb (fun r => String.eqb x r) l = true ↔ x ∈ l.
Proof.
  rewrite existsb_exists. split.
  - intros (r & Hin & Heq). apply String.eqb_eq in Heq as ->.
    by apply list_elem_of_In.
  - intros Hin. exists x. split; [by apply list_elem_of_In|].
    apply String.eqb_refl.
Qed.

Lemma IncludedExtraResource_spec (e : ControlPlaneStateExporter) (gr : string) :
  IncludedExtraResource e gr = true ↔ gr ∈ extraResources e.
Proof.
  unfold IncludedExtraResource.
  rewrite existsb_eqb_elem_of. apply elem_of_elements.
Qed.

End SetsOfSlices.

(** ** Namespace scope *)

Section NamespaceScope.

Import exporter.

Lemma namespaceInScope_sets (e : UnstructuredFetcher) (n : string) :
  namespaceInScope e n = true
  ↔ (size (includedNamespaces e) = 0 ∨ n ∈ includedNamespaces e)
    ∧ n ∉ excludedNamespaces e.
Proof.
  unfold namespaceInScope.
  destruct (0 <? size (includedNamespaces e))%nat eqn:Hsz;
    [apply Nat.ltb_lt in Hsz | apply Nat.ltb_ge in Hsz];
    destruct (decide (n ∈ includedNamespaces e)) as [Hi|Hi];
    destruct (decide (n ∈ excludedNamespaces e)) as [Hx|Hx];
    rewrite ?(bool_decide_eq_true_2 _ Hi), ?(bool_decide_eq_false_2 _ Hi),
            ?(bool_decide_eq_true_2 _ Hx), ?(bool_decide_eq_false_2 _ Hx);
    simpl; split; try done; try tauto;
    try (intros [[Hz|Hz] Hn]; done || lia);
    try (intros _; split; [left; lia | done]).
Qed.

(** C8. A namespace is in scope exactly when the include list is empty or
    names it, and the exclude list does not name it; a namespace named by
    both lists is out of scope. *)
Theorem namespaceInScope_iff (opts : Options) (n : string) :
  (namespaceInScope (NewUnstructuredFetcher opts) n = true
   ↔ (IncludeNamespaces opts = [] ∨ n ∈ IncludeNamespaces opts)
     ∧ n ∉ ExcludeNamespaces opts)
  ∧ (n ∈ IncludeNamespaces opts → n ∈ ExcludeNamespaces opts →
     namespaceInScope (NewUnstructuredFetcher opts) n = false).
Proof.
  assert (Hiff : namespaceInScope (NewUnstructuredFetcher opts) n = true
   ↔ (IncludeNamespaces opts = [] ∨ n ∈ IncludeNamespaces opts)
     ∧ n ∉ ExcludeNamespaces opts).
  { rewrite namespaceInScope_sets. simpl.
    rewrite !elem_of_set_of_slice.
    assert (Hz : size (set_of_slice (IncludeNamespaces opts)) = 0
                 ↔ IncludeNamespaces opts = []).
    { pose proof (set_of_slice_nonempty (IncludeNamespaces opts)) as Hne.
      rewrite Nat.ltb_lt in Hne.
      destruct (IncludeNamespaces opts) as [|a l].
      - split; [done|]. intros _.
        destruct (decide (0 < size (set_of_slice []))) as [Hlt|]; [|lia].
        by apply Hne in Hlt.
      - split; [|done]. intros Hsz.
        assert (0 < size (set_of_slice (a :: l))) by by apply Hne. lia. }
    rewrite Hz. done. }
  split; [exact Hiff|].
  intros Hin Hex.
  destruct (namespaceInScope (NewUnstructuredFetcher opts) n) eqn:Hs; [|done].
  destruct (proj1 Hiff eq_refl) as [_ Hnot]. done.
Qed.

Lemma namespaceInScope_iff_witness :
  namespaceInScope sample.tenantFetcher "tenant-b" = false.
Proof.
  apply (proj2 (namespaceInScope_iff
                  (sample.mkOptions ["tenant-a"; "tenant-b"]
                                    ["tenant-b"; "kube-system"] [] [])
                  "tenant-b")); simpl.
  - right. left.
  - left.
Defined.

End NamespaceScope.

(** ** Native-type universe and schema selection *)

Section Selection.

Import exporter selector apiextensionsv1.

(** C1, as the code has it. The native-type universe is the include list
    minus the exclude list, as sets; an empty include list gives the empty
    universe, and the three names that the command line passes by default
    give those three. *)
Theorem extraResources_difference (e : ControlPlaneStateExporter) :
  extraResources e
  = list_to_set (IncludeExtraResources (options e))
    ∖ list_to_set (ExcludeResources (options e))
  ∧ (IncludeExtraResources (options e) = [] → extraResources e = ∅)
  ∧ (IncludeExtraResources (options e) = ["namespaces"; "configmaps"; "secrets"]
     → ExcludeResources (options e) = []
     → extraResources e = {[ "namespaces"; "configmaps"; "secrets" ]}).
Proof.
  assert (Heq : extraResources e
                = list_to_set (IncludeExtraResources (options e))
                  ∖ list_to_set (ExcludeResources (options e))).
  { apply set_eq. intros x. rewrite extraResources_spec. set_solver. }
  split; [exact Heq|]. split.
  - intros Hnil. rewrite Heq, Hnil. set_solver.
  - intros Hinc Hexc. rewrite Heq, Hinc, Hexc. set_solver.
Qed.

Lemma extraResources_difference_witness :
  extraResources sample.bareExporter = ∅
  ∧ extraResources sample.defaultExporter
    = {[ "namespaces"; "configmaps"; "secrets" ]}.
Proof.
  split.
  - apply (proj1 (proj2 (extraResources_difference sample.bareExporter))).
    reflexivity.
  - apply (proj2 (proj2 (extraResources_difference sample.defaultExporter)));
      reflexivity.
Defined.

(** C1 as stated fails: with an empty include list the universe is empty,
    not the three default names. *)
Lemma extraResources_no_defaults :
  IncludeExtraResources (options sample.bareExporter) = []
  ∧ extraResources sample.bareExporter
    ≠ {[ "namespaces"; "configmaps"; "secrets" ]}.
Proof.
  split; [reflexivity|].
  intros Heq.
  assert (Hin : "secrets" ∈ extraResources sample.bareExporter)
    by (rewrite Heq; set_solver).
  apply extraResources_spec in Hin as [Hin _].
  simpl in Hin. by apply elem_of_nil in Hin.
Qed.

Lemma ownerSelects_spec (refs : list OwnerReference) :
  ownerSelects refs = true
  ↔ ∃ ref, ref ∈ refs
           ∧ (or_APIVersion ref = "pkg.crossplane.io/v1"
              ∨ (or_APIVersion ref = "apiextensions.crossplane.io/v1"
                 ∧ or_Kind ref = "CompositeResourceDefinition")).
Proof.
  induction refs as [|ref refs IH]; simpl.
  - split; [done|]. intros (ref & Hin & _). by apply elem_of_nil in Hin.
  - destruct (String.eqb_spec (or_APIVersion ref) "pkg.crossplane.io/v1")
      as [Hpkg|Hpkg].
    { split; [|done]. intros _. exists ref. split; [left|]; auto. }
    destruct (String.eqb_spec (or_APIVersion ref)
                              "apiextensions.crossplane.io/v1") as [Hxrd|Hxrd];
      destruct (String.eqb_spec (or_Kind ref) "CompositeResourceDefinition")
        as [Hk|Hk]; simpl.
    { split; [|done]. intros _. exists ref. split; [left|]; auto. }
    all: rewrite IH; split;
      [ intros (r & Hin & Hr); exists r; split; [by right | exact Hr]
      | intros (r & Hin & Hr); apply elem_of_cons in Hin as [->|Hin];
        [ exfalso; destruct Hr as [?|[? ?]]; done
        | exists r; split; [exact Hin | exact Hr] ] ].
Qed.

(** C6, as the code has it. A custom resource definition is selected
    exactly when an owner reference has apiVersion pkg.crossplane.io/v1, or
    an owner reference has apiVersion apiextensions.crossplane.io/v1 and
    kind CompositeResourceDefinition, or its name ends in .crossplane.io,
    or its name is in the include list and not in the exclude list. *)
Theorem shouldExport_iff (e : ControlPlaneStateExporter)
    (crd : CustomResourceDefinition) :
  shouldExport e crd = true
  ↔ (∃ ref, ref ∈ GetOwnerReferences crd
            ∧ or_APIVersion ref = "pkg.crossplane.io/v1")
    ∨ (∃ ref, ref ∈ GetOwnerReferences crd
              ∧ or_APIVersion ref = "apiextensions.crossplane.io/v1"
              ∧ or_Kind ref = "CompositeResourceDefinition")
    ∨ (∃ front, GetName crd = front +:+ ".crossplane.io")
    ∨ (GetName crd ∈ IncludeExtraResources (options e)
       ∧ GetName crd ∉ ExcludeResources (options e)).
Proof.
  unfold shouldExport.
  rewrite <- HasSuffix_spec, <- extraResources_spec,
    <- IncludedExtraResource_spec.
  destruct (ownerSelects (GetOwnerReferences crd)) eqn:Hown.
  - split; [|done]. intros _.
    apply ownerSelects_spec in Hown as (ref & Hin & [Hp|Hx]).
    + left. by exists ref.
    + right; left. by exists ref.
  - assert (Hno : ¬ ∃ ref, ref ∈ GetOwnerReferences crd
                   ∧ (or_APIVersion ref = "pkg.crossplane.io/v1"
                      ∨ (or_APIVersion ref = "apiextensions.crossplane.io/v1"
                         ∧ or_Kind ref = "CompositeResourceDefinition"))).
    { intros Hex. apply ownerSelects_spec in Hex. congruence. }
    destruct (strings.HasSuffix (GetName crd) ".crossplane.io").
    + split; [|done]. intros _. right; right; left. done.
    + split.
      * intros Hinc. right; right; right. exact Hinc.
      * intros [(ref & Hin & Hp)|[(ref & Hin & Hx)|[Hs|Hinc]]].
        -- exfalso. apply Hno. exists ref. auto.
        -- exfalso. apply Hno. exists ref. auto.
        -- done.
        -- exact Hinc.
Qed.

(** C6 as stated fails: a name in the include list that is also in the
    exclude list is not selected. *)
Lemma shouldExport_excluded_name :
  ¬ (shouldExport sample.tugOfWarExporter sample.widgets = true
     ↔ (∃ ref, ref ∈ GetOwnerReferences sample.widgets
               ∧ or_APIVersion ref = "pkg.crossplane.io/v1")
       ∨ (∃ ref, ref ∈ GetOwnerReferences sample.widgets
                 ∧ or_APIVersion ref = "apiextensions.crossplane.io/v1"
                 ∧ or_Kind ref = "CompositeResourceDefinition")
       ∨ (∃ front, GetName sample.widgets = front +:+ ".crossplane.io")
       ∨ GetName sample.widgets
           ∈ IncludeExtraResources (options sample.tugOfWarExporter)).
Proof.
  intros [_ Hback].
  assert (Hsel : shouldExport sample.tugOfWarExporter sample.widgets = true).
  { apply Hback. right; right; right. simpl. by left. }
  vm_compute in Hsel. discriminate.
Qed.

(** ** Storage-version resolution *)

Lemma storageVersion_none (vs : list CustomResourceDefinitionVersion)
    (version : string) :
  Forall (fun vr => Storage vr = false) vs ->
  foldl (fun version vr => if Storage vr then Name vr else version) version vs
  = version.
Proof.
  intros Hall. revert version.
  induction Hall as [|vr vs Hvr _ IH]; intros version; simpl; [done|].
  rewrite Hvr. apply IH.
Qed.

(** C7, as the code has it. Resolving the group-version-resource fails
    exactly when the REST mapping of the group, the kind and the chosen
    version fails; the chosen version is the name of the last version
    marked as storage, and the empty string when no version is marked. *)
Theorem customResourceGVR_error (e : ControlPlaneStateExporter)
    (crd : CustomResourceDefinition) :
  is_error (customResourceGVR e crd)
  = is_error (meta.RESTMapping (resourceMapper e)
                {| schema.gk_Group := Group (Spec crd);
                   schema.gk_Kind := Kind (Names (Spec crd)) |}
                [storageVersion (Versions (Spec crd))])
  ∧ (Forall (fun vr => Storage vr = false) (Versions (Spec crd)) →
     storageVersion (Versions (Spec crd)) = "")
  ∧ (∀ before vr after,
       Versions (Spec crd) = (before ++ vr :: after)%list →
       Storage vr = true →
       Forall (fun vr => Storage vr = false) after →
       storageVersion (Versions (Spec crd)) = Name vr).
Proof.
  split; [|split].
  - unfold customResourceGVR.
    by destruct (meta.RESTMapping _ _ _).
  - intros Hall. by apply storageVersion_none.
  - intros before vr after -> Hvr Hafter. unfold storageVersion.
    rewrite foldl_app. simpl. rewrite Hvr. by apply storageVersion_none.
Qed.

Lemma customResourceGVR_error_witness :
  storageVersion (Versions (Spec sample.widgetsNoStorage)) = ""
  ∧ storageVersion (Versions (Spec sample.widgets)) = "v1".
Proof.
  split.
  - apply (proj1 (proj2
      (customResourceGVR_error sample.bareExporter sample.widgetsNoStorage))).
    repeat constructor.
  - apply (proj2 (proj2
      (customResourceGVR_error sample.bareExporter sample.widgets))
      [ {| Name := "v1alpha1"; Storage := false; Subresources := None |} ]
      {| Name := "v1"; Storage := true;
         Subresources := Some {| Status := Some tt |} |}
      []); [reflexivity | reflexivity | constructor].
Defined.

(** C7 as stated fails: a definition with no version marked as storage is
    resolved without an error when the mapper accepts the empty version. *)
Lemma customResourceGVR_no_storage_version :
  Forall (fun vr => Storage vr = false)
         (Versions (Spec sample.widgetsNoStorage))
  ∧ is_error (customResourceGVR sample.bareExporter sample.widgetsNoStorage)
    = false.
Proof. split; [repeat constructor | reflexivity]. Qed.

End Selection.

(** ** Scope filter of the fetcher *)

Section Fetcher.

Import exporter unstructured.

Lemma FetchResources_kept (e : UnstructuredFetcher)
    (List : string -> result page) (fuel : nat) (continueToken : string)
    (resources out : list Unstructured) :
  FetchResources e List fuel continueToken resources = Some (Ok out) ->
  Forall (fun r => shouldSkip e r = false) resources ->
  Forall (fun r => shouldSkip e r = false) out.
Proof.
  revert continueToken resources.
  induction fuel as [|fuel IH]; intros tok resources Hrun Hacc; simpl in Hrun;
    [done|].
  destruct (List tok) as [l|err]; [|done].
  assert (Hacc' : Forall (fun r => shouldSkip e r = false)
                    (resources
                       ++ filter (fun r => shouldSkip e r = false) (Items l))).
  { apply Forall_app. split; [exact Hacc|].
    apply Forall_forall. intros r Hin.
    by apply list_elem_of_filter in Hin as [Hr _]. }
  destruct (String.eqb (Continue l) "").
  - by inversion Hrun; subst.
  - by apply IH in Hrun.
Qed.

(** C2, as the code has it. A Secret whose own field [type] starts with
    [helm.sh/release] is skipped whatever the namespace scope is, and no
    listing returns it. *)
Theorem shouldSkip_helm_release_secret (e : UnstructuredFetcher)
    (r : Unstructured) :
  GetKind r = "Secret" →
  (∃ rest, fieldpath.GetString r ["type"] = "helm.sh/release" +:+ rest) →
  shouldSkip e r = true
  ∧ ∀ List fuel out,
      FetchResources e List fuel "" [] = Some (Ok out) → r ∉ out.
Proof.
  intros Hkind Htype.
  assert (Hskip : shouldSkip e r = true).
  { apply HasPrefix_spec in Htype. unfold shouldSkip.
    rewrite Hkind, Htype. simpl.
    repeat match goal with
           | |- (if ?c then true else _) = true => destruct c; [reflexivity|]
           end.
    reflexivity. }
  split; [exact Hskip|].
  intros List fuel out Hrun Hin.
  apply FetchResources_kept in Hrun; [|constructor].
  rewrite Forall_forall in Hrun. apply Hrun in Hin. congruence.
Qed.

Lemma shouldSkip_helm_release_secret_witness :
  shouldSkip sample.tenantFetcher sample.helmReleaseSecret = true.
Proof.
  apply (shouldSkip_helm_release_secret
           sample.tenantFetcher sample.helmReleaseSecret).
  - vm_compute. reflexivity.
  - exists ".v1". vm_compute. reflexivity.
Defined.

(** C2 as stated fails: a Secret of an in-scope namespace that carries
    [helm.sh/release.v1] at [spec.type] is kept. *)
Lemma shouldSkip_reads_type_not_spec_type :
  GetKind sample.specTypedSecret = "Secret"
  ∧ strings.HasPrefix
      (fieldpath.GetString sample.specTypedSecret ["spec"; "type"])
      "helm.sh/release" = true
  ∧ namespaceInScope sample.tenantFetcher
      (GetNamespace sample.specTypedSecret) = true
  ∧ shouldSkip sample.tenantFetcher sample.specTypedSecret = false.
Proof. vm_compute. repeat split. Qed.

End Fetcher.

(** ** Control-plane information and preflight *)

Section Preflight.

Import v1alpha1 crossplane importer.

Lemma scanDeployments_absent (ds : list Deployment) (xp : CrossplaneInfo) :
  Forall (fun d => d_Name d ≠ "crossplane") ds ->
  scanDeployments ds xp = xp.
Proof.
  induction 1 as [|d ds Hd _ IH]; simpl; [done|].
  destruct (String.eqb_spec (d_Name d) "crossplane"); [done | exact IH].
Qed.

Lemma contains_spec (ss : list string) (s : string) :
  contains ss s = true ↔ s ∈ ss.
Proof.
  induction ss as [|v ss IH]; simpl.
  - split; [done|]. intros Hin. by apply elem_of_nil in Hin.
  - destruct (String.eqb_spec v s) as [->|Hne].
    + split; [|done]. intros _. by left.
    + rewrite IH. split; [by right|].
      intros Hin. apply elem_of_cons in Hin as [?|?]; [congruence|done].
Qed.

Lemma flagErrors_spec (observed exported : list string) (errs : list error) :
  flagErrors observed exported errs
  = (errs ++ (flagError <$> filter (fun ff => ff ∉ observed) exported))%list.
Proof.
  revert errs. induction exported as [|ff rest IH]; intros errs; simpl.
  - by rewrite app_nil_r.
  - destruct (contains observed ff) eqn:Hc; simpl; rewrite IH.
    + apply contains_spec in Hc. by rewrite filter_cons_False by auto.
    + assert (ff ∉ observed) by (rewrite <- contains_spec; congruence).
      rewrite filter_cons_True by done. simpl. by rewrite <- app_assoc.
Qed.

Lemma filter_absent_from_nil (l : list string) :
  filter (fun ff => ff ∉ ([] : list string)) l = l.
Proof.
  induction l as [|ff l IH]; [done|].
  rewrite filter_cons_True; [by rewrite IH|].
  intros Hin. by apply elem_of_nil in Hin.
Qed.

(** The outcome of the preflight once the target has been observed and the
    manifest has been read and decoded. *)
Lemma PreflightChecks_read (env : Env) (w w' : World)
    (observed : CrossplaneInfo) (fs : MemFs) (b : string) (em : ExportMeta) :
  CollectInfo (deployments env) = Ok observed ->
  ensureUnarchived env w = (Ok fs, w') ->
  ReadFile fs "export.yaml" = Ok b ->
  Unmarshal env b = Ok em ->
  (PreflightChecks env w).1
  = (versionErrors observed em
       ++ (flagError <$> filter (fun ff => ff ∉ FeatureFlags observed)
                                (FeatureFlags (Crossplane em))))%list.
Proof.
  intros Hobs Hfs Hread Hdec. unfold PreflightChecks, wrapf.
  rewrite Hobs, Hfs, Hread, Hdec. simpl. apply flagErrors_spec.
Qed.

(** C10. When no deployment is named [crossplane], [CollectInfo] succeeds
    with an empty version, distribution and namespace and no feature flags;
    the preflight then compares the manifest with these empty values: it
    reports the version of the manifest unless that is empty too, and every
    feature flag of the manifest. *)
Theorem CollectInfo_no_crossplane (ds : list Deployment) :
  Forall (fun d => d_Name d ≠ "crossplane") ds →
  CollectInfo (Ok ds)
  = Ok {| Version := ""; Distribution := ""; Namespace := "";
          FeatureFlags := [] |}
  ∧ ∀ env w w' fs b em,
      deployments env = Ok ds →
      ensureUnarchived env w = (Ok fs, w') →
      ReadFile fs "export.yaml" = Ok b →
      Unmarshal env b = Ok em →
      (PreflightChecks env w).1
      = ((if String.eqb "" (Version (Crossplane em)) then []
          else [Errorf
                  "Crossplane version %q does not match exported version %q"
                  [""; Version (Crossplane em)]])
           ++ (flagError <$> FeatureFlags (Crossplane em)))%list.
Proof.
  intros Habsent.
  set (noInfo := {| Version := ""; Distribution := ""; Namespace := "";
                    FeatureFlags := [] |}).
  assert (Hinfo : CollectInfo (Ok ds) = Ok noInfo).
  { unfold CollectInfo. f_equal. by apply scanDeployments_absent. }
  split; [exact Hinfo|].
  intros env w w' fs b em Hds Hfs Hread Hdec.
  rewrite (PreflightChecks_read env w w' noInfo fs b em);
    [|by rewrite Hds|done..].
  unfold versionErrors. subst noInfo. simpl.
  rewrite filter_absent_from_nil.
  by destruct (Version (Crossplane em)).
Qed.

Lemma CollectInfo_no_crossplane_witness :
  CollectInfo (Ok sample.otherDeployments)
  = Ok {| Version := ""; Distribution := ""; Namespace := "";
          FeatureFlags := [] |}.
Proof.
  apply (CollectInfo_no_crossplane sample.otherDeployments).
  repeat constructor; discriminate.
Defined.

(** C5. Once the target has been observed and the manifest read, the
    preflight returns one error when the observed version differs from the
    version of the manifest, followed by one error for each feature flag of
    the manifest that the target lacks; a flag is reported only when the
    manifest lists it and the target lacks it, and nothing is returned
    exactly when the versions agree and the target has every flag of the
    manifest. *)
Theorem PreflightChecks_mismatches (env : Env) (w w' : World)
    (observed : CrossplaneInfo) (fs : MemFs) (b : string) (em : ExportMeta) :
  CollectInfo (deployments env) = Ok observed →
  ensureUnarchived env w = (Ok fs, w') →
  ReadFile fs "export.yaml" = Ok b →
  Unmarshal env b = Ok em →
  let errs := (PreflightChecks env w).1 in
  let missing := filter (fun ff => ff ∉ FeatureFlags observed)
                        (FeatureFlags (Crossplane em)) in
  errs
  = ((if decide (Version observed = Version (Crossplane em)) then []
      else [Errorf "Crossplane version %q does not match exported version %q"
                   [Version observed; Version (Crossplane em)]])
       ++ (flagError <$> missing))%list
  ∧ length errs
    = (if decide (Version observed = Version (Crossplane em)) then 0 else 1)
      + length missing
  ∧ (∀ ff, flagError ff ∈ errs →
           ff ∈ FeatureFlags (Crossplane em) ∧ ff ∉ FeatureFlags observed)
  ∧ (errs = []
     ↔ Version observed = Version (Crossplane em)
       ∧ ∀ ff, ff ∈ FeatureFlags (Crossplane em) → ff ∈ FeatureFlags observed).
Proof.
  intros Hobs Hfs Hread Hdec errs missing.
  assert (Herrs : errs
    = ((if decide (Version observed = Version (Crossplane em)) then []
        else [Errorf "Crossplane version %q does not match exported version %q"
                     [Version observed; Version (Crossplane em)]])
         ++ (flagError <$> missing))%list).
  { subst errs. rewrite (PreflightChecks_read env w w' observed fs b em) by done.
    unfold versionErrors.
    destruct (String.eqb_spec (Version observed) (Version (Crossplane em)));
      by case_decide. }
  split; [exact Herrs|]. rewrite Herrs. clear Herrs errs.
  split; [|split].
  - rewrite length_app, length_fmap. by case_decide.
  - intros ff Hin. apply elem_of_app in Hin as [Hin|Hin].
    + case_decide; [by apply elem_of_nil in Hin|].
      apply list_elem_of_singleton in Hin. discriminate.
    + apply list_elem_of_fmap in Hin as (ff' & Heq & Hin).
      injection Heq as ->.
      by apply list_elem_of_filter in Hin as [? ?].
  - split.
    + intros Hnil. apply app_eq_nil in Hnil as [Hver Hflags].
      split; [by case_decide|].
      intros ff Hin.
      destruct (decide (ff ∈ FeatureFlags observed)) as [|Hnot]; [done|].
      apply fmap_nil_inv in Hflags.
      assert (Hm : ff ∈ missing) by by apply list_elem_of_filter.
      rewrite Hflags in Hm. by apply elem_of_nil in Hm.
    + intros [Hver Hall]. rewrite decide_True by done. simpl.
      assert (Hnone : missing = []).
      { destruct missing as [|ff rest] eqn:Hm; [done|].
        assert (Hin : ff ∈ missing) by (rewrite Hm; left).
        apply list_elem_of_filter in Hin as [Hnot Hin].
        exfalso. auto. }
      by rewrite Hnone.
Qed.

Lemma PreflightChecks_mismatches_witness :
  (PreflightChecks
     (sample.calmEnv sample.crossplaneDeployments
        (sample.manifest "1.13.2" ["--enable-usages"; "--enable-realtime"]))
     sample.freshWorld).1
  = [ Errorf "Crossplane version %q does not match exported version %q"
             ["1.14.5"; "1.13.2"];
      flagError "--enable-realtime" ].
Proof.
  refine (eq_trans (proj1 (PreflightChecks_mismatches
    (sample.calmEnv sample.crossplaneDeployments
       (sample.manifest "1.13.2" ["--enable-usages"; "--enable-realtime"]))
    sample.freshWorld
    {| im_fs := Some sample.archiveFs; log := [] |}
    {| Version := "1.14.5"; Distribution := "crossplane";
       Namespace := "crossplane-system";
       FeatureFlags := ["--enable-usages"; "--enable-environment-configs"] |}
    sample.archiveFs "version: v1alpha1"
    (sample.manifest "1.13.2" ["--enable-usages"; "--enable-realtime"])
    _ _ _ _)) _); vm_compute; reflexivity.
Defined.

End Preflight.

(** ** Readiness barriers *)

Section Readiness.

Import importer.

Lemma maxPolls_eq : maxPolls = 120.
Proof. reflexivity. Qed.

(** C9. When the kind maps to a resource and the first listing of that
    resource returns no instance, the wait succeeds, and it does so on its
    first poll. *)
Theorem waitForConditions_no_instances (env : Env)
    (im : ControlPlaneStateImporter) (gk : schema.GroupKind)
    (conditions : list string) (rm : schema.GroupVersionResource) (w : World) :
  meta.RESTMapping (resourceMapper im) gk [] = Ok rm →
  List env rm 0 = Ok [] →
  waitForConditionsPolls env im gk conditions = (Ok tt, 1)
  ∧ (waitForConditions env im gk conditions w).1 = Ok tt.
Proof.
  intros Hmap Hlist.
  assert (Hpolls : waitForConditionsPolls env im gk conditions = (Ok tt, 1)).
  { unfold waitForConditionsPolls. rewrite Hmap, maxPolls_eq. simpl.
    by rewrite Hlist. }
  split; [exact Hpolls|].
  unfold waitForConditions, emit, modify, call, mbind, M_bind. simpl.
  by rewrite Hpolls.
Qed.

Lemma waitForConditions_no_instances_witness :
  waitForConditionsPolls
    (sample.calmEnv sample.crossplaneDeployments (sample.manifest "1.14.5" []))
    (sample.sampleImporter false) (pkg "Provider") ["Installed"; "Healthy"]
  = (Ok tt, 1).
Proof.
  apply (waitForConditions_no_instances
           (sample.calmEnv sample.crossplaneDeployments
              (sample.manifest "1.14.5" []))
           (sample.sampleImporter false) (pkg "Provider")
           ["Installed"; "Healthy"]
           {| schema.Group := "pkg.crossplane.io"; schema.Version := "v1";
              schema.Resource := "things" |}
           sample.freshWorld); reflexivity.
Defined.

End Readiness.

(** ** Replay order of the import *)

Section Replay.

Import importer replay logic.

Lemma emits_ret {A} (w : World) (a : A) : emits w (mret a) [].
Proof. exists []. simpl. by rewrite app_nil_r. Qed.

Lemma emits_fail {A} (w : World) (e : error) (p : list event) :
  emits w (fail e : M World A) p.
Proof.
  exists []. simpl. rewrite app_nil_r.
  split; [done|]. split; [apply prefix_nil | done].
Qed.

Lemma emits_call {A} (w : World) (r : result A) : emits w (call r) [].
Proof. exists []. simpl. by rewrite app_nil_r. Qed.

Lemma emits_emit (w : World) (ev : event) : emits w (emit ev) [ev].
Proof. by exists [ev]. Qed.

Lemma emits_wrapf {A} (w : World) (m : M World A) (msg : string)
    (args : list string) (p : list event) :
  emits w m p -> emits w (wrapf m msg args) p.
Proof.
  intros (t & Hlog & Hpre & Hok). exists t. unfold wrapf.
  destruct (m w) as [[a|e] w']; simpl in *; done.
Qed.

Lemma emits_bind {A B} (w : World) (m : M World A) (f : A -> M World B)
    (p q : list event) :
  emits w m p ->
  (forall a w', m w = (Ok a, w') -> emits w' (f a) q) ->
  emits w (m ≫= f) (p ++ q).
Proof.
  intros (t & Hlog & Hpre & Hok) Hf. unfold emits, mbind, M_bind.
  destruct (m w) as [[a|e] w'] eqn:Hm; simpl in *.
  - destruct (Hf a w' eq_refl) as (t' & Hlog' & Hpre' & Hok').
    rewrite (Hok eq_refl) in Hlog.
    exists (p ++ t'). rewrite Hlog', Hlog, app_assoc.
    split; [done|]. split; [by apply prefix_app|].
    intros Hres. by rewrite Hok'.
  - exists t. split; [done|]. split; [|done].
    by apply prefix_app_r.
Qed.

Lemma emits_for_range {X S} (xs : list X) (body : S -> X -> M World S)
    (ev : X -> list event) (s : S) (w : World) :
  (forall w s x, emits w (body s x) (ev x)) ->
  emits w (for_range xs body s) (flat_map ev xs).
Proof.
  intros Hbody. revert s w.
  induction xs as [|x xs IH]; intros s w; simpl.
  - apply emits_ret.
  - apply emits_bind; [apply Hbody|]. intros s' w' _. apply IH.
Qed.

Lemma emits_importResources (env : Env) (gr : string) (applyStatus : bool)
    (w : World) :
  emits w (importResources env gr applyStatus)
        [EvImportResources gr applyStatus].
Proof.
  apply (emits_bind w _ _ [_] []); [apply emits_emit|].
  intros _ w' _. apply emits_call.
Qed.

Lemma emits_modifyResources (env : Env) (category : string) (w : World) :
  emits w (modifyResources env category) [EvModifyResources category].
Proof.
  apply (emits_bind w _ _ [_] []); [apply emits_emit|].
  intros _ w' _. apply emits_call.
Qed.

Lemma emits_waitForConditions (env : Env) (im : ControlPlaneStateImporter)
    (gk : schema.GroupKind) (conditions : list string) (w : World) :
  emits w (waitForConditions env im gk conditions)
        [EvWaitForConditions gk conditions].
Proof.
  apply (emits_bind w _ _ [_] []); [apply emits_emit|].
  intros _ w' _. apply emits_call.
Qed.

Lemma emits_importBase (env : Env) (w : World) (counts : gmap string nat)
    (gr : string) :
  emits w (importBase env counts gr) [EvImportResources gr false].
Proof.
  apply (emits_bind w _ _ [_] []).
  - apply emits_wrapf, emits_importResources.
  - intros count w' _. apply emits_ret.
Qed.

Lemma emits_importRemaining (env : Env) (w : World) (counts : gmap string nat)
    (info : FileInfo) :
  emits w (importRemaining env counts info) (remainderOf info).
Proof.
  unfold importRemaining, remainderOf.
  destruct (String.eqb (fi_Name info) "export.yaml"); [apply emits_ret|].
  destruct (IsDir info); simpl; [|apply emits_fail].
  destruct (isBaseResource (fi_Name info)); [apply emits_ret|].
  apply (emits_bind w _ _ [_] []).
  - apply emits_wrapf, emits_importResources.
  - intros count w' _. apply emits_ret.
Qed.

Lemma emits_waitAll (env : Env) (im : ControlPlaneStateImporter)
    (conditions : list string) (w : World) (u : unit) (k : schema.GroupKind) :
  emits w (waitAll env im conditions u k) [EvWaitForConditions k conditions].
Proof. apply emits_wrapf, emits_waitForConditions. Qed.

Lemma ensureUnarchived_archiveOf (env : Env) (w w' : World) (fs : MemFs) :
  ensureUnarchived env w = (Ok fs, w') -> fs = archiveOf env w.
Proof.
  unfold ensureUnarchived, archiveOf.
  destruct (im_fs w) as [fs0|]; [by intros [= <- _]|].
  destruct (unarchive env).2; [by intros [= <- _] | done].
Qed.

Lemma emits_ensureUnarchived (env : Env) (w : World) :
  emits w (ensureUnarchived env) [].
Proof.
  exists []. unfold ensureUnarchived. rewrite app_nil_r.
  destruct (im_fs w); [done|]. by destruct (unarchive env).2.
Qed.

Lemma wrapf_ok {A} (m : M World A) (msg : string) (args : list string)
    (w w' : World) (a : A) :
  wrapf m msg args w = (Ok a, w') -> m w = (Ok a, w').
Proof. unfold wrapf. destruct (m w) as [[a'|e] w'']; by intros [= <- <-]. Qed.

Lemma Import_emits (env : Env) (im : ControlPlaneStateImporter) (w : World) :
  emits w (Import env im)
        (replayOrder (rootEntries env w) (UnpauseAfterImport (options im))).
Proof.
  unfold Import.
  apply (emits_bind w _ _ [] _);
    [apply emits_wrapf, emits_ensureUnarchived|].
  intros fs w1 Hfs%wrapf_ok%ensureUnarchived_archiveOf.
  apply (emits_bind w1 _ _ baseTier _);
    [apply (emits_for_range baseResources _
              (fun gr => [EvImportResources gr false]));
     intros; apply emits_importBase|].
  intros baseCounts w2 _.
  apply (emits_bind w2 _ _ barrierA _);
    [apply emits_wrapf, emits_waitForConditions|].
  intros _ w3 _.
  apply (emits_bind w3 _ _ barrierB _);
    [apply (emits_for_range
              [pkg "Provider"; pkg "Function"; pkg "Configuration"] _
              (fun k => [EvWaitForConditions k ["Installed"; "Healthy"]]));
     intros; apply emits_waitAll|].
  intros _ w4 _.
  apply (emits_bind w4 _ _ barrierC _);
    [apply (emits_for_range
              [pkg "ProviderRevision"; pkg "FunctionRevision";
               pkg "ConfigurationRevision"] _
              (fun k => [EvWaitForConditions k ["Healthy"]]));
     intros; apply emits_waitAll|].
  intros _ w5 _.
  apply (emits_bind w5 _ _ [EvReset] _); [apply emits_emit|].
  intros _ w6 _.
  unfold rootEntries. rewrite <- Hfs.
  apply (emits_bind w6 _ _ [] _); [apply emits_wrapf, emits_call|].
  intros grs w7 Hgrs%wrapf_ok. injection Hgrs as -> _.
  apply (emits_bind w7 _ _ (remainderTier grs) _);
    [apply emits_for_range; intros; apply emits_importRemaining|].
  intros remainingCounts w8 _.
  apply (emits_bind w8 _ _ [EvModifyResources "composite"] _);
    [apply emits_wrapf, emits_modifyResources|].
  intros _ w9 _.
  apply (emits_bind w9 _ _ [EvModifyResources "claim"] _);
    [apply emits_wrapf, emits_modifyResources|].
  intros _ w10 _.
  destruct (UnpauseAfterImport (options im)).
  - apply (emits_bind w10 _ _ [_] []);
      [apply emits_wrapf, emits_modifyResources|].
    intros _ w11 _. apply emits_ret.
  - apply emits_ret.
Qed.





End Replay.

(** ** Export: output archive and temporary directory *)

Section ExportCleanup.

Import exporter selector export logic.

Lemma hoare_consequence {W A} (P P' : W -> Prop) (m : M W A)
    (Q Q' : result A -> W -> Prop) :
  hoare P' m Q' ->
  (forall w, P w -> P' w) ->
  (forall r w, Q' r w -> Q r w) ->
  hoare P m Q.
Proof. intros Hm HP HQ w Hw. apply HQ, Hm, HP, Hw. Qed.

Lemma hoare_ret {W A} (P : W -> Prop) (a : A) (Q : result A -> W -> Prop) :
  (forall w, P w -> Q (Ok a) w) -> hoare P (mret a) Q.
Proof. intros HQ w Hw. by apply HQ. Qed.

Lemma hoare_call {W A} (P : W -> Prop) (r : result A)
    (Q : result A -> W -> Prop) :
  (forall w, P w -> Q r w) -> hoare P (call r) Q.
Proof. intros HQ w Hw. by apply HQ. Qed.

Lemma hoare_modify {W} (P : W -> Prop) (f : W -> W)
    (Q : result unit -> W -> Prop) :
  (forall w, P w -> Q (Ok tt) (f w)) -> hoare P (modify f) Q.
Proof. intros HQ w Hw. by apply HQ. Qed.

Lemma hoare_bind {W A B} (P : W -> Prop) (R : A -> W -> Prop) (m : M W A)
    (f : A -> M W B) (Q : result B -> W -> Prop) :
  hoare P m (fun r w => match r with
                        | Ok a => R a w
                        | Error e => Q (Error e) w
                        end) ->
  (forall a, hoare (R a) (f a) Q) ->
  hoare P (m ≫= f) Q.
Proof.
  intros Hm Hf w Hw. specialize (Hm w Hw). unfold mbind, M_bind.
  destruct (m w) as [[a|e] w']; simpl in *; [by apply Hf | done].
Qed.

Lemma hoare_wrapf {W A} (P : W -> Prop) (m : M W A) (msg : string)
    (args : list string) (Q : result A -> W -> Prop) :
  hoare P m (fun r w => match r with
                        | Ok a => Q (Ok a) w
                        | Error e => Q (Error (Wrapf e msg args)) w
                        end) ->
  hoare P (wrapf m msg args) Q.
Proof.
  intros Hm w Hw. specialize (Hm w Hw). unfold wrapf.
  by destruct (m w) as [[a|e] w'].
Qed.

Lemma hoare_for_range {W X S} (I : W -> Prop) (xs : list X)
    (body : S -> X -> M W S) (s : S) (Q : result S -> W -> Prop) :
  (forall s x, hoare I (body s x)
                 (fun r w => match r with
                             | Ok _ => I w
                             | Error e => Q (Error e) w
                             end)) ->
  (forall s w, I w -> Q (Ok s) w) ->
  hoare I (for_range xs body s) Q.
Proof.
  intros Hbody Hend. revert s.
  induction xs as [|x xs IH]; intros s; simpl.
  - apply hoare_ret, Hend.
  - apply (hoare_bind I (fun _ => I)); [apply Hbody | apply IH].
Qed.

Lemma append_assoc (s t u : string) : (s +:+ t) +:+ u = s +:+ t +:+ u.
Proof.
  induction s as [|c s IH]; [done|]. rewrite !append_cons. by rewrite IH.
Qed.

Lemma below_self (dir : string) : below dir dir = true.
Proof. unfold below. by rewrite String.eqb_refl. Qed.

Lemma below_child (dir p : string) : below dir (dir +:+ "/" +:+ p) = true.
Proof.
  unfold below. apply orb_true_iff. right.
  apply HasPrefix_spec. exists p. by rewrite append_assoc.
Qed.

Lemma elem_of_RemoveAll (dir p : string) (fs : FS) :
  p ∈ RemoveAll dir fs ↔ below dir p = false ∧ p ∈ fs.
Proof. unfold RemoveAll. by rewrite elem_of_filter. Qed.

Lemma elem_of_write_below (dir : string) (rel : list string) (fs : FS)
    (p : string) :
  below dir p = false -> p ∈ write_below dir rel fs ↔ p ∈ fs.
Proof.
  intros Hp. unfold write_below. revert fs.
  induction rel as [|q rel IH]; intros fs; simpl; [done|].
  rewrite IH, elem_of_union, elem_of_singleton.
  split; [|by right]. intros [->|Hin]; [|done].
  by rewrite below_child in Hp.
Qed.

Section Steps.

Variables (env : Env) (e : ControlPlaneStateExporter).
Variables (fs0 : FS) (tmp : string).
Hypothesis Houtside : below tmp (OutputArchive (options e)) = false.

#[local] Abbreviation untouched :=
  (logic.untouched (OutputArchive (options e)) fs0).
#[local] Abbreviation early :=
  (logic.early (OutputArchive (options e)) fs0).
#[local] Abbreviation settled :=
  (logic.settled (OutputArchive (options e)) fs0 (is_ok (Create env))).

Lemma early_wrapf {A} (m : M FS A) (msg : string) (args : list string) :
  msg ≠ "cannot archive exported state" ->
  hoare untouched m (fun _ w => untouched w) ->
  hoare untouched (wrapf m msg args) early.
Proof.
  intros Hmsg Hm. apply hoare_wrapf.
  apply (hoare_consequence _ untouched _ _ (fun _ w => untouched w));
    [exact Hm | done |].
  intros [a|err] w Hw; (split; [exact Hw|]); [done|].
  intros err' [= <-] (cause & [= _ Heq]). done.
Qed.

Lemma early_bind {A B} (m : M FS A) (f : A -> M FS B)
    (Q : result B -> FS -> Prop) :
  hoare untouched m early ->
  (forall a, hoare untouched (f a) Q) ->
  (forall err w, early (@Error A err) w -> Q (Error err) w) ->
  hoare untouched (m ≫= f) Q.
Proof.
  intros Hm Hf HQ. apply (hoare_bind untouched (fun _ => untouched));
    [|exact Hf].
  apply (hoare_consequence _ untouched _ _ early); [exact Hm | done |].
  intros [a|err] w Hw; [apply Hw | by apply HQ].
Qed.

Lemma early_error {A B} (err : error) (w : FS) :
  early (@Error A err) w -> early (@Error B err) w.
Proof.
  intros [Hw Herr]. split; [exact Hw|]. intros err' [= <-]. by apply Herr.
Qed.

Lemma early_settled {A} (err : error) (w : FS) :
  early (@Error A err) w -> settled (Error err) w.
Proof.
  intros [Hw Herr]. split; [done|]. split.
  - intros err' _ _. exact Hw.
  - intros err' [= <-] Harch. by destruct (Herr err eq_refl).
Qed.

Lemma untouched_call {A} (r : result A) :
  hoare untouched (call r) (fun _ w => untouched w).
Proof. by apply hoare_call. Qed.

Lemma untouched_writing {A} (out : list string * result A) :
  hoare untouched (writing tmp out) (fun _ w => untouched w).
Proof.
  unfold writing.
  apply (hoare_bind untouched (fun _ => untouched)).
  - apply hoare_modify. intros w Hw. unfold untouched in *.
    by rewrite elem_of_write_below.
  - intros _. apply untouched_call.
Qed.

Lemma early_exportCustom (counts : gmap string nat)
    (crd : apiextensionsv1.CustomResourceDefinition) :
  hoare untouched (exportCustom env e tmp counts crd) early.
Proof.
  unfold exportCustom.
  apply early_bind; [by apply early_wrapf, untouched_call | | apply early_error].
  intros gvr.
  apply early_bind; [by apply early_wrapf, untouched_writing | | apply early_error].
  intros count. apply hoare_ret. by split.
Qed.

Lemma early_exportNative (counts : gmap string nat) (r : string) :
  hoare untouched (exportNative env e tmp counts r) early.
Proof.
  unfold exportNative.
  apply early_bind; [by apply early_wrapf, untouched_call | | apply early_error].
  intros gvr.
  apply early_bind; [by apply early_wrapf, untouched_writing | | apply early_error].
  intros count. apply hoare_ret. by split.
Qed.

Lemma early_loop {X} (xs : list X)
    (body : gmap string nat -> X -> M FS (gmap string nat))
    (s : gmap string nat) :
  (forall s x, hoare untouched (body s x) early) ->
  hoare untouched (for_range xs body s) early.
Proof.
  intros Hbody. apply hoare_for_range; [|by split].
  intros s' x.
  apply (hoare_consequence _ untouched _ _ early); [apply Hbody | done |].
  intros [a|err] w Hw; [apply Hw | exact Hw].
Qed.

Lemma settled_archive :
  hoare untouched
        (wrapf (archive env e tmp) "cannot archive exported state" [])
        settled.
Proof.
  intros w Hw.
  unfold wrapf, archive, call, modify, mbind, M_bind, settled. simpl.
  destruct (Create env) as [[]|cerr]; simpl.
  - assert (Hin : OutputArchive (options e)
                    ∈ {[ OutputArchive (options e) ]} ∪ w)
      by (apply elem_of_union; left; by apply elem_of_singleton).
    destruct (Chmod env) as [[]|merr]; simpl;
      [destruct (Walk env) as [[]|werr]; simpl|].
    + split; [done|]. split; done.
    + split; [done|]. split; [|done].
      intros err [= <-] [Hn|Hc]; [|done]. destruct Hn. by eexists.
    + split; [done|]. split; [|done].
      intros err [= <-] [Hn|Hc]; [|done]. destruct Hn. by eexists.
  - split; [done|]. split; [done|]. intros err _ _ Hok. done.
Qed.

Lemma settled_exportSteps : hoare untouched (exportSteps env e tmp) settled.
Proof.
  unfold exportSteps.
  apply early_bind; [| |apply early_settled].
  { destruct (PauseBeforeExport (options e)).
    - apply early_bind; [by apply early_wrapf, untouched_call | | apply early_error].
      intros _. apply hoare_ret. by split.
    - apply hoare_ret. by split. }
  intros _.
  apply early_bind;
    [by apply early_wrapf, untouched_call | | apply early_settled].
  intros crdList. simpl.
  apply early_bind;
    [apply early_loop, early_exportCustom | | apply early_settled].
  intros crCounts.
  apply early_bind;
    [apply early_loop, early_exportNative | | apply early_settled].
  intros nativeCounts.
  apply early_bind;
    [by apply early_wrapf, untouched_writing | | apply early_settled].
  intros _. apply settled_archive.
Qed.

Lemma exportSteps_output (w : FS) :
  (OutputArchive (options e) ∈ w ↔ OutputArchive (options e) ∈ fs0) ->
  let r := (exportSteps env e tmp w).1 in
  let w' := RemoveAll tmp (exportSteps env e tmp w).2 in
  (r = Ok tt → OutputArchive (options e) ∈ w')
  ∧ (∀ err, r = Error err →
       ¬ archiveError err ∨ is_error (Create env) = true →
       (OutputArchive (options e) ∈ w' ↔ OutputArchive (options e) ∈ fs0))
  ∧ (∀ err, r = Error err →
       archiveError err → is_ok (Create env) = true →
       OutputArchive (options e) ∈ w').
Proof.
  intros Hw r w'. subst r w'.
  destruct (settled_exportSteps w Hw) as (Hok & Hearly & Hlate).
  split; [|split].
  - intros Hr. apply elem_of_RemoveAll. auto.
  - intros err Hr Hcase.
    assert (Hun : logic.untouched (OutputArchive (options e)) fs0
                    (exportSteps env e tmp w).2).
    { apply (Hearly err Hr). destruct Hcase as [Hn|Hc]; [by left | right].
      unfold is_error in Hc. by apply negb_true_iff in Hc. }
    rewrite elem_of_RemoveAll. unfold logic.untouched in Hun.
    split; [intros [_ Hin]; by apply Hun | intros Hin; split; [done|]].
    by apply Hun.
  - intros err Hr Harch Hc. apply elem_of_RemoveAll. split; [done|].
    by apply (Hlate err).
Qed.

End Steps.

Lemma Export_unfold (env : Env) (e : ControlPlaneStateExporter) (fs : FS)
    (tmp : string) :
  TempDir env = Ok tmp ->
  Export env e fs
  = ((exportSteps env e tmp ({[ tmp ]} ∪ fs)).1,
     RemoveAll tmp (exportSteps env e tmp ({[ tmp ]} ∪ fs)).2).
Proof.
  intros Htmp.
  unfold Export, wrapf, call, modify, defer, mbind, M_bind.
  rewrite Htmp. simpl.
  by destruct (exportSteps env e tmp ({[ tmp ]} ∪ fs)).
Qed.

(** C4, as the code has it. When the temporary directory cannot be
    created the run stops with the file system as it was. Otherwise
    nothing of the temporary directory is left when the run ends, whether
    it succeeds or fails; and for an output path outside the temporary
    directory: a run that succeeds leaves the output file, and a run that
    fails before [archive], or in [archive] because the output file cannot
    be created, leaves the output path as it was before the run. *)
Theorem Export_output_and_cleanup (env : Env) (e : ControlPlaneStateExporter)
    (fs : FS) :
  (∀ err, TempDir env = Error err →
     Export env e fs
     = (Error (Wrapf err "cannot create temporary directory" []), fs))
  ∧ (∀ tmp, TempDir env = Ok tmp →
       (∀ p, below tmp p = true → ¬ p ∈ (Export env e fs).2)
       ∧ (below tmp (OutputArchive (options e)) = false →
          ((Export env e fs).1 = Ok tt →
           OutputArchive (options e) ∈ (Export env e fs).2)
          ∧ (∀ err, (Export env e fs).1 = Error err →
               ¬ archiveError err ∨ is_error (Create env) = true →
               (OutputArchive (options e) ∈ (Export env e fs).2
                ↔ OutputArchive (options e) ∈ fs)))).
Proof.
  split.
  - intros err Htmp.
    unfold Export, wrapf, call, mbind, M_bind. by rewrite Htmp.
  - intros tmp Htmp. rewrite (Export_unfold env e fs tmp Htmp). simpl.
    split.
    + intros p Hp Hin%elem_of_RemoveAll. destruct Hin as [Hnot _]. congruence.
    + intros Houtside.
      assert (Hstart : OutputArchive (options e) ∈ {[ tmp ]} ∪ fs
                       ↔ OutputArchive (options e) ∈ fs).
      { rewrite elem_of_union, elem_of_singleton.
        split; [|by right]. intros [Heq|Hin]; [|done].
        rewrite Heq, below_self in Houtside. done. }
      destruct (exportSteps_output env e fs tmp Houtside _ Hstart)
        as (Hok & Hearly & _).
      split; [exact Hok | exact Hearly].
Qed.

Lemma Export_output_and_cleanup_witness :
  (¬ "/tmp/up123/export.yaml"
       ∈ (Export sample.brokenEnv sample.defaultExporter sample.homeFs).2)
  ∧ ("xp-state.tar.gz" ∈ (Export sample.brokenEnv sample.defaultExporter
                                 sample.homeFs).2
     ↔ "xp-state.tar.gz" ∈ sample.homeFs).
Proof.
  destruct (proj2 (Export_output_and_cleanup
                     sample.brokenEnv sample.defaultExporter sample.homeFs)
                  "/tmp/up123" eq_refl) as [Hgone Hout].
  split.
  - apply Hgone. vm_compute. reflexivity.
  - apply (proj2 (Hout ltac:(vm_compute; reflexivity))
             (Wrapf (Errorf "cannot list CRDs" []) "cannot fetch CRDs" [])).
    + vm_compute. reflexivity.
    + left. intros (cause & Heq). discriminate Heq.
Defined.

(** C4 as stated fails: a run whose walk over the temporary directory
    fails returns an error and leaves an output file that was not there
    before. *)
Lemma Export_leaves_partial_archive :
  is_error (Export sample.walkFailsEnv sample.defaultExporter sample.homeFs).1
  = true
  ∧ (OutputArchive (options sample.defaultExporter) ∉ sample.homeFs)
  ∧ OutputArchive (options sample.defaultExporter)
      ∈ (Export sample.walkFailsEnv sample.defaultExporter sample.homeFs).2.
Proof.
  split; [vm_compute; reflexivity|]. split.
  - intros Hin%elem_of_singleton. discriminate Hin.
  - apply elem_of_elements. vm_compute. right. left.
Qed.

End ExportCleanup.

(** ** Runs on the sample configurations *)

Section SampleRuns.

Import exporter selector importer.

Example namespaceInScope_tenants :
  map (namespaceInScope sample.tenantFetcher)
      ["tenant-a"; "tenant-b"; "tenant-c"; "kube-system"]
  = [true; false; false; false].
Proof. vm_compute. reflexivity. Qed.

Example shouldExport_widgets :
  shouldExport sample.defaultExporter sample.widgets = false
  ∧ shouldExport
      {| selector.resourceMapper := sample.lenientMapper;
         selector.options :=
           sample.mkOptions [] [] ["widgets.example.org"] [] |}
      sample.widgets = true.
Proof. vm_compute. split; reflexivity. Qed.

Example customResourceGVR_widgets :
  customResourceGVR sample.defaultExporter sample.widgets
  = Ok {| schema.Group := "example.org"; schema.Version := "v1";
          schema.Resource := "things" |}.
Proof. reflexivity. Qed.

Example CollectInfo_crossplane :
  crossplane.CollectInfo (Ok sample.crossplaneDeployments)
  = Ok {| v1alpha1.Version := "1.14.5";
          v1alpha1.Distribution := "crossplane";
          v1alpha1.Namespace := "crossplane-system";
          v1alpha1.FeatureFlags :=
            ["--enable-usages"; "--enable-environment-configs"] |}.
Proof. vm_compute. reflexivity. Qed.

Example waitForConditions_slow_provider :
  waitForConditionsPolls (sample.slowEnv 3) (sample.sampleImporter false)
                         (pkg "Provider") ["Installed"; "Healthy"]
  = (Ok tt, 4).
Proof. vm_compute. reflexivity. Qed.

Example waitForConditions_deadline :
  is_error (waitForConditionsPolls (sample.slowEnv 1000)
              (sample.sampleImporter false)
              (pkg "Provider") ["Installed"; "Healthy"]).1 = true
  ∧ (waitForConditionsPolls (sample.slowEnv 1000)
       (sample.sampleImporter false)
       (pkg "Provider") ["Installed"; "Healthy"]).2 = 120.
Proof. vm_compute. split; reflexivity. Qed.

Example Import_stops_at_barrier :
  log (Import (sample.slowEnv 1000) (sample.sampleImporter true)
              sample.freshWorld).2
  = replay.baseTier ++ replay.barrierA
    ++ [EvWaitForConditions (pkg "Provider") ["Installed"; "Healthy"]].
Proof. vm_compute. reflexivity. Qed.

Example Export_succeeds :
  (export.Export (sample.exportEnv (Ok tt)) sample.defaultExporter
                 sample.homeFs).1
  = Ok tt
  ∧ elements
      (export.Export (sample.exportEnv (Ok tt)) sample.defaultExporter
                     sample.homeFs).2
    = ["/home/me/notes.txt"; "xp-state.tar.gz"].
Proof. vm_compute. split; reflexivity. Qed.

End SampleRuns.

(** * Further properties of the code *)

(** ** Pagination *)

Section Pagination.

Import exporter unstructured paging.

Lemma FetchResources_step (e : UnstructuredFetcher)
    (List : string -> result page) (fuel : nat) (tok : string)
    (acc : list Unstructured) (p : page) :
  List tok = Ok p ->
  FetchResources e List (S fuel) tok acc
  = if String.eqb (Continue p) ""
    then Some (Ok (acc ++ filter (fun r => shouldSkip e r = false) (Items p)))
    else FetchResources e List fuel (Continue p)
           (acc ++ filter (fun r => shouldSkip e r = false) (Items p)).
Proof. intros Hp. simpl. by rewrite Hp. Qed.

(** X1. When the server answers with a finite chain of pages, a fetch with
    enough fuel returns the objects that pass the scope filter, page after
    page and in the order of each page. *)
Theorem FetchResources_all_pages (e : UnstructuredFetcher)
    (List : string -> result page) (pages : list page) (fuel : nat)
    (tok : string) (acc : list Unstructured) :
  chain Continue List tok pages →
  (length pages ≤ fuel)%nat →
  FetchResources e List fuel tok acc
  = Some (Ok (acc ++ flat_map
                       (fun p => filter (fun r => shouldSkip e r = false)
                                        (Items p))
                       pages)).
Proof.
  revert fuel tok acc.
  induction pages as [|p rest IH]; intros fuel tok acc Hchain Hfuel;
    [done|].
  destruct fuel as [|fuel]; [simpl in Hfuel; lia|].
  destruct Hchain as [Hp Hrest].
  rewrite (FetchResources_step e List fuel tok acc p Hp).
  destruct rest as [|q rest].
  - rewrite Hrest. simpl. by rewrite app_nil_r.
  - destruct Hrest as [Hne Hrest].
    apply String.eqb_neq in Hne. rewrite Hne.
    rewrite (IH fuel (Continue p)); [|exact Hrest|simpl in *; lia].
    change (flat_map _ (p :: q :: rest))
      with (filter (fun r => shouldSkip e r = false) (Items p)
              ++ flat_map (fun p => filter (fun r => shouldSkip e r = false)
                                           (Items p)) (q :: rest)).
    by rewrite app_assoc.
Qed.

Lemma FetchResources_all_pages_witness :
  FetchResources sample.tenantFetcher scenario.twoPages 5 "" []
  = Some (Ok [scenario.object "ConfigMap" "tenant-a" "settings";
              scenario.object "ConfigMap" "tenant-a" "more"]).
Proof.
  refine (eq_trans (FetchResources_all_pages sample.tenantFetcher
    scenario.twoPages
    [ {| Items := [scenario.object "ConfigMap" "tenant-a" "settings";
                   scenario.object "ConfigMap" "tenant-b" "settings"];
         Continue := "t1" |};
      {| Items := [scenario.object "ConfigMap" "tenant-a" "kube-root-ca.crt";
                   scenario.object "ConfigMap" "tenant-a" "more"];
         Continue := "" |} ]
    5 "" [] _ _) _).
  - simpl. repeat split; discriminate.
  - simpl. lia.
  - vm_compute. reflexivity.
Defined.

(** X2. When a list call fails after any number of pages, the fetch
    returns the wrapped error of that call and none of the objects read so
    far. *)
Theorem FetchResources_failed_page (e : UnstructuredFetcher)
    (List : string -> result page) (pages : list page) (err : error)
    (fuel : nat) (tok : string) (acc : list Unstructured) :
  broken Continue List tok pages err →
  (length pages < fuel)%nat →
  FetchResources e List fuel tok acc
  = Some (Error (Wrapf err "cannot list %q resources" [])).
Proof.
  revert fuel tok acc.
  induction pages as [|p rest IH]; intros fuel tok acc Hbroken Hfuel;
    (destruct fuel as [|fuel]; [simpl in Hfuel; lia|]).
  - simpl in *. by rewrite Hbroken.
  - destruct Hbroken as (Hp & Hne & Hrest).
    rewrite (FetchResources_step e List fuel tok acc p Hp).
    apply String.eqb_neq in Hne. rewrite Hne.
    apply IH; [exact Hrest | simpl in Hfuel; lia].
Qed.

Lemma FetchResources_failed_page_witness :
  FetchResources sample.tenantFetcher scenario.secondPageFails 3 "" []
  = Some (Error (Wrapf (Errorf "the server was unable to return a response" [])
                       "cannot list %q resources" [])).
Proof.
  apply (FetchResources_failed_page sample.tenantFetcher
           scenario.secondPageFails
           [ {| Items := [scenario.object "ConfigMap" "tenant-a" "settings"];
                Continue := "t1" |} ]).
  - simpl. repeat split. discriminate.
  - simpl. lia.
Defined.

Lemma fetchAllCRDs_step (List : string -> result crds.page) (fuel : nat)
    (tok : string) (acc : list apiextensionsv1.CustomResourceDefinition)
    (p : crds.page) :
  List tok = Ok p ->
  crds.fetchAllCRDs List (S fuel) tok acc
  = if String.eqb (crds.Continue p) ""
    then Some (Ok (acc ++ crds.Items p))
    else crds.fetchAllCRDs List fuel (crds.Continue p) (acc ++ crds.Items p).
Proof. intros Hp. simpl. by rewrite Hp. Qed.

(** X3. When the server answers with a finite chain of pages, the listing
    of the custom resource definitions, given enough fuel, returns the
    definitions of all pages in order, none dropped and none added. *)
Theorem fetchAllCRDs_all_pages (List : string -> result crds.page)
    (pages : list crds.page) (fuel : nat) (tok : string)
    (acc : list apiextensionsv1.CustomResourceDefinition) :
  chain crds.Continue List tok pages →
  (length pages ≤ fuel)%nat →
  crds.fetchAllCRDs List fuel tok acc
  = Some (Ok (acc ++ flat_map crds.Items pages)).
Proof.
  revert fuel tok acc.
  induction pages as [|p rest IH]; intros fuel tok acc Hchain Hfuel;
    [done|].
  destruct fuel as [|fuel]; [simpl in Hfuel; lia|].
  destruct Hchain as [Hp Hrest].
  rewrite (fetchAllCRDs_step List fuel tok acc p Hp).
  destruct rest as [|q rest].
  - rewrite Hrest. simpl. by rewrite app_nil_r.
  - destruct Hrest as [Hne Hrest].
    apply String.eqb_neq in Hne. rewrite Hne.
    rewrite (IH fuel (crds.Continue p)); [|exact Hrest|simpl in *; lia].
    change (flat_map crds.Items (p :: q :: rest))
      with (crds.Items p ++ flat_map crds.Items (q :: rest)).
    by rewrite app_assoc.
Qed.

Lemma fetchAllCRDs_all_pages_witness :
  crds.fetchAllCRDs scenario.crdPages 2 "" []
  = Some (Ok [sample.widgets; sample.widgetsNoStorage]).
Proof.
  apply (fetchAllCRDs_all_pages scenario.crdPages
           [ {| crds.Items := [sample.widgets]; crds.Continue := "t1" |};
             {| crds.Items := [sample.widgetsNoStorage];
                crds.Continue := "" |} ]
           2 "" []).
  - simpl. repeat split; discriminate.
  - simpl. lia.
Defined.

(** X4. When a list call fails after any number of pages, the listing of
    the custom resource definitions returns the error of that call wrapped
    as [cannot list CRDs], and no definition. *)
Theorem fetchAllCRDs_failed_page (List : string -> result crds.page)
    (pages : list crds.page) (err : error) (fuel : nat) (tok : string)
    (acc : list apiextensionsv1.CustomResourceDefinition) :
  broken crds.Continue List tok pages err →
  (length pages < fuel)%nat →
  crds.fetchAllCRDs List fuel tok acc
  = Some (Error (Wrap err "cannot list CRDs")).
Proof.
  revert fuel tok acc.
  induction pages as [|p rest IH]; intros fuel tok acc Hbroken Hfuel;
    (destruct fuel as [|fuel]; [simpl in Hfuel; lia|]).
  - simpl in *. by rewrite Hbroken.
  - destruct Hbroken as (Hp & Hne & Hrest).
    rewrite (fetchAllCRDs_step List fuel tok acc p Hp).
    apply String.eqb_neq in Hne. rewrite Hne.
    apply IH; [exact Hrest | simpl in Hfuel; lia].
Qed.

Lemma fetchAllCRDs_failed_page_witness :
  crds.fetchAllCRDs scenario.crdSecondPageFails 2 "" []
  = Some (Error (Wrap (Errorf "the server was unable to return a response" [])
                      "cannot list CRDs")).
Proof.
  apply (fetchAllCRDs_failed_page scenario.crdSecondPageFails
           [ {| crds.Items := [sample.widgets]; crds.Continue := "t1" |} ]).
  - simpl. repeat split. discriminate.
  - simpl. lia.
Defined.

End Pagination.

(** ** What the fetcher keeps and what it drops *)

Section FetcherScope.

Import exporter unstructured.

Lemma namespaceInScope_lists (opts : Options) (n : string) :
  namespaceInScope (NewUnstructuredFetcher opts) n = true
  ↔ (IncludeNamespaces opts = [] ∨ n ∈ IncludeNamespaces opts)
    ∧ n ∉ ExcludeNamespaces opts.
Proof.
  rewrite namespaceInScope_sets. simpl. rewrite !elem_of_set_of_slice.
  pose proof (set_of_slice_nonempty (IncludeNamespaces opts)) as Hne.
  rewrite Nat.ltb_lt in Hne.
  destruct (IncludeNamespaces opts) as [|a l].
  - split; [intros [_ Hx]; split; [by left | done]|].
    intros [_ Hx]. split; [left|done].
    destruct (decide (0 < size (set_of_slice []))) as [Hlt|Hge]; [|lia].
    by apply Hne in Hlt.
  - assert (0 < size (set_of_slice (a :: l))) by by apply Hne.
    split; (intros [[Hz|Hin] Hx]; split; [|done|..]; try done);
      [lia | by right | by right].
Qed.

Lemma shouldSkip_false_scope (e : UnstructuredFetcher) (r : Unstructured) :
  shouldSkip e r = false ->
  (GetKind r = "Namespace" -> namespaceInScope e (GetName r) = true)
  /\ (GetNamespace r <> "" -> namespaceInScope e (GetNamespace r) = true).
Proof.
  unfold shouldSkip. intros Hskip.
  destruct (String.eqb (GetKind r) "Namespace"
            && negb (namespaceInScope e (GetName r))
            || negb (String.eqb (GetNamespace r) "")
               && negb (namespaceInScope e (GetNamespace r))) eqn:Hfirst;
    [done|].
  apply orb_false_iff in Hfirst as [Hname Hns].
  split.
  - intros Hkind. rewrite Hkind in Hname. simpl in Hname.
    by apply negb_false_iff in Hname.
  - intros Hne. apply String.eqb_neq in Hne. rewrite Hne in Hns.
    simpl in Hns. by apply negb_false_iff in Hns.
Qed.

(** X5. Whatever the server lists, every object that a fetch returns is in
    scope of the namespace options: its namespace, when it has one, and
    its name, when it is a Namespace, is not in the exclude list and is in
    the include list unless that list is empty. *)
Theorem FetchResources_in_scope (opts : Options)
    (List : string -> result page) (fuel : nat) (out : list Unstructured)
    (r : Unstructured) :
  FetchResources (NewUnstructuredFetcher opts) List fuel "" [] = Some (Ok out) →
  r ∈ out →
  (GetNamespace r ≠ "" →
   (IncludeNamespaces opts = [] ∨ GetNamespace r ∈ IncludeNamespaces opts)
   ∧ GetNamespace r ∉ ExcludeNamespaces opts)
  ∧ (GetKind r = "Namespace" →
     (IncludeNamespaces opts = [] ∨ GetName r ∈ IncludeNamespaces opts)
     ∧ GetName r ∉ ExcludeNamespaces opts).
Proof.
  intros Hrun Hin.
  apply FetchResources_kept in Hrun; [|constructor].
  rewrite Forall_forall in Hrun. apply Hrun in Hin.
  apply shouldSkip_false_scope in Hin as [Hname Hns].
  split; intros H; apply namespaceInScope_lists; auto.
Qed.

Lemma FetchResources_in_scope_witness :
  (["tenant-a"; "tenant-b"] = []
   ∨ GetNamespace (scenario.object "ConfigMap" "tenant-a" "more")
       ∈ ["tenant-a"; "tenant-b"])
  ∧ GetNamespace (scenario.object "ConfigMap" "tenant-a" "more")
      ∉ ["tenant-b"; "kube-system"].
Proof.
  refine (proj1 (FetchResources_in_scope
                   (sample.mkOptions ["tenant-a"; "tenant-b"]
                                     ["tenant-b"; "kube-system"] [] [])
                   scenario.twoPages 5
                   [scenario.object "ConfigMap" "tenant-a" "settings";
                    scenario.object "ConfigMap" "tenant-a" "more"]
                   (scenario.object "ConfigMap" "tenant-a" "more") _ _) _).
  - vm_compute. reflexivity.
  - right. left.
  - vm_compute. discriminate.
Defined.

(** X6. The cluster's root certificate bundle, an object that Helm
    manages, an object that a package owns and a lock of the package
    manager are skipped whatever the namespace options are, and no fetch
    returns them. *)
Theorem shouldSkip_system_artifacts (e : UnstructuredFetcher)
    (r : Unstructured) :
  (GetKind r = "ConfigMap" ∧ GetName r = "kube-root-ca.crt")
  ∨ (∃ labels, GetLabels r = Some labels
               ∧ labels !! "app.kubernetes.io/managed-by" = Some "Helm")
  ∨ (∃ refs ref rest, GetOwnerReferences r = Some refs ∧ ref ∈ refs
                      ∧ or_APIVersion ref = "pkg.crossplane.io" +:+ rest)
  ∨ (GetKind r = "Lock"
     ∧ ∃ rest, GetAPIVersion r = "pkg.crossplane.io" +:+ rest) →
  shouldSkip e r = true
  ∧ ∀ List fuel out,
      FetchResources e List fuel "" [] = Some (Ok out) → r ∉ out.
Proof.
  intros Hcase.
  assert (Hskip : shouldSkip e r = true).
  { unfold shouldSkip.
    destruct (_ || _); [done|].
    destruct Hcase as [[Hk Hn]|[(labels & Hl & Hhelm)|[(refs & ref & rest & Hr & Hin & Hapi)|[Hk (rest & Hapi)]]]].
    - by rewrite Hk, Hn.
    - destruct (_ && _); [done|].
      rewrite Hl. simpl. rewrite Hhelm. done.
    - repeat (destruct (_ && _); [done|]).
      rewrite Hr.
      assert (Hown : ownedByPackageManager refs = true).
      { apply existsb_exists. exists ref. split; [by apply list_elem_of_In|].
        apply HasPrefix_spec. by exists rest. }
      by rewrite Hown.
    - repeat (destruct (_ && _); [done|]).
      destruct (match GetOwnerReferences r with
                | Some refs => ownedByPackageManager refs
                | None => false
                end); [done|].
      rewrite Hk. simpl.
      assert (Hpre : strings.HasPrefix (GetAPIVersion r) "pkg.crossplane.io"
                     = true) by (apply HasPrefix_spec; by exists rest).
      by rewrite Hpre. }
  split; [exact Hskip|].
  intros List fuel out Hrun Hin.
  apply FetchResources_kept in Hrun; [|constructor].
  rewrite Forall_forall in Hrun. apply Hrun in Hin. congruence.
Qed.

Lemma shouldSkip_system_artifacts_witness :
  shouldSkip sample.tenantFetcher scenario.providerSecret = true.
Proof.
  apply (shouldSkip_system_artifacts sample.tenantFetcher
           scenario.providerSecret).
  right; right; left.
  exists [ {| or_APIVersion := "pkg.crossplane.io/v1"; or_Kind := "Provider";
              or_Name := "provider-aws" |} ],
         {| or_APIVersion := "pkg.crossplane.io/v1"; or_Kind := "Provider";
            or_Name := "provider-aws" |},
         "/v1".
  split; [vm_compute; reflexivity|]. split; [left | reflexivity].
Defined.

(** X7. A cluster-scoped object that is neither a Namespace, a ConfigMap,
    a Secret nor a Lock, that Helm does not manage and that no package
    owns is kept whatever the namespace options are. *)
Theorem shouldSkip_keeps_cluster_scoped (e : UnstructuredFetcher)
    (r : Unstructured) :
  GetNamespace r = "" →
  GetKind r ∉ ["Namespace"; "ConfigMap"; "Secret"; "Lock"] →
  index (GetLabels r) "app.kubernetes.io/managed-by" ≠ "Helm" →
  (∀ refs ref, GetOwnerReferences r = Some refs → ref ∈ refs →
               strings.HasPrefix (or_APIVersion ref) "pkg.crossplane.io"
               = false) →
  shouldSkip e r = false.
Proof.
  intros Hns Hkind Hhelm Hown. unfold shouldSkip.
  assert (Hk : ∀ k, k ∈ ["Namespace"; "ConfigMap"; "Secret"; "Lock"] →
                    String.eqb (GetKind r) k = false).
  { intros k Hin. apply String.eqb_neq. intros Heq. by rewrite Heq in Hkind. }
  rewrite (Hk "Namespace"), (Hk "ConfigMap"), (Hk "Secret"), (Hk "Lock")
    by (repeat first [by left | right]).
  rewrite Hns. simpl.
  apply String.eqb_neq in Hhelm. rewrite Hhelm, andb_false_r.
  destruct (GetOwnerReferences r) as [refs|] eqn:Hrefs; [|done].
  assert (Hnone : ownedByPackageManager refs = false).
  { destruct (ownedByPackageManager refs) eqn:Hex; [|done].
    apply existsb_exists in Hex as (ref & Hin & Hpre).
    rewrite (Hown refs ref eq_refl) in Hpre; [done|].
    by apply list_elem_of_In. }
  by rewrite Hnone.
Qed.

Lemma shouldSkip_keeps_cluster_scoped_witness :
  shouldSkip sample.tenantFetcher scenario.clusterWidget = false.
Proof.
  apply (shouldSkip_keeps_cluster_scoped sample.tenantFetcher
           scenario.clusterWidget).
  - vm_compute. reflexivity.
  - vm_compute. intros Hin.
    repeat (apply elem_of_cons in Hin as [Hin|Hin]; [discriminate Hin|]).
    by apply elem_of_nil in Hin.
  - vm_compute. discriminate.
  - intros refs ref Hrefs. vm_compute in Hrefs. discriminate Hrefs.
Defined.

End FetcherScope.

(** ** Extra resources *)

Section ExtraResources.

Import exporter selector.

(** X8. A resource name counts as an included extra resource exactly when
    the include list names it and the exclude list does not, however often
    and in whatever order the two lists name it. *)
Theorem IncludedExtraResource_iff (e : ControlPlaneStateExporter)
    (gr : string) :
  IncludedExtraResource e gr = true
  ↔ gr ∈ IncludeExtraResources (options e)
    ∧ gr ∉ ExcludeResources (options e).
Proof. by rewrite IncludedExtraResource_spec, extraResources_spec. Qed.

End ExtraResources.

(** ** The control plane's own deployment *)

Section Deployment.

Import v1alpha1 crossplane collect.

Lemma scanDeployments_first (before after : list Deployment) (d : Deployment)
    (xp : CrossplaneInfo) :
  Forall (fun d => d_Name d ≠ "crossplane") before ->
  d_Name d = "crossplane" ->
  scanDeployments (before ++ d :: after) xp = scanDeployments [d] xp.
Proof.
  intros Hbefore Hd. induction Hbefore as [|d0 before Hd0 _ IH]; simpl.
  - by rewrite Hd.
  - destruct (String.eqb_spec (d_Name d0) "crossplane"); [done|].
    rewrite IH. simpl. by rewrite Hd.
Qed.

Lemma containerFlags_first (cb ca : list Container) (c : Container)
    (flags : list string) :
  Forall (fun c => ¬ isCrossplaneContainer c) cb ->
  isCrossplaneContainer c ->
  containerFlags (cb ++ c :: ca) flags
  = flags ++ filter (fun a => strings.HasPrefix a "--enable" = true) (c_Args c).
Proof.
  intros Hcb Hc. induction Hcb as [|c0 cb Hc0 _ IH]; simpl.
  - destruct Hc as [-> | ->]; done.
  - destruct (String.eqb_spec (c_Name c0) "crossplane") as [Heq|_];
      [destruct Hc0; by left|].
    destruct (String.eqb_spec (c_Name c0) "universal-crossplane") as [Heq|_];
      [destruct Hc0; by right|].
    exact IH.
Qed.

Lemma containerFlags_none (cs : list Container) (flags : list string) :
  Forall (fun c => ¬ isCrossplaneContainer c) cs ->
  containerFlags cs flags = flags.
Proof.
  induction 1 as [|c0 cs Hc0 _ IH]; simpl; [done|].
  destruct (String.eqb_spec (c_Name c0) "crossplane") as [Heq|_];
    [destruct Hc0; by left|].
  destruct (String.eqb_spec (c_Name c0) "universal-crossplane") as [Heq|_];
    [destruct Hc0; by right|].
  exact IH.
Qed.

(** X9. The information comes from the first deployment named
    [crossplane], whatever follows it in the listing: its namespace, and
    its version and distribution labels, which are empty when it has no
    labels or lacks the label. *)
Theorem CollectInfo_first_crossplane (before after : list Deployment)
    (d : Deployment) :
  Forall (fun d => d_Name d ≠ "crossplane") before →
  d_Name d = "crossplane" →
  ∃ info, CollectInfo (Ok (before ++ d :: after)) = Ok info
    ∧ Namespace info = d_Namespace d
    ∧ Version info
      = default "" (d_Labels d ≫= (.!! "app.kubernetes.io/version"))
    ∧ Distribution info
      = default "" (d_Labels d ≫= (.!! "app.kubernetes.io/instance")).
Proof.
  intros Hbefore Hd. eexists. split.
  - unfold CollectInfo. by rewrite (scanDeployments_first before after d).
  - simpl. rewrite Hd. simpl. by destruct (d_Labels d).
Qed.

Lemma CollectInfo_first_crossplane_witness :
  ∃ info, CollectInfo (Ok scenario.twoCrossplanes) = Ok info
    ∧ Namespace info = "upbound-system"
    ∧ Version info = ""
    ∧ Distribution info = "".
Proof.
  exact (CollectInfo_first_crossplane []
           [ {| d_Name := "crossplane"; d_Namespace := "crossplane-system";
                d_Labels := Some {[ "app.kubernetes.io/version" := "1.14.5" ]};
                d_Containers := [] |} ]
           {| d_Name := "crossplane"; d_Namespace := "upbound-system";
              d_Labels := None;
              d_Containers :=
                [ {| c_Name := "sidecar"; c_Args := ["--enable-tracing"] |};
                  {| c_Name := "universal-crossplane";
                     c_Args := ["start"; "--enable-usages"; "--debug"] |};
                  {| c_Name := "crossplane";
                     c_Args := ["--enable-realtime"] |} ] |}
           (Forall_nil_2 _) eq_refl).
Defined.

(** X10. The feature flags are the arguments that start with [--enable]
    of the first container named [crossplane] or [universal-crossplane] of
    that deployment, in their order; the containers before and after it
    contribute nothing, and without such a container there are no flags. *)
Theorem CollectInfo_feature_flags (before after : list Deployment)
    (d : Deployment) :
  Forall (fun d => d_Name d ≠ "crossplane") before →
  d_Name d = "crossplane" →
  ∃ info, CollectInfo (Ok (before ++ d :: after)) = Ok info
    ∧ (∀ cb c ca,
         d_Containers d = cb ++ c :: ca →
         Forall (fun c => ¬ isCrossplaneContainer c) cb →
         isCrossplaneContainer c →
         FeatureFlags info
         = filter (fun a => strings.HasPrefix a "--enable" = true) (c_Args c))
    ∧ (Forall (fun c => ¬ isCrossplaneContainer c) (d_Containers d) →
       FeatureFlags info = []).
Proof.
  intros Hbefore Hd. eexists. split.
  - unfold CollectInfo. by rewrite (scanDeployments_first before after d).
  - simpl. rewrite Hd. simpl. split.
    + intros cb c ca Hcs Hcb Hc. rewrite Hcs.
      by rewrite (containerFlags_first cb ca c [] Hcb Hc).
    + intros Hnone. by apply containerFlags_none.
Qed.

Lemma CollectInfo_feature_flags_witness :
  ∃ info, CollectInfo (Ok scenario.twoCrossplanes) = Ok info
    ∧ FeatureFlags info = ["--enable-usages"].
Proof.
  destruct (CollectInfo_feature_flags []
           [ {| d_Name := "crossplane"; d_Namespace := "crossplane-system";
                d_Labels := Some {[ "app.kubernetes.io/version" := "1.14.5" ]};
                d_Containers := [] |} ]
           {| d_Name := "crossplane"; d_Namespace := "upbound-system";
              d_Labels := None;
              d_Containers :=
                [ {| c_Name := "sidecar"; c_Args := ["--enable-tracing"] |};
                  {| c_Name := "universal-crossplane";
                     c_Args := ["start"; "--enable-usages"; "--debug"] |};
                  {| c_Name := "crossplane";
                     c_Args := ["--enable-realtime"] |} ] |}
           (Forall_nil_2 _) eq_refl) as (info & Hinfo & Hflags & _).
  exists info. split; [exact Hinfo|].
  rewrite (Hflags [ {| c_Name := "sidecar"; c_Args := ["--enable-tracing"] |} ]
             {| c_Name := "universal-crossplane";
                c_Args := ["start"; "--enable-usages"; "--debug"] |}
             [ {| c_Name := "crossplane"; c_Args := ["--enable-realtime"] |} ]).
  - vm_compute. reflexivity.
  - reflexivity.
  - constructor; [|constructor]. intros [Hn|Hn]; discriminate Hn.
  - right. reflexivity.
Defined.

End Deployment.

(** ** Preflight and the unpacked archive *)

Section PreflightWorld.

Import v1alpha1 importer replay.

(** X11. A preflight makes no call that changes the target: the log of
    calls is as before. When the deployments cannot be listed it returns
    that one error and leaves the importer as it was; otherwise the
    importer holds a file system afterwards, the one it had or the one the
    unpacking left, also when the unpacking failed. *)
Theorem PreflightChecks_world (env : Env) (w : World) :
  log (PreflightChecks env w).2 = log w
  ∧ (∀ err, deployments env = Error err →
       PreflightChecks env w
       = ([Wrap (Wrap err
                   "cannot list deployments to find Crossplane deployment")
                "Cannot get Crossplane info"], w))
  ∧ (is_ok (deployments env) = true →
     im_fs (PreflightChecks env w).2 = Some (archiveOf env w)).
Proof.
  unfold PreflightChecks, crossplane.CollectInfo, wrapf, ensureUnarchived,
    archiveOf.
  destruct (deployments env) as [ds|err0]; simpl.
  - split; [|split; [done|intros _]];
      destruct (im_fs w) as [fs|] eqn:Hfs; simpl;
      try (destruct (unarchive env).2; simpl);
      repeat match goal with
             | |- context [match ?x with Ok _ => _ | Error _ => _ end] =>
                 destruct x; simpl
             end; done.
  - split; [done|]. split; [|done]. by intros err [= <-].
Qed.

Lemma PreflightChecks_world_witness :
  im_fs (PreflightChecks scenario.corruptArchiveEnv sample.freshWorld).2
  = Some scenario.emptyFs.
Proof.
  apply (proj2 (proj2 (PreflightChecks_world scenario.corruptArchiveEnv
                         sample.freshWorld))).
  reflexivity.
Defined.

(** X12. Once the importer holds a file system, an import does not unpack
    the archive again: its outcome and the calls it makes depend on the
    answers to the imports, the listings and the modifications only, not
    on what unpacking would give. *)
Theorem Import_reuses_archive (env env' : Env)
    (im : ControlPlaneStateImporter) (w : World) (fs : MemFs) :
  im_fs w = Some fs →
  ImportResources env = ImportResources env' →
  List env = List env' →
  ModifyResources env = ModifyResources env' →
  Import env im w = Import env' im w.
Proof.
  intros Hfs Himp Hlist Hmod.
  destruct env as [d u um ir li mo], env' as [d' u' um' ir' li' mo'].
  simpl in *. subst ir' li' mo'.
  unfold Import, wrapf, ensureUnarchived, mbind, M_bind. simpl.
  by rewrite Hfs.
Qed.

Lemma Import_reuses_archive_witness :
  Import scenario.corruptArchiveEnv (sample.sampleImporter false)
         (PreflightChecks scenario.corruptArchiveEnv sample.freshWorld).2
  = Import {| deployments := Ok [];
              unarchive := (sample.archiveFs, Ok tt);
              Unmarshal := fun _ => Error (Errorf "not read" []);
              ImportResources := fun _ _ => Ok 0;
              List := fun _ _ => Ok [];
              ModifyResources := fun _ => Ok 0 |}
           (sample.sampleImporter false)
           (PreflightChecks scenario.corruptArchiveEnv sample.freshWorld).2.
Proof.
  apply (Import_reuses_archive _ _ _ _ scenario.emptyFs); reflexivity.
Defined.

End PreflightWorld.

(** ** The readiness poll *)

Section Poll.

Import importer ready.

Lemma unmetCondition_false (status : xpv1.ConditionedStatus)
    (conditions : list string) :
  unmetCondition status conditions = false
  ↔ Forall (fun c =>
              xpv1.Status (xpv1.GetCondition (xpv1.Conditions status) c)
              = "True")
           conditions.
Proof.
  unfold unmetCondition.
  induction conditions as [|c cs IH]; simpl.
  - split; [constructor|done].
  - rewrite orb_false_iff, IH, negb_false_iff, String.eqb_eq.
    split; [intros [? ?]; by constructor | by inversion 1].
Qed.

Lemma countUnmet_cons (r : unstructured.Unstructured)
    (rest : list unstructured.Unstructured) (conditions : list string)
    (unmet : nat) :
  countUnmet (r :: rest) conditions unmet
  = match readStatus r with
    | None => None
    | Some status =>
        countUnmet rest conditions
          (if unmetCondition status conditions then S unmet else unmet)
    end.
Proof. reflexivity. Qed.

Lemma countUnmet_range (items : list unstructured.Unstructured)
    (conditions : list string) (n m : nat) :
  countUnmet items conditions n = Some m ->
  (n <= m <= n + length items)%nat
  /\ (m = n <-> Forall (met conditions) items).
Proof.
  revert n. induction items as [|r rest IH]; intros n Hrun.
  - simpl in *. injection Hrun as <-. split; [lia|]. split; [constructor|done].
  - rewrite countUnmet_cons in Hrun.
    destruct (readStatus r) as [status|] eqn:Hst; [|done].
    destruct (unmetCondition status conditions) eqn:Hun;
      apply IH in Hrun as [Hrange Hiff]; simpl; (split; [lia|]).
    + split; [lia|]. intros Hall. exfalso.
      apply Forall_cons in Hall as [(st & Hst' & Hmet) _].
      rewrite Hst in Hst'. injection Hst' as <-.
      apply unmetCondition_false in Hmet. congruence.
    + rewrite Hiff. split.
      * intros Hrest. constructor; [|done].
        exists status. split; [done|]. by apply unmetCondition_false.
      * intros Hall. by apply Forall_cons in Hall as [_ ?].
Qed.

Lemma countUnmet_decodes (items : list unstructured.Unstructured)
    (conditions : list string) (n : nat) :
  Forall (fun r => is_Some (readStatus r)) items ->
  is_Some (countUnmet items conditions n).
Proof.
  intros Hall. revert n.
  induction Hall as [|r rest [status Hst] _ IH]; intros n; [by eexists|].
  rewrite countUnmet_cons, Hst. apply IH.
Qed.

(** X13. A poll succeeds exactly when the listing succeeds and every
    listed resource reports each requested condition with status [True];
    a resource whose status cannot be decoded, or that misses a condition,
    makes the poll fail, as does an error of the listing. *)
Theorem pollOnce_ready_iff (listed : result (list unstructured.Unstructured))
    (conditions : list string) :
  pollOnce listed conditions = true
  ↔ ∃ items, listed = Ok items ∧ Forall (met conditions) items.
Proof.
  unfold pollOnce. destruct listed as [items|err].
  - destruct (countUnmet items conditions 0) as [unmet|] eqn:Hrun.
    + apply countUnmet_range in Hrun as [Hrange Hiff].
      destruct unmet as [|unmet]; simpl.
      * split; [|done]. intros _. exists items. split; [done|]. by apply Hiff.
      * split; [done|]. intros (items' & [= <-] & Hall).
        apply Hiff in Hall. lia.
    + split; [done|]. intros (items' & [= <-] & Hall). exfalso.
      assert (Hsome : is_Some (countUnmet items conditions 0)).
      { apply countUnmet_decodes. eapply Forall_impl; [exact Hall|].
        intros r (status & Hst & _). by eexists. }
      rewrite Hrun in Hsome. by destruct Hsome.
  - split; [done|]. by intros (items & Heq & _).
Qed.

(** X14. The unmet count never exceeds the number of listed resources,
    however many of the requested conditions a resource misses, and it is
    zero when no condition is requested. *)
Theorem countUnmet_at_most_once (items : list unstructured.Unstructured)
    (conditions : list string) (unmet : nat) :
  countUnmet items conditions 0 = Some unmet →
  (unmet ≤ length items)%nat ∧ (conditions = [] → unmet = 0).
Proof.
  intros Hrun.
  pose proof (countUnmet_decodes items [] 0) as Hnone.
  apply countUnmet_range in Hrun as Hr. destruct Hr as [Hrange Hiff].
  split; [lia|]. intros ->. apply Hiff.
  clear Hrange Hiff Hnone. revert Hrun. generalize 0.
  induction items as [|r rest IH]; intros n Hrun; [constructor|].
  rewrite countUnmet_cons in Hrun.
  destruct (readStatus r) as [status|] eqn:Hst; [|done].
  constructor; [|by eapply IH].
  exists status. split; [done|constructor].
Qed.

Lemma countUnmet_at_most_once_witness :
  (2 ≤ length [sample.unhealthyProvider; sample.healthyProvider;
               sample.unhealthyProvider])%nat.
Proof.
  refine (proj1 (countUnmet_at_most_once
                   [sample.unhealthyProvider; sample.healthyProvider;
                    sample.unhealthyProvider]
                   ["Installed"; "Healthy"] 2 _)).
  vm_compute. reflexivity.
Defined.

End Poll.

(** ** Waiting for a barrier *)

Section Waiting.

Import importer.

Lemma pollUntil_first (listing : nat -> result (list unstructured.Unstructured))
    (conditions : list string) (n k0 k : nat) :
  (k0 <= k < k0 + n)%nat ->
  pollOnce (listing k) conditions = true ->
  (forall j, (k0 <= j < k)%nat -> pollOnce (listing j) conditions = false) ->
  pollUntil listing conditions n k0 = (true, S k).
Proof.
  revert k0. induction n as [|n IH]; intros k0 Hk Hready Hbefore; [lia|].
  simpl. destruct (decide (k = k0)) as [->|Hne].
  - by rewrite Hready.
  - rewrite (Hbefore k0) by lia. apply IH; [lia|done|].
    intros j Hj. apply Hbefore. lia.
Qed.

Lemma pollUntil_never (listing : nat -> result (list unstructured.Unstructured))
    (conditions : list string) (n k0 : nat) :
  (forall j, (k0 <= j < k0 + n)%nat ->
             pollOnce (listing j) conditions = false) ->
  pollUntil listing conditions n k0 = (false, k0 + n).
Proof.
  revert k0. induction n as [|n IH]; intros k0 Hnever; simpl.
  - f_equal. lia.
  - rewrite (Hnever k0) by lia. rewrite IH; [f_equal; lia|].
    intros j Hj. apply Hnever. lia.
Qed.

(** X15. A wait returns without error at the first poll that succeeds,
    having made no poll beyond it; the polls before it may have failed for
    any reason, an error of the listing included. *)
Theorem waitForConditions_first_ready (env : Env)
    (im : ControlPlaneStateImporter) (gk : schema.GroupKind)
    (conditions : list string) (rm : schema.GroupVersionResource) (k : nat) :
  meta.RESTMapping (resourceMapper im) gk [] = Ok rm →
  (k < maxPolls)%nat →
  pollOnce (List env rm k) conditions = true →
  (∀ j, (j < k)%nat → pollOnce (List env rm j) conditions = false) →
  waitForConditionsPolls env im gk conditions = (Ok tt, S k).
Proof.
  intros Hmap Hk Hready Hbefore. unfold waitForConditionsPolls.
  rewrite Hmap, (pollUntil_first _ _ maxPolls 0 k); [done|lia|done|].
  intros j Hj. apply Hbefore. lia.
Qed.

Lemma waitForConditions_first_ready_witness :
  waitForConditionsPolls (sample.slowEnv 7) (sample.sampleImporter false)
                         (pkg "Provider") ["Installed"; "Healthy"]
  = (Ok tt, 8).
Proof.
  apply (waitForConditions_first_ready (sample.slowEnv 7)
           (sample.sampleImporter false) (pkg "Provider")
           ["Installed"; "Healthy"]
           {| schema.Group := "pkg.crossplane.io"; schema.Version := "v1";
              schema.Resource := "things" |} 7).
  - reflexivity.
  - vm_compute. lia.
  - vm_compute. reflexivity.
  - intros j Hj.
    do 7 (destruct j as [|j]; [vm_compute; reflexivity|]). lia.
Defined.

(** X16. A wait whose polls all fail gives up after the polls that fit
    before the deadline, 120 of them, and returns the timeout error that
    names the conditions and the kind; a kind that the mapper cannot
    resolve fails the wait before any poll. *)
Theorem waitForConditions_gives_up (env : Env)
    (im : ControlPlaneStateImporter) (gk : schema.GroupKind)
    (conditions : list string) :
  (∀ rm, meta.RESTMapping (resourceMapper im) gk [] = Ok rm →
         (∀ j, (j < 120)%nat → pollOnce (List env rm j) conditions = false) →
         waitForConditionsPolls env im gk conditions
         = (Error (Errorf
                     "timeout waiting for conditions %q to be satisfied for all %q"
                     [printConditions conditions; schema.gk_Kind gk]), 120))
  ∧ (∀ err, meta.RESTMapping (resourceMapper im) gk [] = Error err →
            waitForConditionsPolls env im gk conditions
            = (Error (Wrapf err "cannot get REST mapping for %q"
                            [schema.gk_Kind gk; schema.gk_Group gk]), 0)).
Proof.
  split.
  - intros rm Hmap Hnever. unfold waitForConditionsPolls.
    rewrite Hmap, (pollUntil_never _ _ maxPolls 0); [done|].
    intros j Hj. apply Hnever. rewrite maxPolls_eq in Hj. lia.
  - intros err Hmap. unfold waitForConditionsPolls. by rewrite Hmap.
Qed.

Lemma waitForConditions_gives_up_witness :
  waitForConditionsPolls (sample.slowEnv 120) (sample.sampleImporter false)
                         (pkg "Provider") ["Installed"; "Healthy"]
  = (Error (Errorf
              "timeout waiting for conditions %q to be satisfied for all %q"
              ["Installed and Healthy"; "Provider"]), 120).
Proof.
  apply (proj1 (waitForConditions_gives_up (sample.slowEnv 120)
                  (sample.sampleImporter false) (pkg "Provider")
                  ["Installed"; "Healthy"])
           {| schema.Group := "pkg.crossplane.io"; schema.Version := "v1";
              schema.Resource := "things" |}).
  - reflexivity.
  - intros j Hj. simpl.
    assert (Hlt : (j <? 120)%nat = true) by by apply Nat.ltb_lt.
    rewrite Hlt. reflexivity.
Defined.

End Waiting.

(** ** Barriers of the import *)

Section Barriers.

Import importer replay logic barrier.

Lemma hoare_bind_assoc {W A B C} (P : W -> Prop) (m : M W A)
    (g : A -> M W B) (f : B -> M W C) (Q : result C -> W -> Prop) :
  hoare P (m ≫= (fun a => g a ≫= f)) Q -> hoare P ((m ≫= g) ≫= f) Q.
Proof.
  intros H w Hw. specialize (H w Hw). unfold mbind, M_bind in *.
  by destruct (m w) as [[a|e] w'].
Qed.

Lemma hoare_ret_bind {W A B} (P : W -> Prop) (a : A) (f : A -> M W B)
    (Q : result B -> W -> Prop) :
  hoare P (f a) Q -> hoare P (mret a ≫= f) Q.
Proof. intros H w Hw. exact (H w Hw). Qed.

Lemma hoare_any {W A} (P : W -> Prop) (m : M W A)
    (Q : result A -> W -> Prop) :
  (forall r w, Q r w) -> hoare P m Q.
Proof. intros HQ w _. apply HQ. Qed.

Variables (env : Env) (im : ControlPlaneStateImporter).

Lemma quiet_emit (ev : event) :
  afterBarriers ev = false ->
  hoare quiet (emit ev) (fun _ w => quiet w).
Proof.
  intros Hev w Hw. unfold quiet in *. simpl.
  apply Forall_app. split; [exact Hw|]. by constructor.
Qed.

Lemma quiet_then {A B} (m : M World A) (f : A -> M World B)
    (Q : result B -> World -> Prop) :
  hoare quiet m (fun _ w => quiet w) ->
  (forall a, hoare quiet (f a) Q) ->
  (forall e w, quiet w -> Q (Error e) w) ->
  hoare quiet (m ≫= f) Q.
Proof.
  intros Hm Hf HQ. apply (hoare_bind quiet (fun _ => quiet)); [|exact Hf].
  apply (hoare_consequence _ quiet _ _ (fun _ w => quiet w));
    [exact Hm | done |].
  intros [a|e] w Hw; [exact Hw | by apply HQ].
Qed.

Lemma quiet_wrapf {A} (m : M World A) (msg : string) (args : list string) :
  hoare quiet m (fun _ w => quiet w) ->
  hoare quiet (wrapf m msg args) (fun _ w => quiet w).
Proof.
  intros Hm. apply hoare_wrapf.
  apply (hoare_consequence _ quiet _ _ (fun _ w => quiet w));
    [exact Hm | done |]. by intros [a|e] w Hw.
Qed.

Lemma quiet_ensureUnarchived :
  hoare quiet (ensureUnarchived env) (fun _ w => quiet w).
Proof.
  intros w Hw. unfold ensureUnarchived, quiet in *.
  destruct (im_fs w); [done|]. by destruct (unarchive env).2.
Qed.

Lemma quiet_importBase (counts : gmap string nat) (gr : string) :
  hoare quiet (importBase env counts gr) (fun _ w => quiet w).
Proof.
  unfold importBase, importResources.
  apply quiet_then; [|intros count; by apply hoare_ret|done].
  apply quiet_wrapf.
  apply quiet_then; [by apply quiet_emit | intros _; by apply hoare_call|done].
Qed.

Lemma quiet_base_loop (counts : gmap string nat) :
  hoare quiet (for_range baseResources (importBase env) counts)
        (fun _ w => quiet w).
Proof.
  apply hoare_for_range; [|done].
  intros s x.
  apply (hoare_consequence _ quiet _ _ (fun _ w => quiet w));
    [apply quiet_importBase | done |]. by intros [a|e] w Hw.
Qed.

(** A wait followed by [f]: when the wait fails the log stays quiet; the
    continuation runs only under the fact that the wait returned without
    error. *)
Lemma wait_then {B} (gk : schema.GroupKind) (conditions : list string)
    (msg : string) (args : list string) (f : unit -> M World B)
    (Q : result B -> World -> Prop) :
  (waited env im gk conditions -> forall a, hoare quiet (f a) Q) ->
  (forall e w, quiet w -> Q (Error e) w) ->
  hoare quiet
        (wrapf (waitForConditions env im gk conditions) msg args ≫= f) Q.
Proof.
  intros Hf HQ w Hw.
  assert (Hw' : quiet {| im_fs := im_fs w;
                         log := log w ++ [EvWaitForConditions gk conditions] |}).
  { unfold quiet in *. simpl. apply Forall_app. split; [exact Hw|].
    by constructor. }
  unfold waited in Hf.
  unfold wrapf, waitForConditions, emit, modify, call, mbind, M_bind. simpl.
  destruct (waitForConditionsPolls env im gk conditions).1 as [[]|e]; simpl.
  - by apply Hf.
  - by apply HQ.
Qed.

Lemma wait_loop_then {B} (ks : list schema.GroupKind)
    (conditions : list string) (f : unit -> M World B)
    (Q : result B -> World -> Prop) (s : unit) :
  (Forall (fun k => waited env im k conditions) ks ->
   forall a, hoare quiet (f a) Q) ->
  (forall e w, quiet w -> Q (Error e) w) ->
  hoare quiet (for_range ks (waitAll env im conditions) s ≫= f) Q.
Proof.
  revert s. induction ks as [|k ks IH]; intros s Hf HQ; simpl.
  - apply hoare_ret_bind, Hf. constructor.
  - apply hoare_bind_assoc. unfold waitAll at 1.
    apply wait_then; [|exact HQ].
    intros Hk a. apply IH; [|exact HQ].
    intros Hks a'. apply Hf. by constructor.
Qed.

Lemma Import_quiet_or_passed :
  hoare quiet (Import env im) (fun _ w => quiet w \/ passed env im).
Proof.
  unfold Import.
  apply quiet_then; [apply quiet_wrapf, quiet_ensureUnarchived| |by left].
  intros fs.
  apply quiet_then; [apply quiet_base_loop| |by left].
  intros baseCounts.
  apply wait_then; [|by left]. intros HA _.
  apply wait_loop_then; [|by left]. intros HB _.
  apply wait_loop_then; [|by left]. intros HC _.
  apply hoare_any. intros r w. right.
  unfold passed, waits.
  apply Forall_cons in HB as [HB1 HB]. apply Forall_cons in HB as [HB2 HB].
  apply Forall_cons in HB as [HB3 _].
  apply Forall_cons in HC as [HC1 HC]. apply Forall_cons in HC as [HC2 HC].
  apply Forall_cons in HC as [HC3 _].
  repeat constructor; assumption.
Qed.

End Barriers.

(** X17. An import reaches the steps that follow the barriers only after
    all seven waits have returned without error: when the log of a run
    that started without such calls holds a mapper reset, an import with
    status replay or an unpausing, every wait of the three barriers
    succeeded. *)
Theorem Import_respects_barriers (env : importer.Env)
    (im : importer.ControlPlaneStateImporter) (w : importer.World) :
  barrier.quiet w →
  Exists (fun ev => barrier.afterBarriers ev = true)
         (importer.log (importer.Import env im w).2) →
  barrier.passed env im.
Proof.
  intros Hw Hex.
  destruct (Import_quiet_or_passed env im w Hw) as [Hquiet|Hpassed];
    [|exact Hpassed].
  exfalso. unfold barrier.quiet in Hquiet.
  apply Exists_exists in Hex as (ev & Hin & Hev).
  rewrite Forall_forall in Hquiet. apply Hquiet in Hin. congruence.
Qed.

Lemma Import_respects_barriers_witness :
  barrier.passed (sample.slowEnv 3) (sample.sampleImporter false).
Proof.
  apply (Import_respects_barriers (sample.slowEnv 3)
           (sample.sampleImporter false) sample.freshWorld).
  - constructor.
  - apply Exists_exists. exists importer.EvReset.
    split; [|reflexivity].
    apply (bool_decide_unpack _). vm_compute. reflexivity.
Defined.

(** ** What a successful import implies *)

Section Inversion.

Lemma bind_ok {W A B} (m : M W A) (f : A -> M W B) (w w' : W) (b : B) :
  (m ≫= f) w = (Ok b, w') ->
  exists a w1, m w = (Ok a, w1) /\ f a w1 = (Ok b, w').
Proof.
  unfold mbind, M_bind. destruct (m w) as [[a|e] w1]; [|done].
  intros Hf. by exists a, w1.
Qed.

Lemma wrapf_ok_inv {W A} (m : M W A) (msg : string) (args : list string)
    (w w' : W) (a : A) :
  wrapf m msg args w = (Ok a, w') -> m w = (Ok a, w').
Proof. unfold wrapf. destruct (m w) as [[a'|e] w'']; by intros [= <- <-]. Qed.

Lemma for_range_ok {W X S} (xs : list X) (body : S -> X -> M W S) (s s' : S)
    (w w' : W) :
  for_range xs body s w = (Ok s', w') ->
  Forall (fun x => exists s0 w0 s1 w1, body s0 x w0 = (Ok s1, w1)) xs.
Proof.
  revert s w. induction xs as [|x xs IH]; intros s w Hrun; [constructor|].
  simpl in Hrun. apply bind_ok in Hrun as (s1 & w1 & Hx & Hrest).
  constructor; [by exists s, w, s1, w1 | by eapply IH].
Qed.

Import importer replay barrier.

Lemma importResources_ok (env : Env) (gr : string) (applyStatus : bool)
    (w w' : World) (count : nat) :
  importResources env gr applyStatus w = (Ok count, w') ->
  ImportResources env gr applyStatus = Ok count.
Proof.
  unfold importResources, emit, modify, call, mbind, M_bind. simpl.
  by intros [= -> _].
Qed.

Lemma modifyResources_ok (env : Env) (category : string) (w w' : World)
    (count : nat) :
  modifyResources env category w = (Ok count, w') ->
  ModifyResources env category = Ok count.
Proof.
  unfold modifyResources, emit, modify, call, mbind, M_bind. simpl.
  by intros [= -> _].
Qed.

Lemma waitAll_ok (env : Env) (im : ControlPlaneStateImporter)
    (conditions : list string) (k : schema.GroupKind) (u u' : unit)
    (w w' : World) :
  waitAll env im conditions u k w = (Ok u', w') ->
  waited env im k conditions.
Proof.
  unfold waitAll, waited. intros Hrun%wrapf_ok_inv.
  unfold waitForConditions, emit, modify, call, mbind, M_bind in Hrun.
  simpl in Hrun. injection Hrun as Hr _. rewrite Hr. by destruct u'.
Qed.

Lemma wait_loop_ok (env : Env) (im : ControlPlaneStateImporter)
    (conditions : list string) (ks : list schema.GroupKind) (u u' : unit)
    (w w' : World) :
  for_range ks (waitAll env im conditions) u w = (Ok u', w') ->
  Forall (fun k => waited env im k conditions) ks.
Proof.
  intros Hrun%for_range_ok. eapply Forall_impl; [exact Hrun|].
  intros k (s0 & w0 & s1 & w1 & Hk). by eapply waitAll_ok.
Qed.

(** X18. An import returns without error only if every step did: the
    archive was at hand or could be unpacked, each base resource was
    imported, all seven waits succeeded, the root directory could be read
    and held nothing but the manifest and directories, each directory
    outside the base tier was imported, and the composites, the claims and
    (when requested) the managed resources were unpaused. *)
Theorem Import_success_needs (env : Env) (im : ControlPlaneStateImporter)
    (w : World) :
  (Import env im w).1 = Ok tt →
  (im_fs w = None → (unarchive env).2 = Ok tt)
  ∧ Forall (fun gr => is_ok (ImportResources env gr false) = true)
           baseResources
  ∧ passed env im
  ∧ (∃ grs, ReadDir (archiveOf env w) "/" = Ok grs
       ∧ Forall (fun info =>
                   fi_Name info = "export.yaml"
                   ∨ (IsDir info = true
                      ∧ (isBaseResource (fi_Name info) = true
                         ∨ is_ok (ImportResources env (fi_Name info) true)
                           = true)))
                grs)
  ∧ is_ok (ModifyResources env "composite") = true
  ∧ is_ok (ModifyResources env "claim") = true
  ∧ (UnpauseAfterImport (options im) = true →
     is_ok (ModifyResources env "managed") = true).
Proof.
  intros Hres.
  destruct (Import env im w) as [r wend] eqn:Hrun. simpl in Hres. subst r.
  unfold Import in Hrun.
  apply bind_ok in Hrun as (fs & w1 & Hfs%wrapf_ok_inv & Hrun).
  apply bind_ok in Hrun as (baseCounts & w2 & Hbase%for_range_ok & Hrun).
  apply bind_ok in Hrun as ([] & w3 & HA%wrapf_ok_inv & Hrun).
  apply bind_ok in Hrun as ([] & w4 & HB%wait_loop_ok & Hrun).
  apply bind_ok in Hrun as ([] & w5 & HC%wait_loop_ok & Hrun).
  apply bind_ok in Hrun as ([] & w6 & _ & Hrun).
  apply bind_ok in Hrun as (grs & w7 & Hgrs%wrapf_ok_inv & Hrun).
  apply bind_ok in Hrun as (remaining & w8 & Hrem%for_range_ok & Hrun).
  apply bind_ok in Hrun as (n1 & w9 & Hcomp%wrapf_ok_inv%modifyResources_ok
                            & Hrun).
  apply bind_ok in Hrun as (n2 & w10 & Hclaim%wrapf_ok_inv%modifyResources_ok
                            & Hrun).
  pose proof (ensureUnarchived_archiveOf env w w1 fs Hfs) as ->.
  split; [|split; [|split; [|split; [|split; [|split]]]]].
  - intros Hnil. unfold ensureUnarchived in Hfs. rewrite Hnil in Hfs.
    destruct (unarchive env).2 as [[]|e]; done.
  - eapply Forall_impl; [exact Hbase|].
    intros gr (s0 & w0 & s1 & w1' & Hgr). unfold importBase in Hgr.
    apply bind_ok in Hgr as (count & w0' & Hc%wrapf_ok_inv%importResources_ok
                             & _).
    by rewrite Hc.
  - unfold passed, waits.
    assert (HA' : waited env im
                    {| schema.gk_Group := "apiextensions.crossplane.io";
                       schema.gk_Kind := "CompositeResourceDefinition" |}
                    ["Established"]).
    { unfold waited, waitForConditions, emit, modify, call, mbind, M_bind
        in *. simpl in HA. by injection HA as -> _. }
    apply Forall_cons in HB as [HB1 HB]. apply Forall_cons in HB as [HB2 HB].
    apply Forall_cons in HB as [HB3 _].
    apply Forall_cons in HC as [HC1 HC]. apply Forall_cons in HC as [HC2 HC].
    apply Forall_cons in HC as [HC3 _].
    repeat constructor; assumption.
  - exists grs. split; [unfold call in Hgrs; by injection Hgrs as -> _|].
    eapply Forall_impl; [exact Hrem|].
    intros info (s0 & w0 & s1 & w1' & Hinfo). unfold importRemaining in Hinfo.
    destruct (String.eqb_spec (fi_Name info) "export.yaml"); [by left|].
    right. destruct (IsDir info); [|done]. split; [done|].
    destruct (isBaseResource (fi_Name info)); [by left|]. right.
    apply bind_ok in Hinfo as (count & w0' & Hc%wrapf_ok_inv%importResources_ok
                               & _).
    by rewrite Hc.
  - by rewrite Hcomp.
  - by rewrite Hclaim.
  - intros Hun. rewrite Hun in Hrun.
    apply bind_ok in Hrun as (n3 & w11 & Hm%wrapf_ok_inv%modifyResources_ok
                              & _).
    by rewrite Hm.
Qed.

Lemma Import_success_needs_witness :
  passed (sample.calmEnv sample.crossplaneDeployments
            (sample.manifest "1.14.5" []))
         (sample.sampleImporter true).
Proof.
  refine (proj1 (proj2 (proj2 (Import_success_needs
            (sample.calmEnv sample.crossplaneDeployments
               (sample.manifest "1.14.5" []))
            (sample.sampleImporter true) sample.freshWorld _)))).
  vm_compute. reflexivity.
Defined.

End Inversion.

(** ** Calls of an import *)

Section Calls.

Import importer replay logic barrier.

Lemma baseTier_base (gr : string) (applyStatus : bool) :
  EvImportResources gr applyStatus ∈ baseTier ->
  applyStatus = false /\ isBaseResource gr = true.
Proof.
  unfold baseTier. intros Hin.
  repeat (apply elem_of_cons in Hin as [Hin|Hin];
          [injection Hin as -> ->; by vm_compute|]).
  by apply elem_of_nil in Hin.
Qed.

Lemma remainderTier_not_base (grs : list FileInfo) (gr : string)
    (applyStatus : bool) :
  EvImportResources gr applyStatus ∈ remainderTier grs ->
  applyStatus = true /\ isBaseResource gr = false
  /\ gr <> "export.yaml" /\ gr ∈ fi_Name <$> grs.
Proof.
  unfold remainderTier. intros Hin%list_elem_of_In%in_flat_map.
  destruct Hin as (info & Hinfo%list_elem_of_In & Hin).
  unfold remainderOf in Hin.
  destruct (String.eqb_spec (fi_Name info) "export.yaml") as [|Hne]; [done|].
  destruct (isBaseResource (fi_Name info)) eqn:Hbase; [done|].
  destruct Hin as [[= <- <-]|[]].
  repeat split; try done. by apply list_elem_of_fmap_2.
Qed.

Lemma replayOrder_imports (grs : list FileInfo) (unpause : bool)
    (gr : string) (applyStatus : bool) :
  EvImportResources gr applyStatus ∈ replayOrder grs unpause ->
  applyStatus = negb (isBaseResource gr).
Proof.
  unfold replayOrder. rewrite !elem_of_app.
  intros [Hin|[Hin|[Hin|[Hin|[Hin|[Hin|Hin]]]]]].
  - apply baseTier_base in Hin as [-> ->]. done.
  - unfold barrierA in Hin. set_unfold. naive_solver.
  - unfold barrierB in Hin. set_unfold. naive_solver.
  - unfold barrierC in Hin. set_unfold. naive_solver.
  - set_unfold. naive_solver.
  - apply remainderTier_not_base in Hin as (-> & -> & _). done.
  - unfold unpausing in Hin. destruct unpause; set_unfold; naive_solver.
Qed.

(** X19. The status subresource is replayed for exactly the types outside
    the base tier: whenever a run imports a type, it does so with status
    replay if and only if the type is not a base resource. *)
Theorem Import_status_replay (env : Env) (im : ControlPlaneStateImporter)
    (w : World) :
  ∃ t, log (Import env im w).2 = log w ++ t
    ∧ ∀ gr applyStatus,
        EvImportResources gr applyStatus ∈ t →
        applyStatus = negb (isBaseResource gr).
Proof.
  destruct (Import_emits env im w) as (t & Hlog & [k Hpre] & _).
  exists t. split; [exact Hlog|].
  intros gr applyStatus Hin.
  apply (replayOrder_imports (rootEntries env w)
           (UnpauseAfterImport (options im))).
  rewrite Hpre. apply elem_of_app. by left.
Qed.





End Calls.

(** ** Export: the paths it leaves alone *)

Section Steady.

Import logic.

Lemma steady_bind {W A B} (I : W -> Prop) (m : M W A) (f : A -> M W B) :
  hoare I m (fun _ w => I w) ->
  (forall a, hoare I (f a) (fun _ w => I w)) ->
  hoare I (m ≫= f) (fun _ w => I w).
Proof.
  intros Hm Hf. apply (hoare_bind I (fun _ => I)); [|exact Hf].
  apply (hoare_consequence _ I _ _ (fun _ w => I w)); [exact Hm|done|].
  by intros [a|e] w Hw.
Qed.

Lemma steady_wrapf {W A} (I : W -> Prop) (m : M W A) (msg : string)
    (args : list string) :
  hoare I m (fun _ w => I w) -> hoare I (wrapf m msg args) (fun _ w => I w).
Proof.
  intros Hm. apply hoare_wrapf.
  apply (hoare_consequence _ I _ _ (fun _ w => I w)); [exact Hm|done|].
  by intros [a|e] w Hw.
Qed.

Lemma steady_for_range {W X S} (I : W -> Prop) (xs : list X)
    (body : S -> X -> M W S) (s : S) :
  (forall s x, hoare I (body s x) (fun _ w => I w)) ->
  hoare I (for_range xs body s) (fun _ w => I w).
Proof.
  intros Hbody. apply hoare_for_range; [|done].
  intros s' x.
  apply (hoare_consequence _ I _ _ (fun _ w => I w)); [apply Hbody|done|].
  by intros [a|e] w Hw.
Qed.

End Steady.

Section Frame.

Import exporter selector export logic.

Variables (env : Env) (e : ControlPlaneStateExporter).
Variables (fs0 : FS) (tmp p : string).
Hypothesis Hp : below tmp p = false.
Hypothesis Hout : p ≠ OutputArchive (options e).

#[local] Abbreviation kept := (logic.untouched p fs0).

Lemma kept_writing {A} (out : list string * result A) :
  hoare kept (writing tmp out) (fun _ w => kept w).
Proof.
  unfold writing. apply steady_bind.
  - apply hoare_modify. intros w Hw. unfold logic.untouched in *.
    by rewrite elem_of_write_below.
  - intros _. by apply hoare_call.
Qed.

Lemma kept_exportCustom (counts : gmap string nat)
    (crd : apiextensionsv1.CustomResourceDefinition) :
  hoare kept (exportCustom env e tmp counts crd) (fun _ w => kept w).
Proof.
  unfold exportCustom.
  apply steady_bind; [apply steady_wrapf; by apply hoare_call|].
  intros gvr. apply steady_bind; [apply steady_wrapf, kept_writing|].
  intros count. by apply hoare_ret.
Qed.

Lemma kept_exportNative (counts : gmap string nat) (r : string) :
  hoare kept (exportNative env e tmp counts r) (fun _ w => kept w).
Proof.
  unfold exportNative.
  apply steady_bind; [apply steady_wrapf; by apply hoare_call|].
  intros gvr. apply steady_bind; [apply steady_wrapf, kept_writing|].
  intros count. by apply hoare_ret.
Qed.

Lemma kept_archive :
  hoare kept (archive env e tmp) (fun _ w => kept w).
Proof.
  unfold archive.
  apply steady_bind; [by apply hoare_call|]. intros _.
  apply steady_bind.
  { apply hoare_modify. intros w Hw. unfold logic.untouched in *.
    rewrite elem_of_union, elem_of_singleton. rewrite <- Hw.
    split; [intros [?|?]; done | by right]. }
  intros _. apply steady_bind; [by apply hoare_call|].
  intros _. by apply hoare_call.
Qed.

Lemma kept_exportSteps :
  hoare kept (exportSteps env e tmp) (fun _ w => kept w).
Proof.
  unfold exportSteps.
  apply steady_bind.
  { destruct (PauseBeforeExport (options e)); [|by apply hoare_ret].
    apply steady_bind; [apply steady_wrapf; by apply hoare_call|].
    intros _. by apply hoare_ret. }
  intros _. apply steady_bind; [apply steady_wrapf; by apply hoare_call|].
  intros crdList. simpl.
  apply steady_bind; [apply steady_for_range, kept_exportCustom|].
  intros crCounts.
  apply steady_bind; [apply steady_for_range, kept_exportNative|].
  intros nativeCounts.
  apply steady_bind; [apply steady_wrapf, kept_writing|].
  intros _. apply steady_wrapf, kept_archive.
Qed.

End Frame.

(** X21. An export, whether it succeeds or fails, leaves every path other
    than the output path and the temporary directory as it found it: such
    a path exists afterwards exactly when it existed before. *)
Theorem Export_leaves_other_paths (env : export.Env)
    (e : selector.ControlPlaneStateExporter) (fs : export.FS) (p : string) :
  p ≠ exporter.OutputArchive (selector.options e) →
  (∀ tmp, export.TempDir env = Ok tmp → export.below tmp p = false) →
  p ∈ (export.Export env e fs).2 ↔ p ∈ fs.
Proof.
  intros Hout Hp.
  destruct (export.TempDir env) as [tmp|err] eqn:Htmp.
  - rewrite (Export_unfold env e fs tmp Htmp). simpl.
    specialize (Hp tmp eq_refl).
    rewrite elem_of_RemoveAll.
    assert (Hstart : logic.untouched p fs ({[ tmp ]} ∪ fs)).
    { unfold logic.untouched. rewrite elem_of_union, elem_of_singleton.
      split; [|by right]. intros [Heq|Hin]; [|done].
      rewrite Heq, below_self in Hp. done. }
    pose proof (kept_exportSteps env e fs tmp p Hp Hout _ Hstart) as Hkept.
    unfold logic.untouched in Hkept. rewrite <- Hkept.
    split; [by intros [_ ?] | by intros ?].
  - unfold export.Export, wrapf, call, mbind, M_bind. by rewrite Htmp.
Qed.

Lemma Export_leaves_other_paths_witness :
  "/home/me/notes.txt"
    ∈ (export.Export sample.walkFailsEnv sample.defaultExporter
                     sample.homeFs).2
  ↔ "/home/me/notes.txt" ∈ sample.homeFs.
Proof.
  apply (Export_leaves_other_paths sample.walkFailsEnv sample.defaultExporter
           sample.homeFs "/home/me/notes.txt").
  - discriminate.
  - intros tmp [= <-]. vm_compute. reflexivity.
Defined.

(** ** Export: when it succeeds *)

Section Success.

Import exporter selector export total.

Lemma succeeds_ret {W A} (a : A) : succeeds (mret a : M W A).
Proof. intros w. by exists a, w. Qed.

Lemma succeeds_call {W A} (a : A) : succeeds (call (Ok a) : M W A).
Proof. intros w. by exists a, w. Qed.

Lemma succeeds_modify {W} (f : W -> W) : succeeds (modify f).
Proof. intros w. by exists tt, (f w). Qed.

Lemma succeeds_bind {W A B} (m : M W A) (f : A -> M W B) :
  succeeds m -> (forall a, succeeds (f a)) -> succeeds (m ≫= f).
Proof.
  intros Hm Hf w. destruct (Hm w) as (a & w1 & Ha).
  destruct (Hf a w1) as (b & w2 & Hb). exists b, w2.
  unfold mbind, M_bind. by rewrite Ha.
Qed.

Lemma succeeds_bind_call {W A B} (a : A) (msg : string) (args : list string)
    (f : A -> M W B) :
  succeeds (f a) -> succeeds (wrapf (call (Ok a)) msg args ≫= f).
Proof. intros Hf w. exact (Hf w). Qed.

Lemma succeeds_wrapf {W A} (m : M W A) (msg : string) (args : list string) :
  succeeds m -> succeeds (wrapf m msg args).
Proof.
  intros Hm w. destruct (Hm w) as (a & w1 & Ha). exists a, w1.
  unfold wrapf. by rewrite Ha.
Qed.

Lemma succeeds_for_range {W X S} (xs : list X) (body : S -> X -> M W S)
    (s : S) :
  Forall (fun x => forall s, succeeds (body s x)) xs ->
  succeeds (for_range xs body s).
Proof.
  intros Hall. revert s.
  induction Hall as [|x xs Hx _ IH]; intros s; simpl.
  - apply succeeds_ret.
  - apply succeeds_bind; [apply Hx | apply IH].
Qed.

Lemma succeeds_writing {A} (dir : string) (rel : list string) (r : result A) :
  is_ok r = true -> succeeds (writing dir (rel, r)).
Proof.
  intros Hr. destruct r as [a|]; [|done]. unfold writing. simpl.
  apply succeeds_bind; [apply succeeds_modify|]. intros _.
  apply succeeds_call.
Qed.

Lemma writing_ok {A} (dir : string) (out : list string * result A)
    (w w' : FS) (a : A) :
  writing dir out w = (Ok a, w') -> out.2 = Ok a.
Proof.
  unfold writing, modify, call, mbind, M_bind. simpl. by intros [= -> _].
Qed.

(** X22. An export returns without error exactly when every step does:
    the temporary directory is created, the managed resources are paused
    when that is requested, the definitions are listed, every selected
    definition resolves and exports, every extra resource that is included
    and not excluded resolves and exports, the manifest is written, and
    the output file is created, restricted and filled. *)
Theorem Export_succeeds_iff (env : Env) (e : ControlPlaneStateExporter)
    (fs : FS) :
  (Export env e fs).1 = Ok tt ↔ allAnswered env e.
Proof.
  split.
  - intros Hres.
    destruct (TempDir env) as [tmp|err] eqn:Htmp.
    2: { unfold Export, wrapf, call, mbind, M_bind in Hres.
         by rewrite Htmp in Hres. }
    rewrite (Export_unfold env e fs tmp Htmp) in Hres. simpl in Hres.
    destruct (exportSteps env e tmp ({[tmp]} ∪ fs)) as [r wend] eqn:Hrun.
    simpl in Hres. subst r. unfold exportSteps in Hrun.
    apply bind_ok in Hrun as ([] & w1 & Hpause & Hrun).
    apply bind_ok in Hrun as (crdList & w2 & Hcrds%wrapf_ok_inv & Hrun).
    simpl in Hrun.
    apply bind_ok in Hrun as (crCounts & w3 & Hcustom%for_range_ok & Hrun).
    apply bind_ok in Hrun as (nativeCounts & w4 & Hnative%for_range_ok & Hrun).
    apply bind_ok in Hrun as ([] & w5 & Hmeta%wrapf_ok_inv%writing_ok & Hrun).
    apply wrapf_ok_inv in Hrun. unfold archive in Hrun.
    apply bind_ok in Hrun as ([] & w6 & Hcreate & Hrun).
    apply bind_ok in Hrun as ([] & w7 & _ & Hrun).
    apply bind_ok in Hrun as ([] & w8 & Hchmod & Hwalk).
    unfold call in Hcrds, Hcreate, Hchmod, Hwalk.
    injection Hcrds as Hcrds _. injection Hcreate as Hcreate _.
    injection Hchmod as Hchmod _. injection Hwalk as Hwalk _.
    unfold allAnswered.
    split; [by exists tmp|]. split; [|split; [|split; [|split]]].
    + intros Hflag. rewrite Hflag in Hpause.
      apply bind_ok in Hpause as (n & w0 & Hp%wrapf_ok_inv & _).
      unfold call in Hp. injection Hp as -> _. done.
    + exists crdList. split; [done|].
      apply Forall_forall. intros crd Hin Hsel.
      rewrite Forall_forall in Hcustom.
      destruct (Hcustom crd) as (s0 & w0 & s1 & w1' & Hbody).
      { apply list_elem_of_filter. by split. }
      unfold exportCustom in Hbody.
      apply bind_ok in Hbody as (gvr & w0' & Hgvr%wrapf_ok_inv & Hbody).
      apply bind_ok in Hbody as (count & w0'' & Hexp%wrapf_ok_inv%writing_ok
                                 & _).
      unfold call in Hgvr. injection Hgvr as Hgvr _.
      exists gvr. split; [done|]. by rewrite Hexp.
    + intros r Hinc Hexc.
      rewrite Forall_forall in Hnative.
      destruct (Hnative r) as (s0 & w0 & s1 & w1' & Hbody).
      { apply elem_of_elements, extraResources_spec. by split. }
      unfold exportNative in Hbody.
      apply bind_ok in Hbody as (gvr & w0' & Hgvr%wrapf_ok_inv & Hbody).
      apply bind_ok in Hbody as (count & w0'' & Hexp%wrapf_ok_inv%writing_ok
                                 & _).
      unfold call in Hgvr. injection Hgvr as Hgvr _.
      exists gvr. split; [done|]. by rewrite Hexp.
    + by rewrite Hmeta.
    + done.
  - intros ((tmp & Htmp) & Hpause & (crdList & Hcrds & Hcustom) & Hnative
            & Hmeta & Hcreate & Hchmod & Hwalk).
    rewrite (Export_unfold env e fs tmp Htmp). simpl.
    assert (Hsteps : succeeds (exportSteps env e tmp)).
    { unfold exportSteps.
      apply succeeds_bind.
      { destruct (PauseBeforeExport (options e)); [|apply succeeds_ret].
        apply succeeds_bind; [|intros _; apply succeeds_ret].
        apply succeeds_wrapf.
        destruct (pauseManaged env) as [n|]; [apply succeeds_call|].
        by specialize (Hpause eq_refl). }
      intros _. rewrite Hcrds. apply succeeds_bind_call. simpl.
      apply succeeds_bind.
      { apply succeeds_for_range, Forall_forall.
        intros crd Hin%list_elem_of_filter s. destruct Hin as [Hsel Hin].
        rewrite Forall_forall in Hcustom.
        destruct (Hcustom crd Hin Hsel) as (gvr & Hgvr & Hexp).
        unfold exportCustom. rewrite Hgvr. apply succeeds_bind_call.
        apply succeeds_bind; [|intros count; apply succeeds_ret].
        apply succeeds_wrapf.
        destruct (ExportResources env gvr) as [rel r].
        by apply succeeds_writing. }
      intros crCounts. apply succeeds_bind.
      { apply succeeds_for_range, Forall_forall.
        intros r Hin%elem_of_elements%extraResources_spec s.
        destruct Hin as [Hinc Hexc].
        destruct (Hnative r Hinc Hexc) as (gvr & Hgvr & Hexp).
        unfold exportNative. rewrite Hgvr. apply succeeds_bind_call.
        apply succeeds_bind; [|intros count; apply succeeds_ret].
        apply succeeds_wrapf.
        destruct (ExportResources env gvr) as [rel r0].
        by apply succeeds_writing. }
      intros nativeCounts. apply succeeds_bind.
      { apply succeeds_wrapf. destruct (ExportMetadata env) as [rel r].
        by apply succeeds_writing. }
      intros _. apply succeeds_wrapf. unfold archive.
      rewrite Hcreate, Hchmod, Hwalk.
      apply succeeds_bind; [apply succeeds_call|]. intros _.
      apply succeeds_bind; [apply succeeds_modify|]. intros _.
      apply succeeds_bind; [apply succeeds_call|]. intros _.
      apply succeeds_call. }
    destruct (Hsteps ({[tmp]} ∪ fs)) as ([] & w' & Hrun). by rewrite Hrun.
Qed.

End Success.

(** ** Commands that list and print *)

Section Commands.

(** X23. Getting an organization by name prints the first organization
    of the listing that bears the name, and nothing else, and returns what
    the printer returns; when no organization bears the name it prints
    nothing and fails with an error that carries the name. *)
Theorem orgcmd_Run_first_match (env : orgcmd.Env) (name : string)
    (orgs : list orgcmd.Organization) (printed : list orgcmd.Organization) :
  orgcmd.List env = Ok orgs →
  (∀ before o after,
     orgs = before ++ o :: after →
     Forall (fun o' => orgcmd.Name o' ≠ name) before →
     orgcmd.Name o = name →
     orgcmd.Run env name printed = (orgcmd.Print env o, printed ++ [o]))
  ∧ (Forall (fun o' => orgcmd.Name o' ≠ name) orgs →
     orgcmd.Run env name printed
     = (Error (Errorf "no organization named %s" [name]), printed)).
Proof.
  intros Hlist.
  assert (Hrun : orgcmd.Run env name printed = orgcmd.find env name orgs printed).
  { unfold orgcmd.Run, call, mbind, M_bind. by rewrite Hlist. }
  rewrite Hrun. clear Hrun Hlist. split.
  - intros before o after -> Hbefore Ho.
    induction Hbefore as [|o' before Ho' _ IH]; simpl.
    + apply String.eqb_eq in Ho. rewrite Ho. reflexivity.
    + apply String.eqb_neq in Ho'. by rewrite Ho'.
  - induction 1 as [|o' rest Ho' _ IH]; simpl; [done|].
    apply String.eqb_neq in Ho'. by rewrite Ho'.
Qed.

Lemma orgcmd_Run_first_match_witness :
  orgcmd.Run scenario.orgsEnv "acme" [] = (Ok tt, [scenario.acme]).
Proof.
  apply (proj1 (orgcmd_Run_first_match scenario.orgsEnv "acme" _ []
                  eq_refl)
           [ {| orgcmd.ID := 3; orgcmd.Name := "initech" |} ]
           scenario.acme
           [ {| orgcmd.ID := 9; orgcmd.Name := "acme" |} ]).
  - reflexivity.
  - constructor; [discriminate | constructor].
  - reflexivity.
Defined.

(** X24. Listing robots asks for the robots of an account only when the
    account is an organization: for any other account the command fails
    with the user-account error without asking for robots or printing.
    For an organization without robots it prints the [No robots found]
    message and succeeds without calling the printer. *)
Theorem robotcmd_Run_organizations_only (env : robotcmd.Env)
    (account errUserAccount : string) (a : robotcmd.AccountResponse)
    (evs : list robotcmd.event) :
  robotcmd.Get env = Ok a →
  (robotcmd.Type_ a = robotcmd.AccountUser →
   robotcmd.Run env account errUserAccount evs
   = (Error (Errorf errUserAccount []), evs))
  ∧ (robotcmd.Type_ a = robotcmd.AccountOrganization →
     robotcmd.ListRobots env (robotcmd.OrganizationID a) = Ok [] →
     robotcmd.Run env account errUserAccount evs
     = (Ok tt, evs ++ [robotcmd.EvListRobots (robotcmd.OrganizationID a);
                       robotcmd.EvPrintfln "No robots found in %s" [account]]))
  ∧ (∀ r rs,
       robotcmd.Type_ a = robotcmd.AccountOrganization →
       robotcmd.ListRobots env (robotcmd.OrganizationID a) = Ok (r :: rs) →
       robotcmd.Run env account errUserAccount evs
       = (robotcmd.Print env (r :: rs),
          evs ++ [robotcmd.EvListRobots (robotcmd.OrganizationID a);
                  robotcmd.EvPrint (r :: rs) robotcmd.fieldNames])).
Proof.
  intros Hget.
  unfold robotcmd.Run, robotcmd.emit, call, modify, fail, mbind, M_bind.
  rewrite Hget. simpl. split; [|split].
  - by intros ->.
  - intros -> Hrs. simpl. rewrite Hrs. simpl. by rewrite <- app_assoc.
  - intros r rs -> Hrs. simpl. rewrite Hrs. simpl. by rewrite <- app_assoc.
Qed.

Lemma robotcmd_Run_organizations_only_witness :
  robotcmd.Run (scenario.robotsEnv robotcmd.AccountUser) "me"
               "robots are not available for user accounts" []
  = (Error (Errorf "robots are not available for user accounts" []), []).
Proof.
  apply (proj1 (robotcmd_Run_organizations_only
                  (scenario.robotsEnv robotcmd.AccountUser) "me"
                  "robots are not available for user accounts"
                  {| robotcmd.Type_ := robotcmd.AccountUser;
                     robotcmd.OrganizationID := 7 |} [] eq_refl)).
  reflexivity.
Defined.

(** X25. Every row that a command hands to the table printer has as many
    cells as the header it is printed under: the robot and template rows,
    and the control plane rows of both kinds of profile, for a response as
    for a value of another type. *)
Theorem table_rows_fit_header :
  (∀ age r, length (robotcmd.extractFields age r)
            = length robotcmd.fieldNames)
  ∧ (∀ o, length (templatecmd.extractFields o)
          = length templatecmd.fieldNames)
  ∧ (∀ human isSpace obj,
       length ((ctpcmd.tabularPrint human isSpace).2 obj)
       = length (ctpcmd.tabularPrint human isSpace).1).
Proof.
  split; [done|]. split; [done|].
  intros human [] []; reflexivity.
Qed.

End Commands.

(** ** A stray file in the archive *)

Section Stray.

Import importer replay logic unpause.





Variable env : Env.
Variable im : ControlPlaneStateImporter.









End Stray.


